(** * card-mcrd.c: the MICARDO driver of libopensc, as a shallow embedding

    The driver keeps, per card, the currently selected path ([curpath],
    [curpathlen], [is_ef]) and a list of per-directory records read from
    EF_Rule and EF_KeyD ([df_infos]).  Every C function of
    [src/libopensc/card-mcrd.c] that touches this state is rendered below as
    a computation in a small state monad over [sc_card]; the card itself is
    an oracle that answers each transmitted APDU.  [mcrd_compute_signature]
    and [mcrd_match_card], which do not use the driver data, follow the
    driver proper.

    Conventions.
    - [int], [size_t], [unsigned short] and [u8] values are [Z]; where the C
      code narrows a value ([u8 fbuf[0] = fid >> 8], [apdu.p1 = recno]) the
      reduction modulo [2^w] is written out.
    - An array is the [list Z] of its cells; a pointer into an array is the
      list of cells from the pointer onwards.
    - A C [assert] that fails, a read or write outside an array, and a
      dereference of [NULL] end the run with [Fault].
    - [malloc]/[calloc] are taken to succeed, except the [calloc] of
      [mcrd_init], whose outcome is an argument of the model.
    - The record loops of [load_special_files] have no bound of their own;
      they run on fuel, and a run that uses it up ends with [OutOfFuel].
    - Debug output ([debug], [sc_hex_dump], [sc_perror]) is not modelled. *)

From Stdlib Require Import ZArith List Bool Lia.
From Stdlib Require String Ascii.
Import ListNotations.
Local Open Scope Z_scope.

(** ** Constants defined in card-mcrd.c *)

Definition MCRD_SEL_MF : Z := 0x00.
Definition MCRD_SEL_DF : Z := 0x01.
Definition MCRD_SEL_EF : Z := 0x02.
Definition MCRD_SEL_AID : Z := 0x04.

Definition MFID : Z := 0x3F00.
Definition EF_KeyD : Z := 0x0013.
Definition EF_Rule : Z := 0x0030.

Definition MAX_CURPATH : Z := 10.

(** ** Data structures of card-mcrd.c *)

(** [struct rule_record_s] and [struct keyd_record_s]; the [next] pointers
    become the tail of a list and [datalen] is the length of [data]. *)
Record rule_record_s := { rule_recno : Z; rule_data : list Z }.
Record keyd_record_s := { keyd_recno : Z; keyd_data : list Z }.

(** [struct df_info_s]: [path] has [MAX_CURPATH] cells. *)
Record df_info_s := {
  path : list Z;
  pathlen : Z;
  rule_file : list rule_record_s;
  keyd_file : list keyd_record_s
}.

(** [struct mcrd_priv_data]: [curpath] has [MAX_CURPATH] cells. *)
Record mcrd_priv_data := {
  curpath : list Z;
  curpathlen : Z;
  is_ef : bool;
  df_infos : list df_info_s
}.

(** ** Data structures of the framework (opensc.h, types.h) *)

Inductive apdu_case :=
  SC_APDU_CASE_1 | SC_APDU_CASE_2_SHORT | SC_APDU_CASE_3_SHORT.

Record sc_apdu := {
  apdu_cse : apdu_case;
  apdu_cla : Z;
  apdu_ins : Z;
  apdu_p1 : Z;
  apdu_p2 : Z;
  apdu_lc : Z;
  apdu_le : Z;
  apdu_data : list Z;
  apdu_resplen : Z            (* capacity of the response buffer *)
}.

(** What [sc_transmit_apdu] reports: a negative error code [- e], or the
    status word of the card with the response bytes. *)
Inductive transmit_result :=
| TransmitFailed (e : positive)
| Answer (sw1 sw2 : Z) (resp : list Z).

Inductive sc_file_type :=
  SC_FILE_TYPE_WORKING_EF | SC_FILE_TYPE_INTERNAL_EF | SC_FILE_TYPE_DF.

(** The fields of [struct sc_file] that [process_fcp] assigns.  A field the
    decoder leaves alone keeps the value the fresh descriptor had. *)
Record sc_file := {
  file_id : Z;
  file_size : Z;
  file_shareable : Z;
  file_ef_structure : Z;
  file_type : option sc_file_type;
  file_name : list Z;
  file_namelen : Z;
  file_prop_attr : list Z;
  file_prop_attr_len : Z;
  file_sec_attr : list Z;
  file_magic : bool
}.

Inductive sc_path_type :=
  SC_PATH_TYPE_FILE_ID | SC_PATH_TYPE_DF_NAME | SC_PATH_TYPE_PATH.

(** [struct sc_path]: [value] has [SC_MAX_PATH_SIZE] cells. *)
Record sc_path := {
  path_value : list Z;
  path_len : Z;
  path_type : sc_path_type
}.

Inductive sc_sec_operation :=
| SC_SEC_OPERATION_SIGN
| SC_SEC_OPERATION_DECIPHER
| SC_SEC_OPERATION_other (code : Z).

Record sc_security_env := {
  env_flags : Z;
  env_operation : sc_sec_operation;
  env_file_ref : sc_path
}.

(** [struct sc_card], as far as the driver uses it, with the trace of the
    APDUs handed to the reader so far (oldest first). *)
Record sc_card := {
  drv_data : mcrd_priv_data;
  card_cla : Z;
  cache_current_path_len : Z;
  transmitted : list sc_apdu
}.

(** The automatic arrays the driver reads before it has written them. *)
Inductive local_array := resbuf | pathtmp | sbuf.

(** ** What the driver takes from the rest of libopensc

    card-mcrd.c includes internal.h, log.h, asn1.h and cardctl.h and calls
    into card.c, asn1.c, iso7816.c and sc.c; none of them is among the
    sources.  Their constants and functions are the parameters of the
    development. *)
Class Platform := {
  (* errors.h *)
  SC_ERROR_INVALID_ARGUMENTS : Z;
  SC_ERROR_INTERNAL : Z;
  SC_ERROR_FILE_NOT_FOUND : Z;
  SC_ERROR_UNKNOWN_DATA_RECEIVED : Z;
  SC_ERROR_OUT_OF_MEMORY : Z;
  (* opensc.h, types.h *)
  SC_MAX_APDU_BUFFER_SIZE : Z;
  SC_MAX_PATH_SIZE : Z;
  SC_SEC_ENV_FILE_REF_PRESENT : Z;
  (* iso7816.c: the error code of a status word *)
  sc_check_sw : Z -> Z -> Z;
  (* asn1.c: the value of the first object of [buf] that carries [tag] *)
  sc_asn1_find_tag : list Z -> Z -> option (list Z);
  (* card.c: the result of sc_lock *)
  sc_lock : Z;
  (* the reader and the card: the answer to an APDU after the given trace *)
  card_answer : list sc_apdu -> sc_apdu -> transmit_result;
  (* the indeterminate initial contents of an automatic array *)
  uninitialised : local_array -> Z -> Z
}.

(** The conventions of libopensc the driver relies on: error codes are
    negative and [sc_check_sw] yields 0 or an error code. *)
Class PlatformOk (P : Platform) : Prop := {
  invalid_arguments_neg : SC_ERROR_INVALID_ARGUMENTS < 0;
  internal_neg : SC_ERROR_INTERNAL < 0;
  file_not_found_neg : SC_ERROR_FILE_NOT_FOUND < 0;
  unknown_data_neg : SC_ERROR_UNKNOWN_DATA_RECEIVED < 0;
  sc_check_sw_nonpos : forall sw1 sw2, sc_check_sw sw1 sw2 <= 0
}.

(** ** The monad: state [sc_card], with faults and fuel *)

Inductive fault := AssertionFailed | NullDereference | OutOfBounds.

Inductive outcome (A : Type) :=
| Done (a : A) (card : sc_card)
| Fault (f : fault)
| OutOfFuel.
Arguments Done {A} a card.
Arguments Fault {A} f.
Arguments OutOfFuel {A}.

Definition M (A : Type) := sc_card -> outcome A.

Definition ret {A} (a : A) : M A := fun card => Done a card.

Definition bind {A B} (m : M A) (k : A -> M B) : M B :=
  fun card =>
    match m card with
    | Done a card' => k a card'
    | Fault f => Fault f
    | OutOfFuel => OutOfFuel
    end.

Definition raise {A} (f : fault) : M A := fun _ => Fault f.
Definition out_of_fuel {A} : M A := fun _ => OutOfFuel.

Declare Scope card_scope.
Delimit Scope card_scope with card.
Notation "x <- m ;; k" := (bind m (fun x => k))
  (at level 100, m at next level, right associativity) : card_scope.
Notation "' pat <- m ;; k" := (bind m (fun x => match x with pat => k end))
  (at level 100, pat pattern, m at next level, right associativity) : card_scope.
Notation "m ;; k" := (bind m (fun _ => k))
  (at level 100, right associativity) : card_scope.
Local Open Scope card_scope.

(** [DRVDATA (card)] *)
Definition DRVDATA : M mcrd_priv_data := fun card => Done (drv_data card) card.

Definition set_DRVDATA (priv : mcrd_priv_data) : M unit :=
  fun card =>
    Done tt {| drv_data := priv; card_cla := card_cla card;
               cache_current_path_len := cache_current_path_len card;
               transmitted := transmitted card |}.

Definition set_curpathlen (n : Z) : M unit :=
  priv <- DRVDATA ;;
  set_DRVDATA {| curpath := curpath priv; curpathlen := n;
                 is_ef := is_ef priv; df_infos := df_infos priv |}.

Definition set_is_ef (b : bool) : M unit :=
  priv <- DRVDATA ;;
  set_DRVDATA {| curpath := curpath priv; curpathlen := curpathlen priv;
                 is_ef := b; df_infos := df_infos priv |}.

Definition set_df_infos (l : list df_info_s) : M unit :=
  priv <- DRVDATA ;;
  set_DRVDATA {| curpath := curpath priv; curpathlen := curpathlen priv;
                 is_ef := is_ef priv; df_infos := l |}.

(** [a[i] = v] on an array given as the list of its cells. *)
Fixpoint poke (a : list Z) (i : nat) (v : Z) : list Z :=
  match a, i with
  | [], _ => []
  | _ :: t, O => v :: t
  | h :: t, S i' => h :: poke t i' v
  end.

(** [priv->curpath[i] = v] *)
Definition set_curpath_at (i : Z) (v : Z) : M unit :=
  priv <- DRVDATA ;;
  if (0 <=? i) && (i <? Z.of_nat (length (curpath priv))) then
    set_DRVDATA {| curpath := poke (curpath priv) (Z.to_nat i) v;
                   curpathlen := curpathlen priv;
                   is_ef := is_ef priv; df_infos := df_infos priv |}
  else raise OutOfBounds.

(** [assert (b)] *)
Definition c_assert (b : bool) : M unit :=
  if b then ret tt else raise AssertionFailed.

(** The selected path as a sequence: the first [curpathlen] cells. *)
Definition cached_path (priv : mcrd_priv_data) : list Z :=
  firstn (Z.to_nat (curpathlen priv)) (curpath priv).

Section Driver.
Context {P : Platform}.

(** ** Macros of log.h

    [SC_TEST_RET (ctx, r, text)] returns [r] from the calling function when
    [r] is negative; [SC_FUNC_RETURN (ctx, level, r)] returns [r].  The first
    is the test below; the second is a plain [ret]. *)
Definition SC_TEST_RET_returns (r : Z) : bool := r <? 0.

(** ** get_df_info (lines 102-132)

    The result is the position of the [df_info_s] in [df_infos], standing
    for the pointer; [None] is [NULL]. *)

Definition same_path (dfi : df_info_s) (priv : mcrd_priv_data) : bool :=
  (pathlen dfi =? curpathlen priv)
  && if list_eq_dec Z.eq_dec
          (firstn (Z.to_nat (pathlen dfi)) (path dfi))
          (firstn (Z.to_nat (pathlen dfi)) (curpath priv))
     then true else false.

Fixpoint find_df_info (l : list df_info_s) (priv : mcrd_priv_data)
  : option nat :=
  match l with
  | [] => None
  | dfi :: next =>
      if same_path dfi priv then Some O
      else option_map S (find_df_info next priv)
  end.

Definition get_df_info : M (option nat) :=
  priv <- DRVDATA ;;
  c_assert (negb (is_ef priv)) ;;
  if curpathlen priv =? 0 then ret None
  else
    match find_df_info (df_infos priv) priv with
    | Some i => ret (Some i)
    | None =>
        (* calloc, memcpy of pathlen cells, link at the head *)
        let dfi :=
          {| path := firstn (Z.to_nat (curpathlen priv)) (curpath priv)
                     ++ repeat 0 (Z.to_nat (MAX_CURPATH - curpathlen priv));
             pathlen := curpathlen priv;
             rule_file := [];
             keyd_file := [] |} in
        set_df_infos (dfi :: df_infos priv) ;;
        ret (Some O)
    end.

(** A write through the [dfi] pointer: the cell it points to is replaced. *)
Fixpoint update_nth {A} (l : list A) (i : nat) (f : A -> A) : list A :=
  match l, i with
  | [], _ => []
  | h :: t, O => f h :: t
  | h :: t, S i' => h :: update_nth t i' f
  end.

Definition deref (dfi : option nat) : M df_info_s :=
  priv <- DRVDATA ;;
  match dfi with
  | None => raise NullDereference
  | Some i =>
      match nth_error (df_infos priv) i with
      | Some d => ret d
      | None => raise OutOfBounds
      end
  end.

Definition modify_dfi (dfi : option nat) (f : df_info_s -> df_info_s)
  : M unit :=
  _ <- deref dfi ;;
  priv <- DRVDATA ;;
  match dfi with
  | Some i => set_df_infos (update_nth (df_infos priv) i f)
  | None => raise NullDereference
  end.

(** ** clear_special_files (lines 135-149) *)
Definition clear_special_files (dfi : option nat) : M unit :=
  match dfi with
  | None => ret tt
  | Some _ =>
      modify_dfi dfi (fun d =>
        {| path := path d; pathlen := pathlen d;
           rule_file := []; keyd_file := [] |})
  end.

(** ** sc_transmit_apdu and sc_format_apdu (card.c)

    The APDU joins the trace; at most [apdu.resplen] response bytes reach
    the caller. *)
Definition sc_transmit_apdu (apdu : sc_apdu) : M transmit_result :=
  fun card =>
    let ans :=
      match card_answer (transmitted card) apdu with
      | TransmitFailed e => TransmitFailed e
      | Answer sw1 sw2 resp =>
          Answer sw1 sw2 (firstn (Z.to_nat (apdu_resplen apdu)) resp)
      end in
    Done ans {| drv_data := drv_data card; card_cla := card_cla card;
                cache_current_path_len := cache_current_path_len card;
                transmitted := transmitted card ++ [apdu] |}.

Definition sc_format_apdu (cse : apdu_case) (ins p1 p2 : Z) : M sc_apdu :=
  fun card =>
    Done {| apdu_cse := cse; apdu_cla := card_cla card; apdu_ins := ins;
            apdu_p1 := p1 mod 256; apdu_p2 := p2 mod 256;
            apdu_lc := 0; apdu_le := 0; apdu_data := [];
            apdu_resplen := 0 |} card.

(** ** process_arr (lines 375-472)

    Only the short form is handled.  The rule record is looked up through
    [get_df_info]; the scan of its body that follows classifies the objects
    for the debug log and assigns nothing to [file] or to the driver data. *)
Definition process_arr (buf : list Z) : M unit :=
  if negb (Z.of_nat (length buf) =? 1) then ret tt
  else
    _ <- get_df_info ;;
    ret tt.

(** ** process_fcp (lines 475-612) *)

Definition with_id (f : sc_file) (v : Z) : sc_file :=
  {| file_id := v; file_size := file_size f;
     file_shareable := file_shareable f;
     file_ef_structure := file_ef_structure f; file_type := file_type f;
     file_name := file_name f; file_namelen := file_namelen f;
     file_prop_attr := file_prop_attr f;
     file_prop_attr_len := file_prop_attr_len f;
     file_sec_attr := file_sec_attr f; file_magic := file_magic f |}.

Definition with_size (f : sc_file) (v : Z) : sc_file :=
  {| file_id := file_id f; file_size := v;
     file_shareable := file_shareable f;
     file_ef_structure := file_ef_structure f; file_type := file_type f;
     file_name := file_name f; file_namelen := file_namelen f;
     file_prop_attr := file_prop_attr f;
     file_prop_attr_len := file_prop_attr_len f;
     file_sec_attr := file_sec_attr f; file_magic := file_magic f |}.

(** The three assignments made from the file descriptor byte. *)
Definition with_descriptor (f : sc_file) (byte : Z) : sc_file :=
  {| file_id := file_id f; file_size := file_size f;
     file_shareable := if Z.land byte 0x40 =? 0 then 0 else 1;
     file_ef_structure := Z.land byte 0x07;
     file_type :=
       (let sel := Z.land (Z.shiftr byte 3) 7 in
        if sel =? 0 then Some SC_FILE_TYPE_WORKING_EF
        else if sel =? 1 then Some SC_FILE_TYPE_INTERNAL_EF
        else if sel =? 7 then Some SC_FILE_TYPE_DF
        else file_type f);
     file_name := file_name f; file_namelen := file_namelen f;
     file_prop_attr := file_prop_attr f;
     file_prop_attr_len := file_prop_attr_len f;
     file_sec_attr := file_sec_attr f; file_magic := file_magic f |}.

Definition with_name (f : sc_file) (v : list Z) : sc_file :=
  {| file_id := file_id f; file_size := file_size f;
     file_shareable := file_shareable f;
     file_ef_structure := file_ef_structure f; file_type := file_type f;
     file_name := v; file_namelen := Z.of_nat (length v);
     file_prop_attr := file_prop_attr f;
     file_prop_attr_len := file_prop_attr_len f;
     file_sec_attr := file_sec_attr f; file_magic := file_magic f |}.

(** [sc_file_set_prop_attr] (sc.c) *)
Definition sc_file_set_prop_attr (f : sc_file) (v : list Z) : sc_file :=
  {| file_id := file_id f; file_size := file_size f;
     file_shareable := file_shareable f;
     file_ef_structure := file_ef_structure f; file_type := file_type f;
     file_name := file_name f; file_namelen := file_namelen f;
     file_prop_attr := v; file_prop_attr_len := Z.of_nat (length v);
     file_sec_attr := file_sec_attr f; file_magic := file_magic f |}.

Definition with_prop_attr_len (f : sc_file) (n : Z) : sc_file :=
  {| file_id := file_id f; file_size := file_size f;
     file_shareable := file_shareable f;
     file_ef_structure := file_ef_structure f; file_type := file_type f;
     file_name := file_name f; file_namelen := file_namelen f;
     file_prop_attr := file_prop_attr f; file_prop_attr_len := n;
     file_sec_attr := file_sec_attr f; file_magic := file_magic f |}.

(** [sc_file_set_sec_attr] (sc.c) *)
Definition sc_file_set_sec_attr (f : sc_file) (v : list Z) : sc_file :=
  {| file_id := file_id f; file_size := file_size f;
     file_shareable := file_shareable f;
     file_ef_structure := file_ef_structure f; file_type := file_type f;
     file_name := file_name f; file_namelen := file_namelen f;
     file_prop_attr := file_prop_attr f;
     file_prop_attr_len := file_prop_attr_len f;
     file_sec_attr := v; file_magic := file_magic f |}.

Definition with_magic (f : sc_file) : sc_file :=
  {| file_id := file_id f; file_size := file_size f;
     file_shareable := file_shareable f;
     file_ef_structure := file_ef_structure f; file_type := file_type f;
     file_name := file_name f; file_namelen := file_namelen f;
     file_prop_attr := file_prop_attr f;
     file_prop_attr_len := file_prop_attr_len f;
     file_sec_attr := file_sec_attr f; file_magic := true |}.

(** [if (tag != NULL && taglen >= 2) file->size = (tag[0] << 8) + tag[1]] *)
Definition size_from (f : sc_file) (tag : option (list Z)) : sc_file :=
  match tag with
  | Some (t0 :: t1 :: _) => with_size f (Z.shiftl t0 8 + t1)
  | _ => f
  end.

Definition nonempty (tag : option (list Z)) : bool :=
  match tag with
  | Some (_ :: _) => true
  | _ => false
  end.

(** The blocks of [process_fcp], one definition per block, each named
    after the comment that heads it in the source. *)

(** File identifier (lines 486-492). *)
Definition fcp_file_identifier (file : sc_file) (buf : list Z) : sc_file :=
  match sc_asn1_find_tag buf 0x83 with
  | Some [t0; t1] => with_id file (Z.lor (Z.shiftl t0 8) t1)
  | _ => file
  end.

(** Number of data bytes in the file (lines 494-517): [tag] after the
    lookups of 0x81 and 0x85, and [bad_fde]. *)
Definition fcp_size_tag (buf : list Z) : option (list Z) :=
  match sc_asn1_find_tag buf 0x81 with
  | Some t => Some t
  | None => sc_asn1_find_tag buf 0x85
  end.

Definition fcp_bad_fde (buf : list Z) : bool :=
  match sc_asn1_find_tag buf 0x81 with
  | Some _ => false
  | None =>
      match sc_asn1_find_tag buf 0x85 with
      | Some _ => true
      | None => false
      end
  end.

Definition fcp_size (file : sc_file) (buf : list Z) : sc_file :=
  let tag := fcp_size_tag buf in
  let file := size_from file tag in
  match tag with
  | None => size_from file (sc_asn1_find_tag buf 0x80)
  | Some _ => file
  end.

(** File descriptor byte(s) (lines 520-555). *)
Definition fcp_descriptor (file : sc_file) (buf : list Z) : sc_file :=
  match sc_asn1_find_tag buf 0x82 with
  | Some (byte :: _) => with_descriptor file (byte mod 256)
  | _ => file
  end.

(** DF name (lines 558-576). *)
Definition fcp_df_name (file : sc_file) (buf : list Z) : sc_file :=
  match sc_asn1_find_tag buf 0x84 with
  | Some ((_ :: _) as t) =>
      if Z.of_nat (length t) <=? 16 then with_name file t else file
  | _ => file
  end.

(** Proprietary information (lines 579-583). *)
Definition fcp_prop_info (file : sc_file) (buf : list Z) : sc_file :=
  match (if fcp_bad_fde buf then None else sc_asn1_find_tag buf 0x85) with
  | Some ((_ :: _) as t) => sc_file_set_prop_attr file t
  | _ => with_prop_attr_len file 0
  end.

(** Proprietary information, constructed (lines 586-589). *)
Definition fcp_prop_info_constructed (file : sc_file) (buf : list Z)
  : sc_file :=
  match sc_asn1_find_tag buf 0xA5 with
  | Some ((_ :: _) as t) => sc_file_set_prop_attr file t
  | _ => file
  end.

(** Security attributes, proprietary format (lines 592-595). *)
Definition fcp_sec_attr (file : sc_file) (buf : list Z) : sc_file :=
  match sc_asn1_find_tag buf 0x86 with
  | Some ((_ :: _) as t) => sc_file_set_sec_attr file t
  | _ => file
  end.

(** Security attributes, reference to expanded format (lines 598-609). *)
Definition fcp_arr (buf : list Z) : M unit :=
  match sc_asn1_find_tag buf 0x8B with
  | Some ((_ :: _) as t) => process_arr t
  | _ =>
      match sc_asn1_find_tag buf 0xA1 with
      | Some ((_ :: _) as tpl) =>
          match sc_asn1_find_tag tpl 0x8B with
          | Some ((_ :: _) as t) => process_arr t
          | _ => ret tt
          end
      | _ => ret tt
      end
  end.

Definition process_fcp (file : sc_file) (buf : list Z) : M sc_file :=
  let file := fcp_file_identifier file buf in
  let file := fcp_size file buf in
  let file := fcp_descriptor file buf in
  let file := fcp_df_name file buf in
  let file := fcp_prop_info file buf in
  let file := fcp_prop_info_constructed file buf in
  let file := fcp_sec_attr file buf in
  fcp_arr buf ;;
  ret (with_magic file).

(** [sc_file_new] (sc.c): the zeroed descriptor with its magic number set;
    no type is assigned. *)
Definition sc_file_new : sc_file :=
  {| file_id := 0; file_size := 0; file_shareable := 0;
     file_ef_structure := 0; file_type := None;
     file_name := []; file_namelen := 0;
     file_prop_attr := []; file_prop_attr_len := 0;
     file_sec_attr := []; file_magic := true |}.

(** ** do_select (lines 616-667)

    [want_file] is [file != NULL]; the second component of the result is
    the descriptor stored through [file], if one was stored. *)

(** [apdu.resp[i]]: a received byte, or what [resbuf] held before. *)
Definition resp_at (resp : list Z) (i : Z) : Z :=
  if i <? Z.of_nat (length resp) then nth (Z.to_nat i) resp 0
  else uninitialised resbuf i.

Definition do_select (kind : Z) (buf : list Z) (want_file : bool)
  : M (Z * option sc_file) :=
  let apdu :=
    {| apdu_cse := SC_APDU_CASE_3_SHORT; apdu_cla := 0x00;
       apdu_ins := 0xA4; apdu_p1 := kind; apdu_p2 := 0;
       apdu_lc := Z.of_nat (length buf); apdu_le := 0;
       apdu_data := buf;
       apdu_resplen := if want_file then SC_MAX_APDU_BUFFER_SIZE else 0 |} in
  ans <- sc_transmit_apdu apdu ;;
  match ans with
  | TransmitFailed e => ret (Z.neg e, None)
  | Answer sw1 sw2 resp =>
      if negb want_file then
        if sw1 =? 0x61 then ret (0, None)
        else
          let r := sc_check_sw sw1 sw2 in
          (if (r =? 0) && (kind =? MCRD_SEL_AID)
           then fun card =>
                  Done tt {| drv_data := drv_data card;
                             card_cla := card_cla card;
                             cache_current_path_len := 0;
                             transmitted := transmitted card |}
           else ret tt) ;;
          ret (r, None)
      else
        let r := sc_check_sw sw1 sw2 in
        if negb (r =? 0) then ret (r, None)
        else if resp_at resp 0 =? 0x6F then
          file <-
            (if resp_at resp 1 <=? Z.of_nat (length resp)
             then process_fcp sc_file_new
                    (map (fun i => resp_at resp (2 + Z.of_nat i))
                         (seq 0 (Z.to_nat (resp_at resp 1))))
             else ret sc_file_new) ;;
          ret (0, Some file)
        else ret (SC_ERROR_UNKNOWN_DATA_RECEIVED, None)
  end.

(** ** select_part (lines 671-693) *)
Definition select_part (kind : Z) (fid : Z) (want_file : bool)
  : M (Z * option sc_file) :=
  let kind := if fid =? MFID then MCRD_SEL_MF else kind in
  let fbuf := [Z.shiftr fid 8 mod 256; Z.land fid 0xff] in
  do_select kind fbuf want_file.

(** ** load_special_files (lines 226-315)

    The two record loops of the C function have the same text; they are the
    two instances of [read_records].  A loop leaves either by [break]
    ([Completed]) or by returning from the function ([Returned r]).  The
    loops have no bound of their own, so they run on fuel. *)

Inductive special_file := the_rule_file | the_keyd_file.

Inductive loop_exit := Completed | Returned (r : Z).

(** The record is linked at the head of the list of [dfi]. *)
Definition store_record (which : special_file) (dfi : option nat)
    (recno : Z) (resp : list Z) : M unit :=
  modify_dfi dfi (fun d =>
    match which with
    | the_rule_file =>
        {| path := path d; pathlen := pathlen d;
           rule_file := {| rule_recno := recno; rule_data := resp |}
                        :: rule_file d;
           keyd_file := keyd_file d |}
    | the_keyd_file =>
        {| path := path d; pathlen := pathlen d;
           rule_file := rule_file d;
           keyd_file := {| keyd_recno := recno; keyd_data := resp |}
                        :: keyd_file d |}
    end).

(** READ RECORD number [recno], with [u8 recvbuf[200]]. *)
Definition read_record_apdu (recno : Z) : M sc_apdu :=
  apdu <- sc_format_apdu SC_APDU_CASE_2_SHORT 0xB2 recno 0x04 ;;
  ret {| apdu_cse := apdu_cse apdu; apdu_cla := apdu_cla apdu;
         apdu_ins := apdu_ins apdu; apdu_p1 := apdu_p1 apdu;
         apdu_p2 := apdu_p2 apdu; apdu_lc := apdu_lc apdu;
         apdu_le := 200; apdu_data := apdu_data apdu;
         apdu_resplen := 200 |}.

Definition status_is (sw1 sw2 a b : Z) : bool := (sw1 =? a) && (sw2 =? b).

Fixpoint read_records (which : special_file) (fuel : nat) (recno : Z)
    (dfi : option nat) : M loop_exit :=
  match fuel with
  | O => out_of_fuel
  | S fuel' =>
      apdu <- read_record_apdu recno ;;
      ans <- sc_transmit_apdu apdu ;;
      match ans with
      | TransmitFailed e => ret (Returned (Z.neg e))
      | Answer sw1 sw2 resp =>
          if status_is sw1 sw2 0x6a 0x83 then ret Completed
          else if negb (status_is sw1 sw2 0x90 0x00
                        || status_is sw1 sw2 0x62 0x82)
          then ret (Returned (sc_check_sw sw1 sw2))
          else
            store_record which dfi recno resp ;;
            read_records which fuel' (recno + 1) dfi
      end
  end.

(** Lines 276-314: the EF_KeyD half. *)
Definition load_keyd_file (fuel : nat) (dfi : option nat) : M Z :=
  '(r, _) <- select_part 2 EF_KeyD false ;;
  if r =? SC_ERROR_FILE_NOT_FOUND then ret 0
  else if SC_TEST_RET_returns r then ret r
  else
    e <- read_records the_keyd_file fuel 1 dfi ;;
    match e with
    | Returned r => ret r
    | Completed => ret 0
    end.

Definition has_rule_file (dfi : option nat) : M bool :=
  match dfi with
  | None => ret false
  | Some _ =>
      d <- deref dfi ;;
      ret (match rule_file d with [] => false | _ :: _ => true end)
  end.

(** Lines 235-274: the EF_Rule half, up to the end of its loop.  The
    result is [dfi] and how the half was left: [Returned r] when the
    function returned [r] in it. *)
Definition load_rule_file (fuel : nat) : M (option nat * loop_exit) :=
  priv <- DRVDATA ;;
  c_assert (negb (is_ef priv)) ;;
  (* First check whether we already cached it. *)
  dfi <- get_df_info ;;
  cached <- has_rule_file dfi ;;
  if cached then ret (dfi, Returned 0)
  else
    clear_special_files dfi ;;
    (* Read rule file. *)
    '(r, _) <- select_part 2 EF_Rule false ;;
    if SC_TEST_RET_returns r then ret (dfi, Returned r)
    else
      e <- read_records the_rule_file fuel 1 dfi ;;
      ret (dfi, e).

Definition load_special_files (fuel : nat) : M Z :=
  '(dfi, e) <- load_rule_file fuel ;;
  match e with
  | Returned r => ret r
  | Completed => load_keyd_file fuel dfi
  end.

(** ** select_down (lines 700-737)

    [pathptr] is the array from the pointer on and [pathlen] the number of
    cells the caller asks to walk.  [select_down_try] is the selection made
    in one turn of the loop (lines 717-727): its result is [r], whether an
    EF was found, and the descriptor stored through [file]. *)

Definition select_down_try (fid : Z) (last df_only want_file : bool)
  : M (Z * bool * option sc_file) :=
  if last && negb df_only then
    (* first try to select an EF and retry an DF on error. *)
    '(r, f) <- select_part MCRD_SEL_EF fid want_file ;;
    if r =? 0 then ret (r, true, f)
    else
      '(r, f) <- select_part MCRD_SEL_DF fid want_file ;;
      ret (r, false, f)
  else
    '(r, f) <- select_part MCRD_SEL_DF fid (last && want_file) ;;
    ret (r, false, f).

Definition or_file (new old : option sc_file) : option sc_file :=
  match new with
  | Some _ => new
  | None => old
  end.

Fixpoint select_down_loop (pathlen : nat) (pathptr : list Z)
    (df_only want_file : bool) (found_ef : bool) (file : option sc_file)
  : M (loop_exit * bool * option sc_file) :=
  match pathlen with
  | O => ret (Completed, found_ef, file)
  | S pathlen' =>
      priv <- DRVDATA ;;
      if (curpathlen priv =? MAX_CURPATH)
         && SC_TEST_RET_returns SC_ERROR_INTERNAL
      then ret (Returned SC_ERROR_INTERNAL, found_ef, file)
      else
        match pathptr with
        | [] => raise OutOfBounds
        | fid :: pathptr' =>
            '(r, ef, f) <- select_down_try fid (Nat.eqb pathlen' 0)
                                           df_only want_file ;;
            if SC_TEST_RET_returns r
            then ret (Returned r, found_ef || ef, or_file f file)
            else
              priv <- DRVDATA ;;
              set_curpath_at (curpathlen priv) fid ;;
              set_curpathlen (curpathlen priv + 1) ;;
              select_down_loop pathlen' pathptr' df_only want_file
                               (found_ef || ef) (or_file f file)
        end
  end.

Definition select_down (fuel : nat) (pathptr : list Z) (pathlen : Z)
    (df_only want_file : bool) : M (Z * option sc_file) :=
  if pathlen =? 0 then ret (SC_ERROR_INVALID_ARGUMENTS, None)
  else
    '(e, found_ef, file) <-
      select_down_loop (Z.to_nat pathlen) pathptr df_only want_file
                       false None ;;
    match e with
    | Returned r => ret (r, file)
    | Completed =>
        set_is_ef found_ef ;;
        (if negb found_ef then _ <- load_special_files fuel ;; ret tt
         else ret tt) ;;
        ret (0, file)
    end.

(** ** select_file_by_path (lines 745-838) *)

(** The [for] loop of lines 776-778: the number of leading cells on which
    the request and the cache agree. *)
Fixpoint common_prefix (n : nat) (pathptr cur : list Z) : Z :=
  match n, pathptr, cur with
  | S n', a :: pathptr', b :: cur' =>
      if a =? b then 1 + common_prefix n' pathptr' cur' else 0
  | _, _, _ => 0
  end.

(** [pathptr[0]] *)
Definition first_cell (pathptr : list Z) : M Z :=
  match pathptr with
  | [] => raise OutOfBounds
  | a :: _ => ret a
  end.

(** Lines 819-834, shared word for word with select_file_by_fid
    (lines 882-897 there, with [pathlen] 1). *)
Definition relative_addressing (fuel : nat) (pathptr : list Z)
    (pathlen : Z) (want_file : bool) : M (Z * option sc_file) :=
  priv <- DRVDATA ;;
  '(r, file0, returned) <-
    (if curpathlen priv =? 0 then
       (* Relative addressing without a current path. *)
       fid <- first_cell pathptr ;;
       '(r, f) <- select_part MCRD_SEL_MF fid want_file ;;
       if SC_TEST_RET_returns r then ret (r, f, true)
       else
         set_curpath_at 0 fid ;;
         set_curpathlen 1 ;;
         set_is_ef false ;;
         ret (r, f, false)
     else ret (0, None, false)) ;;
  if returned : bool then ret (r, file0)
  else
    priv <- DRVDATA ;;
    (if is_ef priv then
       c_assert (1 <? curpathlen priv) ;;
       set_curpathlen (curpathlen priv - 1) ;;
       set_is_ef false
     else ret tt) ;;
    '(r, f) <- select_down fuel pathptr pathlen false want_file ;;
    ret (r, or_file f file0).

(** Lines 765-771, and 872-878 of select_file_by_fid. *)
Definition select_mf (fid : Z) (want_file : bool)
  : M (Z * option sc_file) :=
  set_curpathlen 0 ;;
  '(r, f) <- select_part MCRD_SEL_MF fid want_file ;;
  if SC_TEST_RET_returns r then ret (r, f)
  else
    set_curpath_at 0 fid ;;
    set_curpathlen 1 ;;
    set_is_ef false ;;
    ret (r, f).

Definition restart_at_root (fuel : nat) (pathptr : list Z) (pathlen : Z)
    (df_only want_file : bool) : M (Z * option sc_file) :=
  set_curpathlen 0 ;;
  set_is_ef false ;;
  select_down fuel pathptr pathlen df_only want_file.

Definition select_file_by_path (fuel : nat) (pathptr : list Z)
    (pathlen : Z) (want_file : bool) : M (Z * option sc_file) :=
  priv <- DRVDATA ;;
  c_assert ((curpathlen priv =? 0) || (nth 0 (curpath priv) 0 =? MFID)) ;;
  let strip :=
    match pathptr with
    | a :: _ => negb (pathlen =? 0) && (a =? 0x3FFF)
    | [] => false
    end in
  let pathlen := if strip then pathlen - 1 else pathlen in
  let pathptr := if strip then tl pathptr else pathptr in
  if (pathlen =? 0) || (MAX_CURPATH <=? pathlen)
  then ret (SC_ERROR_INVALID_ARGUMENTS, None)
  else
    fid <- first_cell pathptr ;;
    if (pathlen =? 1) && (fid =? MFID) then
      (* MF requested: clear the cache and select it. *)
      select_mf fid want_file
    else if (1 <? pathlen) && (fid =? MFID) then
      (* Absolute addressing, check cache to avoid unnecessary selects. *)
      let i := common_prefix
                 (Nat.min (Z.to_nat pathlen) (Z.to_nat (curpathlen priv)))
                 pathptr (curpath priv) in
      if curpathlen priv =? 0 then
        restart_at_root fuel pathptr pathlen false want_file
      else if (i =? pathlen) && (i <? curpathlen priv) then
        (* Go upwards; the target is known to be a DF. *)
        restart_at_root fuel pathptr pathlen true want_file
      else if (i =? pathlen) && (i =? curpathlen priv) then
        (* Already selected. *)
        if negb want_file then ret (0, None)
        else
          c_assert (1 <? curpathlen priv) ;;
          set_curpathlen (curpathlen priv - 1) ;;
          set_is_ef false ;;
          select_down fuel (skipn (Z.to_nat (pathlen - 1)) pathptr) 1
                      false want_file
      else
        (* We have to append something; start at the root. *)
        restart_at_root fuel pathptr pathlen false want_file
    else
      relative_addressing fuel pathptr pathlen want_file.

(** ** select_file_by_fid (lines 841-901) *)
Definition select_file_by_fid (fuel : nat) (pathptr : list Z)
    (pathlen : Z) (want_file : bool) : M (Z * option sc_file) :=
  priv <- DRVDATA ;;
  c_assert ((curpathlen priv =? 0) || (nth 0 (curpath priv) 0 =? MFID)) ;;
  if 1 <? pathlen then ret (SC_ERROR_INVALID_ARGUMENTS, None)
  else if negb (pathlen =? 0)
          && match pathptr with a :: _ => a =? 0x3FFF | [] => false end
  then ret (0, None)
  else if pathlen =? 0 then
    (* re-select the current one if needed. *)
    if negb want_file then ret (0, None)
    else if curpathlen priv =? 0 then ret (SC_ERROR_INTERNAL, None)
    else
      c_assert (1 <? curpathlen priv) ;;
      set_curpathlen (curpathlen priv - 1) ;;
      set_is_ef false ;;
      select_down fuel pathptr 1 false want_file
  else
    fid <- first_cell pathptr ;;
    if fid =? MFID then
      (* MF requested: clear the cache and select it. *)
      select_mf MFID want_file
    else
      relative_addressing fuel pathptr 1 want_file.

(** ** mcrd_select_file (lines 905-980) *)

(** [(path->value[n] << 8) | path->value[n+1]], stored in an
    [unsigned short]. *)
Definition fid_at (value : list Z) (n : nat) : Z :=
  Z.lor (Z.shiftl (nth n value 0) 8) (nth (S n) value 0) mod 65536.

(** [pathtmp] after the conversion loop: cell [k] is written when
    [2 * k < path->len]; the others keep what the array held. *)
Definition fill_pathtmp (value : list Z) (len : Z) : list Z :=
  map (fun k => if 2 * Z.of_nat k <? len then fid_at value (2 * k)
                else uninitialised pathtmp (Z.of_nat k))
      (seq 0 (Z.to_nat (SC_MAX_PATH_SIZE / 2))).

Definition mcrd_select_file (fuel : nat) (path : sc_path)
    (want_file : bool) : M (Z * option sc_file) :=
  match path_type path with
  | SC_PATH_TYPE_DF_NAME =>
      if 16 <? path_len path then ret (SC_ERROR_INVALID_ARGUMENTS, None)
      else
        '(r, f) <- do_select MCRD_SEL_AID
                     (firstn (Z.to_nat (path_len path)) (path_value path))
                     want_file ;;
        set_curpathlen 0 ;;
        ret (r, f)
  | ty =>
      if negb (Z.land (path_len path) 1 =? 0)
         || (2 * (SC_MAX_PATH_SIZE / 2) <? path_len path)
      then ret (SC_ERROR_INVALID_ARGUMENTS, None)
      else
        let pathptr := fill_pathtmp (path_value path) (path_len path) in
        let pathlen := Z.shiftr (path_len path) 1 in
        match ty with
        | SC_PATH_TYPE_PATH =>
            select_file_by_path fuel pathptr pathlen want_file
        | _ => select_file_by_fid fuel pathptr pathlen want_file
        end
  end.

(** ** mcrd_init (lines 177-201)

    [allocated] says whether [calloc] returned a block; if it did, the
    block is a zeroed [mcrd_priv_data].  The result of
    [load_special_files] is dropped. *)
Definition mcrd_init (allocated : bool) (fuel : nat) : M Z :=
  if negb allocated then ret SC_ERROR_OUT_OF_MEMORY
  else
    fun card =>
      let priv :=
        {| curpath := MFID :: repeat 0 (Z.to_nat (MAX_CURPATH - 1));
           curpathlen := 1; is_ef := false; df_infos := [] |} in
      (_ <- load_special_files fuel ;; ret 0)
        {| drv_data := priv; card_cla := 0x00;
           cache_current_path_len := cache_current_path_len card;
           transmitted := transmitted card |}.

(** ** mcrd_finish (lines 203-217)

    [card] is the pointer argument: [Some] for a card, [None] for [NULL].
    The function returns at line 208 for every card; only a [NULL] argument
    gets past that line, and [DRVDATA (card)] then reads through it. *)
Definition mcrd_finish (card : option sc_card) : outcome Z :=
  match card with
  | Some c => Done 0 c
  | None => Fault NullDereference
  end.

(** ** get_se_num_from_keyd (lines 322-372)

    [ref_data] is the caller's buffer ([None] for [NULL]); the result is the
    returned [int] together with the buffer as the function leaves it. *)

(** [ref_data[0] = tag[0]; ref_data[1] = tag[1]] under [if (ref_data)] *)
Definition store_ref_data (ref_data : option (list Z)) (t0 t1 : Z)
  : option (list Z) :=
  option_map (fun b => poke (poke b 0 t0) 1 t1) ref_data.

(** The [for] loop of lines 342-369 over the records of EF_KeyD. *)
Fixpoint keyd_scan (fidbuf0 fidbuf1 : Z) (keyd : list keyd_record_s)
    (ref_data : option (list Z)) : Z * option (list Z) :=
  match keyd with
  | [] => (-1, ref_data)
  | k :: next =>
      let p := keyd_data k in
      match sc_asn1_find_tag p 0x83 with
      | Some [t0; t1; t2; t3] =>
          if (t2 =? fidbuf0) && (t3 =? fidbuf1) then
            (* Found a matching record. *)
            let ref_data := store_ref_data ref_data t0 t1 in
            (* Look for the SE-DO *)
            match sc_asn1_find_tag p 0x7B with
            | Some ((_ :: _) as se_do) =>
                (* And now look for the referenced SE. *)
                match sc_asn1_find_tag se_do 0x80 with
                | Some [se] => (se mod 256, ref_data)
                | _ => keyd_scan fidbuf0 fidbuf1 next ref_data
                end
            | _ => keyd_scan fidbuf0 fidbuf1 next ref_data
            end
          else keyd_scan fidbuf0 fidbuf1 next ref_data
      | _ => keyd_scan fidbuf0 fidbuf1 next ref_data
      end
  end.

Definition get_se_num_from_keyd (fid : Z) (ref_data : option (list Z))
  : M (Z * option (list Z)) :=
  let fidbuf0 := Z.shiftr fid 8 mod 256 in
  let fidbuf1 := fid mod 256 in
  dfi <- get_df_info ;;
  match dfi with
  | None => ret (-1, ref_data)
  | Some _ =>
      d <- deref dfi ;;
      match keyd_file d with
      | [] => ret (-1, ref_data)
      | keyd => ret (keyd_scan fidbuf0 fidbuf1 keyd ref_data)
      end
  end.

(** ** restore_se (lines 985-994) *)
Definition restore_se (se_num : Z) : M Z :=
  apdu <- sc_format_apdu SC_APDU_CASE_1 0x22 0xF3 se_num ;;
  ans <- sc_transmit_apdu apdu ;;
  match ans with
  | TransmitFailed e => ret (Z.neg e)
  | Answer sw1 sw2 _ => ret (sc_check_sw sw1 sw2)
  end.

(** ** mcrd_set_security_env (lines 1001-1084)

    [sbuf] is built up as the list of the cells below [p]; the two cells at
    [p] that [get_se_num_from_keyd] may write are handed over as its
    buffer.  [sc_unlock] has no effect on the modelled state. *)
Definition mcrd_set_security_env (env : sc_security_env) (se_num : Z)
  : M Z :=
  if negb (se_num =? 0) then ret SC_ERROR_INVALID_ARGUMENTS
  else
    apdu0 <- sc_format_apdu SC_APDU_CASE_3_SHORT 0x22 0 0 ;;
    match
      match env_operation env with
      | SC_SEC_OPERATION_DECIPHER => Some (0x41, 0xB8)
      | SC_SEC_OPERATION_SIGN => Some (0x41, 0xB6)
      | SC_SEC_OPERATION_other _ => None
      end
    with
    | None => ret SC_ERROR_INVALID_ARGUMENTS
    | Some (p1, p2) =>
        let template := [0x83; 0x03; 0x80] in
        let file_ref := env_file_ref env in
        if negb (Z.land (env_flags env) SC_SEC_ENV_FILE_REF_PRESENT =? 0)
           && (1 <? path_len file_ref)
        then
          let value := path_value file_ref in
          let len := path_len file_ref in
          let fid := Z.shiftl (nth (Z.to_nat (len - 2)) value 0) 8
                     mod 65536 in
          let fid := Z.lor fid (nth (Z.to_nat (len - 1)) value 0)
                     mod 65536 in
          '(num, at_p) <-
            get_se_num_from_keyd fid
              (Some [uninitialised sbuf 3; uninitialised sbuf 4]) ;;
          '(returned, r, data) <-
            (if negb (num =? -1) then
               (* Need to restore the security environment. *)
               '(returned, r) <-
                 (if negb (num =? 0) then
                    r <- restore_se num ;;
                    ret (SC_TEST_RET_returns r, r)
                  else ret (false, 0)) ;;
               ret (returned, r,
                    template ++ match at_p with Some b => b | None => [] end)
             else ret (false, 0, template)) ;;
          if returned : bool then ret r
          else
            let apdu :=
              {| apdu_cse := apdu_cse apdu0; apdu_cla := apdu_cla apdu0;
                 apdu_ins := apdu_ins apdu0; apdu_p1 := p1; apdu_p2 := p2;
                 apdu_lc := Z.of_nat (length data); apdu_le := 0;
                 apdu_data := data; apdu_resplen := 0 |} in
            if (0 <? se_num) && SC_TEST_RET_returns sc_lock
            then ret sc_lock
            else if negb (Z.of_nat (length data) =? 0) then
              ans <- sc_transmit_apdu apdu ;;
              match ans with
              | TransmitFailed e => ret (Z.neg e)
              | Answer sw1 sw2 _ =>
                  let r := sc_check_sw sw1 sw2 in
                  if negb (r =? 0) then ret r
                  else if se_num <=? 0 then ret 0
                  else ret (sc_check_sw sw1 sw2)
              end
            else if se_num <=? 0 then ret 0
            else ret (sc_check_sw 0 0)
        else ret SC_ERROR_INVALID_ARGUMENTS
    end.

(** ** A session: mcrd_init followed by calls of mcrd_select_file

    Each request is the path argument and whether a descriptor is asked
    for; the result is the list of the return values.  The framework goes
    on to the requests only after an [mcrd_init] that returned 0, so the
    allocation of the session is one that succeeded. *)
Fixpoint resolve_all (fuel : nat) (requests : list (sc_path * bool))
  : M (list Z) :=
  match requests with
  | [] => ret []
  | (path, want_file) :: rest =>
      '(r, _) <- mcrd_select_file fuel path want_file ;;
      rs <- resolve_all fuel rest ;;
      ret (r :: rs)
  end.

Definition session (fuel : nat) (requests : list (sc_path * bool))
  : M (list Z) :=
  _ <- mcrd_init true fuel ;;
  resolve_all fuel requests.

End Driver.

(** * The functions beside the selection machinery *)

Section Signature.
Context {P : Platform}.

(** ** mcrd_compute_signature (lines 1086-1139)

    [data] and [out] are the arrays behind the two pointers; the result is
    the returned [int] and [out] as the function leaves it.  The flag
    [apdu.sensitive] only keeps the payload out of the log. *)

(** [len = apdu.resplen > outlen ? outlen : apdu.resplen;
    memcpy (out, apdu.resp, len); return len] *)
Definition deliver (out : list Z) (outlen : Z) (resp : list Z)
  : M (Z * list Z) :=
  let resplen := Z.of_nat (length resp) in
  let len := if outlen <? resplen then outlen else resplen in
  if Z.of_nat (length out) <? len then raise OutOfBounds
  else ret (len, firstn (Z.to_nat len) resp ++ skipn (Z.to_nat len) out).

Definition mcrd_compute_signature (data : list Z) (datalen : Z)
    (out : list Z) (outlen : Z) : M (Z * list Z) :=
  if 255 <? datalen then ret (SC_ERROR_INVALID_ARGUMENTS, out)
  else
    apdu0 <- sc_format_apdu SC_APDU_CASE_3_SHORT 0x2A 0x9E 0x9A ;;
    (* memcpy (sbuf, data, datalen) *)
    if (SC_MAX_APDU_BUFFER_SIZE <? datalen)
       || (Z.of_nat (length data) <? datalen)
    then raise OutOfBounds
    else
      let apdu :=
        {| apdu_cse := apdu_cse apdu0; apdu_cla := apdu_cla apdu0;
           apdu_ins := apdu_ins apdu0; apdu_p1 := apdu_p1 apdu0;
           apdu_p2 := apdu_p2 apdu0; apdu_lc := datalen;
           apdu_le := apdu_le apdu0;
           apdu_data := firstn (Z.to_nat datalen) data;
           apdu_resplen := SC_MAX_APDU_BUFFER_SIZE |} in
      ans <- sc_transmit_apdu apdu ;;
      match ans with
      | TransmitFailed e => ret (Z.neg e, out)
      | Answer sw1 sw2 resp =>
          if status_is sw1 sw2 0x90 0x00 then deliver out outlen resp
          else if status_is sw1 sw2 0x60 0x61 then
            (* assume 0x6180 here *)
            apdu1 <- sc_format_apdu SC_APDU_CASE_2_SHORT 0xC0 0 0 ;;
            let apdu1 :=
              {| apdu_cse := apdu_cse apdu1; apdu_cla := apdu_cla apdu1;
                 apdu_ins := apdu_ins apdu1; apdu_p1 := apdu_p1 apdu1;
                 apdu_p2 := apdu_p2 apdu1; apdu_lc := apdu_lc apdu1;
                 apdu_le := 0x80; apdu_data := apdu_data apdu1;
                 apdu_resplen := 0x80 |} in
            ans <- sc_transmit_apdu apdu1 ;;
            match ans with
            | TransmitFailed e => ret (Z.neg e, out)
            | Answer _ _ resp =>
                (* the answer lies in rbuf *)
                if SC_MAX_APDU_BUFFER_SIZE <? Z.of_nat (length resp)
                then raise OutOfBounds
                else deliver out outlen resp
            end
          else ret (sc_check_sw sw1 sw2, out)
      end.

End Signature.

(** ** mcrd_match_card (lines 153-175)

    [atr] and [atr_len] are [card->atr] and [card->atr_len].
    [sc_hex_to_bin] (sc.c) and [SC_MAX_ATR_SIZE] (opensc.h) are not among
    the sources: the decoder is a parameter that yields the bytes of a hex
    string when they fit a buffer of the given size. *)
Module Identification.
Import Stdlib.Strings.Ascii Stdlib.Strings.String.

Definition mcrd_atrs : list string :=
  [ ("3B:FF:94:00:FF:80:B1:FE:45:1F:03:00:68:D2:76:00:00:28:FF"
     ++ ":05:1E:31:80:00:90:00:23")%string;     (* German BMI card *)
    ("3B:FE:94:00:FF:80:B1:FA:45:1F:03:45:73:74:45:49:44:20:76"
     ++ ":65:72:20:31:2E:30:43")%string ].      (* EstEID *)

Section Match.
Variable SC_MAX_ATR_SIZE : Z.
Variable sc_hex_to_bin : string -> Z -> option (list Z).

(** One entry of the table against the card: the three [continue]s. *)
Definition atr_matches (atrp : string) (atr : list Z) (atr_len : Z) : bool :=
  match sc_hex_to_bin atrp SC_MAX_ATR_SIZE with
  | None => false
  | Some defatr =>
      (Z.of_nat (List.length defatr) =? atr_len)
      && if list_eq_dec Z.eq_dec
              (firstn (List.length defatr) atr) defatr
         then true else false
  end.

(** The [for] loop: [match] when it is left. *)
Fixpoint match_loop (atrs : list string) (i : Z) (atr : list Z)
    (atr_len : Z) : Z :=
  match atrs with
  | [] => -1
  | atrp :: rest =>
      if atr_matches atrp atr atr_len then i
      else match_loop rest (i + 1) atr atr_len
  end.

Definition mcrd_match_card (atr : list Z) (atr_len : Z) : Z :=
  if match_loop mcrd_atrs 0 atr atr_len =? -1 then 0 else 1.

End Match.

(** Modelled from the spec: [sc_hex_to_bin] ("a static list of hex-encoded
    reference strings"): two hex digits per byte, the bytes separated by
    colons; nothing is delivered when the string is malformed or the bytes
    do not fit the buffer. *)
Definition hex_digit (c : Ascii.ascii) : option Z :=
  let n := Z.of_nat (Ascii.nat_of_ascii c) in
  if (48 <=? n) && (n <=? 57) then Some (n - 48)
  else if (65 <=? n) && (n <=? 70) then Some (n - 55)
  else if (97 <=? n) && (n <=? 102) then Some (n - 87)
  else None.

Fixpoint hex_bytes (s : string) : option (list Z) :=
  match s with
  | EmptyString => Some []
  | String a (String b rest) =>
      match hex_digit a, hex_digit b with
      | Some h, Some l =>
          match rest with
          | EmptyString => Some [16 * h + l]
          | String sep rest' =>
              if Ascii.eqb sep ":"%char then
                option_map (cons (16 * h + l)) (hex_bytes rest')
              else None
          end
      | _, _ => None
      end
  | _ => None
  end.

Definition hex_to_bin (s : string) (size : Z) : option (list Z) :=
  match hex_bytes s with
  | Some bytes =>
      if Z.of_nat (List.length bytes) <=? size then Some bytes else None
  | None => None
  end.

(** The ATR of the German BMI card. *)
Definition bmi_atr : list Z :=
  [0x3B; 0xFF; 0x94; 0x00; 0xFF; 0x80; 0xB1; 0xFE; 0x45; 0x1F; 0x03; 0x00;
   0x68; 0xD2; 0x76; 0x00; 0x00; 0x28; 0xFF; 0x05; 0x1E; 0x31; 0x80; 0x00;
   0x90; 0x00; 0x23].

End Identification.

(** * The words of the specification

    The notions in which the claims about the driver are stated: what is
    observed of a card handle, what a response or a record "encodes", and
    what it means for a descent to have selected a prefix of a path on the
    card. *)

Section Reading.
Context {P : Platform}.

(** ** Observations on a card handle *)

(** What a computation must leave alone for the selected path to stay as
    it is: the cells, the length, and the EF flag. *)
Definition position (card : sc_card) : list Z * Z * bool :=
  (curpath (drv_data card), curpathlen (drv_data card),
   is_ef (drv_data card)).

(** What went over the wire: instruction, P1, P2 and data of each APDU. *)
Definition wire (card : sc_card) : list (Z * Z * Z * list Z) :=
  map (fun a => (apdu_ins a, apdu_p1 a, apdu_p2 a, apdu_data a))
      (transmitted card).

(** The card after one more APDU has gone out. *)
Definition sent (card : sc_card) (apdu : sc_apdu) : sc_card :=
  {| drv_data := drv_data card; card_cla := card_cla card;
     cache_current_path_len := cache_current_path_len card;
     transmitted := transmitted card ++ [apdu] |}.

(** The key-directory records held for the current directory are [keyd]. *)
Definition keyd_records (card : sc_card) (keyd : list keyd_record_s)
  : Prop :=
  exists dfi d,
    get_df_info card = Done (Some dfi) card
    /\ deref (Some dfi) card = Done d card
    /\ keyd_file d = keyd.

(** The key records held at [dfi]. *)
Definition keyd_at (card : sc_card) (dfi : option nat)
  : option (list keyd_record_s) :=
  match dfi with
  | Some i => option_map keyd_file (nth_error (df_infos (drv_data card)) i)
  | None => None
  end.


(** ** The selection-path cache *)

(** The invariant of the selection-path cache in the words of the
    specification: a non-empty cache starts with the root identifier, and
    the cache holds at most [MAX_CURPATH] identifiers. *)
Definition path_cache_invariant (priv : mcrd_priv_data) : Prop :=
  match cached_path priv with
  | [] => True
  | first :: _ => first = MFID
  end
  /\ Z.of_nat (length (cached_path priv)) <= MAX_CURPATH.

(** The cached path fits its array: the length is between 0 and
    [MAX_CURPATH], the number of cells. *)
Definition path_cache_bounded (priv : mcrd_priv_data) : Prop :=
  0 <= curpathlen priv <= MAX_CURPATH
  /\ length (curpath priv) = Z.to_nat MAX_CURPATH.

(** The SELECT command of [do_select]. *)
Definition select_apdu (kind : Z) (buf : list Z) (want_file : bool)
  : sc_apdu :=
  {| apdu_cse := SC_APDU_CASE_3_SHORT; apdu_cla := 0x00; apdu_ins := 0xA4;
     apdu_p1 := kind; apdu_p2 := 0; apdu_lc := Z.of_nat (length buf);
     apdu_le := 0; apdu_data := buf;
     apdu_resplen := if want_file then SC_MAX_APDU_BUFFER_SIZE else 0 |}.

(** The kind [select_part] ends up with. *)
Definition forced_kind (kind fid : Z) : Z :=
  if fid =? MFID then MCRD_SEL_MF else kind.

(** ** A descent, as the card sees it

    The words of the specification for a descent ("each identifier is
    appended after its single-level select succeeds", "the identifiers
    actually selected on the card") are read on the wire: which SELECT
    commands reach the card, and what the card answers to them. *)






(** ** Selection responses *)

(** The words of the specification for the type selector of the file
    descriptor byte: 0 is a working data file, 1 an internal data file,
    7 a directory, and any other code is unknown (no type). *)
Definition spec_type_of_selector (sel : Z) : option sc_file_type :=
  match sel with
  | 0 => Some SC_FILE_TYPE_WORKING_EF
  | 1 => Some SC_FILE_TYPE_INTERNAL_EF
  | 7 => Some SC_FILE_TYPE_DF
  | _ => None
  end.

(** A response "encodes identifier [id]": tag 0x83 carries the two bytes
    of [id], high byte first. *)
Definition encodes_id (buf : list Z) (id : Z) : Prop :=
  exists t0 t1,
    sc_asn1_find_tag buf 0x83 = Some [t0; t1]
    /\ 0 <= t0 < 256 /\ 0 <= t1 < 256
    /\ id = 256 * t0 + t1.

(** A response "encodes size [n]": the first two bytes of tag 0x81, or in
    its absence of tag 0x85, or in the absence of both of tag 0x80. *)
Definition encodes_size (buf : list Z) (n : Z) : Prop :=
  exists t0 t1 more,
    n = 256 * t0 + t1
    /\ (sc_asn1_find_tag buf 0x81 = Some (t0 :: t1 :: more)
        \/ (sc_asn1_find_tag buf 0x81 = None
            /\ sc_asn1_find_tag buf 0x85 = Some (t0 :: t1 :: more))
        \/ (sc_asn1_find_tag buf 0x81 = None
            /\ sc_asn1_find_tag buf 0x85 = None
            /\ sc_asn1_find_tag buf 0x80 = Some (t0 :: t1 :: more))).

(** The reference to an access rule that [process_fcp] hands on to
    [process_arr] (lines 598-609): the value of tag 0x8B when the response
    has one that is not empty, and otherwise the value of the tag 0x8B
    inside a tag 0xA1, both not empty. *)
Definition arr_reference (buf : list Z) : option (list Z) :=
  match sc_asn1_find_tag buf 0x8B with
  | Some ((_ :: _) as t) => Some t
  | _ =>
      match sc_asn1_find_tag buf 0xA1 with
      | Some ((_ :: _) as tpl) =>
          match sc_asn1_find_tag tpl 0x8B with
          | Some ((_ :: _) as t) => Some t
          | _ => None
          end
      | _ => None
      end
  end.

(** The reference is in the short form, one byte: the only form for which
    [process_arr] looks up the rule record (line 388). *)
Definition short_arr (buf : list Z) : bool :=
  match arr_reference buf with
  | Some [_] => true
  | _ => false
  end.

(** What "the response is decoded into [file]" says, part by part: the
    identifier and the size the response encodes, and the three fields
    taken from the file descriptor byte, the first byte of tag 0x82. *)
Definition decoded (buf : list Z) (file : sc_file) : Prop :=
  (forall id, encodes_id buf id -> file_id file = id)
  /\ (forall size, encodes_size buf size -> file_size file = size)
  /\ (forall byte more,
        sc_asn1_find_tag buf 0x82 = Some (byte :: more) ->
        0 <= byte < 256 ->
        file_shareable file = (if Z.testbit byte 6 then 1 else 0)
        /\ file_ef_structure file = byte mod 8
        /\ file_type file = spec_type_of_selector (byte / 8 mod 8)).

(** The later blocks leave the five decoded fields alone. *)
Definition same_decoded (f g : sc_file) : Prop :=
  file_id f = file_id g
  /\ file_size f = file_size g
  /\ file_shareable f = file_shareable g
  /\ file_ef_structure f = file_ef_structure g
  /\ file_type f = file_type g.

Definition file_type_eqb (a b : option sc_file_type) : bool :=
  match a, b with
  | None, None => true
  | Some SC_FILE_TYPE_WORKING_EF, Some SC_FILE_TYPE_WORKING_EF => true
  | Some SC_FILE_TYPE_INTERNAL_EF, Some SC_FILE_TYPE_INTERNAL_EF => true
  | Some SC_FILE_TYPE_DF, Some SC_FILE_TYPE_DF => true
  | _, _ => false
  end.

(** ** Key-directory records and the security environment *)

(** The words of the specification for a key-directory record: it names
    the file [fid] when its tag 0x83 has four bytes of which the last two
    are [fid], high byte first; the first two are then the reference
    data. *)
Definition keyd_reference (fid : Z) (k : keyd_record_s) : option (Z * Z) :=
  match sc_asn1_find_tag (keyd_data k) 0x83 with
  | Some [t0; t1; t2; t3] =>
      if (t2 =? fid / 256) && (t3 =? fid mod 256) then Some (t0, t1)
      else None
  | _ => None
  end.

(** ... and it carries a security-environment number when its container
    tag 0x7B holds a tag 0x80 of one byte. *)
Definition keyd_se_number (k : keyd_record_s) : option Z :=
  match sc_asn1_find_tag (keyd_data k) 0x7B with
  | Some ((_ :: _) as se_do) =>
      match sc_asn1_find_tag se_do 0x80 with
      | Some [se] => Some se
      | _ => None
      end
  | _ => None
  end.

(** [fid] as [mcrd_set_security_env] reads it from the file reference. *)
Definition file_ref_fid (file_ref : sc_path) : Z :=
  Z.lor (Z.shiftl (nth (Z.to_nat (path_len file_ref - 2))
                       (path_value file_ref) 0) 8 mod 65536)
        (nth (Z.to_nat (path_len file_ref - 1)) (path_value file_ref) 0)
  mod 65536.

(** The MANAGE SECURITY ENVIRONMENT command of [mcrd_set_security_env]. *)
Definition set_env_apdu (cla p2 : Z) (data : list Z) : sc_apdu :=
  {| apdu_cse := SC_APDU_CASE_3_SHORT; apdu_cla := cla; apdu_ins := 0x22;
     apdu_p1 := 0x41; apdu_p2 := p2;
     apdu_lc := Z.of_nat (length data); apdu_le := 0;
     apdu_data := data; apdu_resplen := 0 |}.

(** ** Record scans *)

(** READ RECORD as [load_special_files] formats it. *)
Definition read_apdu (cla recno : Z) : sc_apdu :=
  {| apdu_cse := SC_APDU_CASE_2_SHORT; apdu_cla := cla; apdu_ins := 0xB2;
     apdu_p1 := recno mod 256; apdu_p2 := 0x04; apdu_lc := 0;
     apdu_le := 200; apdu_data := []; apdu_resplen := 200 |}.

(** The status words the record loops tell apart. *)
Definition record_not_found (sw1 sw2 : Z) : Prop := sw1 = 0x6A /\ sw2 = 0x83.
Definition record_read (sw1 sw2 : Z) : Prop :=
  (sw1 = 0x90 /\ sw2 = 0x00) \/ (sw1 = 0x62 /\ sw2 = 0x82).

End Reading.

(** * Notions for the further properties *)

Section Wire.
Context {P : Platform}.

(** The directory entry [get_df_info] finds for the current path. *)
Definition current_df_info (card : sc_card) : option nat :=
  find_df_info (df_infos (drv_data card)) (drv_data card).

(** The record numbers held at [dfi] for one of the two files, in list
    order. *)
Definition recnos_at (which : special_file) (card : sc_card) (i : nat)
  : option (list Z) :=
  match nth_error (df_infos (drv_data card)) i with
  | Some d =>
      Some (match which with
            | the_rule_file => map rule_recno (rule_file d)
            | the_keyd_file => map keyd_recno (keyd_file d)
            end)
  | None => None
  end.

(** The record numbers [recno], [recno + 1], ... ([k] of them). *)
Definition recnos_from (recno : Z) (k : nat) : list Z :=
  map (fun j => recno + Z.of_nat j) (seq 0 k).

(** The records held at [dfi] for one of the two files, each as its number
    and its bytes, in list order. *)
Definition records_at (which : special_file) (card : sc_card) (i : nat)
  : option (list (Z * list Z)) :=
  match nth_error (df_infos (drv_data card)) i with
  | Some d =>
      Some (match which with
            | the_rule_file =>
                map (fun r => (rule_recno r, rule_data r)) (rule_file d)
            | the_keyd_file =>
                map (fun k => (keyd_recno k, keyd_data k)) (keyd_file d)
            end)
  | None => None
  end.

(** What the card delivers to [k] READ RECORD commands for the numbers
    [recno], [recno + 1], ... that follow [trace] on the wire: each record
    with its number and those of its bytes that fit the buffer of 200, the
    first one first.  There is no such list when one of the [k] answers is
    not a record, that is, has a status word other than 90 00 and 62 82. *)
Fixpoint records_read (cla : Z) (trace : list sc_apdu) (recno : Z)
    (k : nat) : option (list (Z * list Z)) :=
  match k with
  | O => Some []
  | S k' =>
      match card_answer trace (read_apdu cla recno) with
      | TransmitFailed _ => None
      | Answer sw1 sw2 resp =>
          if status_is sw1 sw2 0x90 0x00 || status_is sw1 sw2 0x62 0x82
          then option_map (cons (recno, firstn 200 resp))
                 (records_read cla (trace ++ [read_apdu cla recno])
                               (recno + 1) k')
          else None
      end
  end.

(** How a record loop is left on the answer that is not a record: by
    [break] on 6A 83, and otherwise by returning the error of the
    transport or of the status word. *)
Definition loop_exit_on (ans : transmit_result) : loop_exit :=
  match ans with
  | TransmitFailed e => Returned (Z.neg e)
  | Answer sw1 sw2 _ =>
      if status_is sw1 sw2 0x6a 0x83 then Completed
      else Returned (sc_check_sw sw1 sw2)
  end.


(** The cache is empty or starts at the MF: the assertion at the head of
    [select_file_by_path] and [select_file_by_fid]. *)
Definition rooted (card : sc_card) : Prop :=
  curpathlen (drv_data card) = 0 \/ nth 0 (curpath (drv_data card)) 0 = MFID.

(** RESTORE SECURITY ENVIRONMENT, as [restore_se] formats it. *)
Definition restore_apdu (cla se_num : Z) : sc_apdu :=
  {| apdu_cse := SC_APDU_CASE_1; apdu_cla := cla; apdu_ins := 0x22;
     apdu_p1 := 0xF3; apdu_p2 := se_num mod 256; apdu_lc := 0;
     apdu_le := 0; apdu_data := []; apdu_resplen := 0 |}.

(** The value a command ends with when the driver passes its outcome on:
    the error of the transport, or [sc_check_sw] of the status word. *)
Definition outcome_code (ans : transmit_result) : Z :=
  match ans with
  | TransmitFailed e => Z.neg e
  | Answer sw1 sw2 _ => sc_check_sw sw1 sw2
  end.

(** PERFORM SECURITY OPERATION and the GET RESPONSE that may follow it,
    as [mcrd_compute_signature] formats them. *)
Definition sign_apdu (cla : Z) (payload : list Z) (datalen : Z) : sc_apdu :=
  {| apdu_cse := SC_APDU_CASE_3_SHORT; apdu_cla := cla; apdu_ins := 0x2A;
     apdu_p1 := 0x9E; apdu_p2 := 0x9A; apdu_lc := datalen; apdu_le := 0;
     apdu_data := payload; apdu_resplen := SC_MAX_APDU_BUFFER_SIZE |}.

Definition get_response_apdu (cla : Z) : sc_apdu :=
  {| apdu_cse := SC_APDU_CASE_2_SHORT; apdu_cla := cla; apdu_ins := 0xC0;
     apdu_p1 := 0; apdu_p2 := 0; apdu_lc := 0; apdu_le := 0x80;
     apdu_data := []; apdu_resplen := 0x80 |}.

End Wire.

(** * A platform to run the driver on

    The examples run the driver against scripted cards on one platform
    that satisfies [PlatformOk]. *)

(** Modelled from the spec: [sc_asn1_find_tag] of asn1.c, which is not among
    the sources ("TLV scanner: given a byte buffer and a tag, return the
    first matching value slice").  Objects have a one-byte tag and a
    one-byte length. *)
Fixpoint tlv_find_tag_fuel (fuel : nat) (buf : list Z) (tag : Z)
  : option (list Z) :=
  match fuel, buf with
  | S fuel', t :: l :: rest =>
      if Z.of_nat (length rest) <? l then None
      else if t =? tag then Some (firstn (Z.to_nat l) rest)
      else tlv_find_tag_fuel fuel' (skipn (Z.to_nat l) rest) tag
  | _, _ => None
  end.

Definition tlv_find_tag (buf : list Z) (tag : Z) : option (list Z) :=
  tlv_find_tag_fuel (length buf) buf tag.

(** A status-word table in the manner of iso7816.c: 90 00 is success,
    6A 82 is "file not found", everything else a failed command. *)
Definition bench_check_sw (sw1 sw2 : Z) : Z :=
  if status_is sw1 sw2 0x90 0x00 then 0
  else if status_is sw1 sw2 0x6A 0x82 then -1201
  else -1200.

(** A card that answers the n-th APDU it receives with the n-th entry of a
    script, and no longer answers when the script is used up. *)
Definition scripted (script : list transmit_result)
    (trace : list sc_apdu) (apdu : sc_apdu) : transmit_result :=
  nth (length trace) script (TransmitFailed 1100).

Definition bench (script : list transmit_result) (stale : Z) : Platform :=
  {| SC_ERROR_INVALID_ARGUMENTS := -1300;
     SC_ERROR_INTERNAL := -1400;
     SC_ERROR_FILE_NOT_FOUND := -1201;
     SC_ERROR_UNKNOWN_DATA_RECEIVED := -1213;
     SC_ERROR_OUT_OF_MEMORY := -1404;
     SC_MAX_APDU_BUFFER_SIZE := 258;
     SC_MAX_PATH_SIZE := 16;
     SC_SEC_ENV_FILE_REF_PRESENT := 0x0002;
     sc_check_sw := bench_check_sw;
     sc_asn1_find_tag := tlv_find_tag;
     sc_lock := 0;
     card_answer := scripted script;
     uninitialised := fun _ _ => stale |}.

(** A card without records: it answers every READ RECORD with 6A 83 and
    every other command with 90 00, whatever went before. *)
Definition recordless (trace : list sc_apdu) (apdu : sc_apdu)
  : transmit_result :=
  if apdu_ins apdu =? 0xB2 then Answer 0x6A 0x83 [] else Answer 0x90 0x00 [].

Definition bench_recordless : Platform :=
  {| SC_ERROR_INVALID_ARGUMENTS := -1300;
     SC_ERROR_INTERNAL := -1400;
     SC_ERROR_FILE_NOT_FOUND := -1201;
     SC_ERROR_UNKNOWN_DATA_RECEIVED := -1213;
     SC_ERROR_OUT_OF_MEMORY := -1404;
     SC_MAX_APDU_BUFFER_SIZE := 258;
     SC_MAX_PATH_SIZE := 16;
     SC_SEC_ENV_FILE_REF_PRESENT := 0x0002;
     sc_check_sw := bench_check_sw;
     sc_asn1_find_tag := tlv_find_tag;
     sc_lock := 0;
     card_answer := recordless;
     uninitialised := fun _ _ => 0 |}.

(** A card whose record files hold two records each: READ RECORD 1 and 2
    are answered 90 00 with three bytes, any other READ RECORD 6A 83, and
    every other command 90 00, whatever went before. *)
Definition two_records (trace : list sc_apdu) (apdu : sc_apdu)
  : transmit_result :=
  if apdu_ins apdu =? 0xB2 then
    if (1 <=? apdu_p1 apdu) && (apdu_p1 apdu <=? 2)
    then Answer 0x90 0x00 [0x80; 0x01; apdu_p1 apdu]
    else Answer 0x6A 0x83 []
  else Answer 0x90 0x00 [].

Definition bench_two_records : Platform :=
  {| SC_ERROR_INVALID_ARGUMENTS := -1300;
     SC_ERROR_INTERNAL := -1400;
     SC_ERROR_FILE_NOT_FOUND := -1201;
     SC_ERROR_UNKNOWN_DATA_RECEIVED := -1213;
     SC_ERROR_OUT_OF_MEMORY := -1404;
     SC_MAX_APDU_BUFFER_SIZE := 258;
     SC_MAX_PATH_SIZE := 16;
     SC_SEC_ENV_FILE_REF_PRESENT := 0x0002;
     sc_check_sw := bench_check_sw;
     sc_asn1_find_tag := tlv_find_tag;
     sc_lock := 0;
     card_answer := two_records;
     uninitialised := fun _ _ => 0 |}.

(** ** Card handles, cards and requests of the examples *)

(** A card handle before [mcrd_init]. *)
Definition blank_card : sc_card :=
  {| drv_data := {| curpath := repeat 0 (Z.to_nat MAX_CURPATH);
                    curpathlen := 0; is_ef := false; df_infos := [] |};
     card_cla := 0; cache_current_path_len := 0; transmitted := [] |}.

(** The card handle as [mcrd_init] sets it up before it loads the root
    directory. *)
Definition card_at_root : sc_card :=
  {| drv_data :=
       {| curpath := MFID :: repeat 0 9; curpathlen := 1; is_ef := false;
          df_infos := [] |};
     card_cla := 0; cache_current_path_len := 0; transmitted := [] |}.

(** A session positioned in the directory 3F00/4100. *)
Definition card_in_4100 : sc_card :=
  {| drv_data :=
       {| curpath := MFID :: 0x4100 :: repeat 0 8; curpathlen := 2;
          is_ef := false; df_infos := [] |};
     card_cla := 0; cache_current_path_len := 0; transmitted := [] |}.

(** A session nine directories deep, in 3F00/4100/4200/.../4800. *)
Definition card_nine_deep : sc_card :=
  {| drv_data :=
       {| curpath := [MFID; 0x4100; 0x4200; 0x4300; 0x4400; 0x4500;
                      0x4600; 0x4700; 0x4800; 0];
          curpathlen := 9; is_ef := false; df_infos := [] |};
     card_cla := 0; cache_current_path_len := 0; transmitted := [] |}.

(** A session positioned on the EF 3F00/4100/4101. *)
Definition card_on_4101 : sc_card :=
  {| drv_data :=
       {| curpath := MFID :: 0x4100 :: 0x4101 :: repeat 0 7; curpathlen := 3;
          is_ef := true; df_infos := [] |};
     card_cla := 0; cache_current_path_len := 0; transmitted := [] |}.

(** A session in directory 3F00 whose EF_KeyD holds the one record
    83 04 01 02 41 01: reference data 01 02 for file 4101, and no
    security-environment object. *)
Definition keyd_4101 : keyd_record_s :=
  {| keyd_recno := 1; keyd_data := [0x83; 4; 0x01; 0x02; 0x41; 0x01] |}.

(** The same reference with a security-environment object that names
    environment 5: 7B 03 80 01 05. *)
Definition keyd_4101_se5 : keyd_record_s :=
  {| keyd_recno := 1;
     keyd_data := [0x83; 4; 0x01; 0x02; 0x41; 0x01; 0x7B; 3; 0x80; 1; 5] |}.

Definition card_with_keyd (keyd : list keyd_record_s) : sc_card :=
  {| drv_data :=
       {| curpath := MFID :: repeat 0 9; curpathlen := 1; is_ef := false;
          df_infos := [ {| path := MFID :: repeat 0 9; pathlen := 1;
                           rule_file := []; keyd_file := keyd |} ] |};
     card_cla := 0; cache_current_path_len := 0; transmitted := [] |}.

(** A session in directory 3F00 that holds the given records of EF_Rule. *)
Definition card_with_rules (rules : list rule_record_s) : sc_card :=
  {| drv_data :=
       {| curpath := MFID :: repeat 0 9; curpathlen := 1; is_ef := false;
          df_infos := [ {| path := MFID :: repeat 0 9; pathlen := 1;
                           rule_file := rules; keyd_file := [] |} ] |};
     card_cla := 0; cache_current_path_len := 0; transmitted := [] |}.

(** The FCP of the example: identifier 0x4101, size 100, descriptor byte
    0x41 (shareable, working EF, structure 1). *)
Definition fcp_4101 : list Z :=
  [0x83; 2; 0x41; 0x01; 0x81; 2; 0; 100; 0x82; 1; 0x41].

(** A path argument of [mcrd_select_file]. *)
Definition path_of (ty : sc_path_type) (bytes : list Z) : sc_path :=
  {| path_value := bytes; path_len := Z.of_nat (length bytes);
     path_type := ty |}.

(** The request "sign with the key of file 4101". *)
Definition env_sign_4101 : sc_security_env :=
  {| env_flags := 0x0002;
     env_operation := SC_SEC_OPERATION_SIGN;
     env_file_ref := {| path_value := [0x41; 0x01]; path_len := 2;
                        path_type := SC_PATH_TYPE_FILE_ID |} |}.

(** A request with an operation the driver does not know. *)
Definition env_other_4101 : sc_security_env :=
  {| env_flags := 0x0002;
     env_operation := SC_SEC_OPERATION_other 2;
     env_file_ref := {| path_value := [0x41; 0x01]; path_len := 2;
                        path_type := SC_PATH_TYPE_FILE_ID |} |}.

(** A card on which EF_Rule does not exist (first answer), that does not
    answer the second APDU, and accepts the third and the fourth. *)
Definition flaky_card : list transmit_result :=
  [Answer 0x6A 0x82 []; TransmitFailed 1100;
   Answer 0x90 0x00 []; Answer 0x90 0x00 []].

(** A card with EF_Rule (one record) and without EF_KeyD. *)
Definition card_without_keyd : list transmit_result :=
  [Answer 0x90 0x00 []; Answer 0x90 0x00 [0x80; 0x01; 0x00; 0x90; 0x00];
   Answer 0x6A 0x83 []; Answer 0x6A 0x82 []].


(** * Properties *)

Lemma bench_ok script stale : PlatformOk (bench script stale).
Proof.
  constructor; cbn; try lia.
  intros sw1 sw2. unfold bench_check_sw.
  destruct (status_is sw1 sw2 0x90 0x00); [lia|].
  destruct (status_is sw1 sw2 0x6A 0x82); lia.
Qed.

Lemma bench_recordless_ok : PlatformOk bench_recordless.
Proof.
  constructor; cbn; try lia.
  intros sw1 sw2. unfold bench_check_sw.
  destruct (status_is sw1 sw2 0x90 0x00); [lia|].
  destruct (status_is sw1 sw2 0x6A 0x82); lia.
Qed.

Section Properties.
Context {P : Platform}.

(** ** The monad *)

Lemma bind_Done {A B} (m : M A) (k : A -> M B) card a card' :
  m card = Done a card' -> bind m k card = k a card'.
Proof. intros H. unfold bind. now rewrite H. Qed.

Lemma bind_DRVDATA {B} (k : mcrd_priv_data -> M B) card :
  bind DRVDATA k card = k (drv_data card) card.
Proof. reflexivity. Qed.

Lemma bind_ret {A B} (a : A) (k : A -> M B) card :
  bind (ret a) k card = k a card.
Proof. reflexivity. Qed.

Lemma bind_assoc {A B C} (m : M A) (f : A -> M B) (g : B -> M C) card :
  bind (bind m f) g card = bind m (fun a => bind (f a) g) card.
Proof. unfold bind. now destruct (m card). Qed.

(** ** get_df_info and what is built on it never move the position *)

Lemma get_df_info_total card :
  is_ef (drv_data card) = false ->
  exists dfi card',
    get_df_info card = Done dfi card'
    /\ position card' = position card
    /\ transmitted card' = transmitted card.
Proof.
  intros Hef. unfold get_df_info, bind, DRVDATA. rewrite Hef. cbn.
  destruct (curpathlen (drv_data card) =? 0).
  - now exists None, card.
  - destruct (find_df_info _ _) as [i|].
    + now exists (Some i), card.
    + cbn. eexists (Some O), _. split; [reflexivity|]. now cbn.
Qed.

Lemma process_arr_total buf card :
  is_ef (drv_data card) = false ->
  exists card',
    process_arr buf card = Done tt card'
    /\ position card' = position card
    /\ transmitted card' = transmitted card.
Proof.
  intros Hef. unfold process_arr.
  destruct (negb _).
  - now exists card.
  - destruct (get_df_info_total card Hef) as (dfi & card' & H & Hp & Ht).
    exists card'. unfold bind. now rewrite H.
Qed.

Lemma fcp_arr_total buf card :
  is_ef (drv_data card) = false ->
  exists card',
    fcp_arr buf card = Done tt card'
    /\ position card' = position card
    /\ transmitted card' = transmitted card.
Proof.
  intros Hef. unfold fcp_arr.
  destruct (sc_asn1_find_tag buf 0x8B) as [[|? ?]|];
    try (now apply process_arr_total);
    (destruct (sc_asn1_find_tag buf 0xA1) as [[|? ?]|];
     [now exists card | | now exists card];
     match goal with
     | |- context [sc_asn1_find_tag ?t 0x8B] =>
         destruct (sc_asn1_find_tag t 0x8B) as [[|? ?]|]
     end;
     try (now apply process_arr_total); now exists card).
Qed.

Lemma process_fcp_total file buf card :
  is_ef (drv_data card) = false ->
  exists card',
    process_fcp file buf card
    = Done (with_magic
              (fcp_sec_attr
                 (fcp_prop_info_constructed
                    (fcp_prop_info
                       (fcp_df_name
                          (fcp_descriptor
                             (fcp_size (fcp_file_identifier file buf) buf)
                             buf) buf) buf) buf) buf)) card'
    /\ position card' = position card
    /\ transmitted card' = transmitted card.
Proof.
  intros Hef.
  destruct (fcp_arr_total buf card Hef) as (card' & H & Hp & Ht).
  exists card'. unfold process_fcp, bind. rewrite H. now cbn.
Qed.

(** ** process_fcp: the descriptor fields *)

Lemma byte_cases (Q : Z -> bool) :
  forallb Q (map Z.of_nat (seq 0 256)) = true ->
  forall b, 0 <= b < 256 -> Q b = true.
Proof.
  intros H b Hb. rewrite forallb_forall in H. apply H.
  apply in_map_iff. exists (Z.to_nat b). split; [lia|].
  apply in_seq. lia.
Qed.

Lemma file_type_eqb_eq a b : file_type_eqb a b = true -> a = b.
Proof.
  destruct a as [[]|], b as [[]|]; cbn; congruence.
Qed.

Lemma with_descriptor_fields f byte :
  0 <= byte < 256 ->
  file_type f = None ->
  file_shareable (with_descriptor f byte)
  = (if Z.testbit byte 6 then 1 else 0)
  /\ file_ef_structure (with_descriptor f byte) = byte mod 8
  /\ file_type (with_descriptor f byte)
     = spec_type_of_selector (byte / 8 mod 8).
Proof.
  intros Hb Hty. unfold with_descriptor; cbn [file_shareable
    file_ef_structure file_type]. rewrite Hty.
  pose (Q := fun b : Z =>
    ((if Z.land b 0x40 =? 0 then 0 else 1)
       =? (if Z.testbit b 6 then 1 else 0))
    && (Z.land b 0x07 =? b mod 8)
    && file_type_eqb
         (let sel := Z.land (Z.shiftr b 3) 7 in
          if sel =? 0 then Some SC_FILE_TYPE_WORKING_EF
          else if sel =? 1 then Some SC_FILE_TYPE_INTERNAL_EF
          else if sel =? 7 then Some SC_FILE_TYPE_DF
          else None)
         (spec_type_of_selector (b / 8 mod 8))).
  assert (HQ : Q byte = true)
    by (apply byte_cases; [vm_compute; reflexivity | exact Hb]).
  unfold Q in HQ.
  apply andb_prop in HQ as [HQ H3]. apply andb_prop in HQ as [H1 H2].
  apply Z.eqb_eq in H1, H2. apply file_type_eqb_eq in H3.
  auto.
Qed.

Lemma lor_high_low t0 t1 :
  0 <= t0 < 256 -> 0 <= t1 < 256 ->
  Z.lor (Z.shiftl t0 8) t1 = 256 * t0 + t1.
Proof.
  intros H0 H1.
  pose (Q := fun a : Z =>
    forallb (fun b => Z.lor (Z.shiftl a 8) b =? 256 * a + b)
            (map Z.of_nat (seq 0 256))).
  assert (HQ : Q t0 = true)
    by (apply byte_cases; [vm_compute; reflexivity | exact H0]).
  unfold Q in HQ.
  apply Z.eqb_eq.
  exact (byte_cases _ HQ t1 H1).
Qed.

Lemma fcp_file_identifier_encoded f buf id :
  encodes_id buf id -> file_id (fcp_file_identifier f buf) = id.
Proof.
  intros (t0 & t1 & H & H0 & H1 & ->). unfold fcp_file_identifier.
  rewrite H. cbn. now apply lor_high_low.
Qed.

Lemma fcp_size_encoded f buf n :
  encodes_size buf n -> file_size (fcp_size f buf) = n.
Proof.
  intros (t0 & t1 & more & -> & H). unfold fcp_size, fcp_size_tag.
  rewrite Z.mul_comm.
  destruct H as [H | [(H81 & H) | (H81 & H85 & H)]].
  - rewrite H. cbn [size_from with_size file_size].
    now rewrite Z.shiftl_mul_pow2.
  - rewrite H81, H. cbn [size_from with_size file_size].
    now rewrite Z.shiftl_mul_pow2.
  - rewrite H81, H85, H. cbn [size_from with_size file_size].
    now rewrite Z.shiftl_mul_pow2.
Qed.

Lemma fcp_size_keeps f buf :
  file_id (fcp_size f buf) = file_id f
  /\ file_type (fcp_size f buf) = file_type f.
Proof.
  unfold fcp_size, size_from.
  destruct (fcp_size_tag buf) as [[|? [|? ?]]|];
    try destruct (sc_asn1_find_tag buf 0x80) as [[|? [|? ?]]|]; now cbn.
Qed.

Lemma fcp_file_identifier_keeps f buf :
  file_type (fcp_file_identifier f buf) = file_type f.
Proof.
  unfold fcp_file_identifier.
  destruct (sc_asn1_find_tag buf 0x83) as [[|? [|? [|? ?]]]|]; now cbn.
Qed.

Lemma fcp_descriptor_keeps f buf :
  file_id (fcp_descriptor f buf) = file_id f
  /\ file_size (fcp_descriptor f buf) = file_size f.
Proof.
  unfold fcp_descriptor.
  destruct (sc_asn1_find_tag buf 0x82) as [[|? ?]|]; now cbn.
Qed.

Lemma later_blocks_keep f buf :
  same_decoded
    (with_magic
       (fcp_sec_attr
          (fcp_prop_info_constructed
             (fcp_prop_info (fcp_df_name f buf) buf) buf) buf))
    f.
Proof.
  unfold fcp_sec_attr, fcp_prop_info_constructed, fcp_prop_info,
    fcp_df_name.
  destruct (sc_asn1_find_tag buf 0x86) as [[|? ?]|];
    destruct (sc_asn1_find_tag buf 0xA5) as [[|? ?]|];
    destruct (if fcp_bad_fde buf then None else sc_asn1_find_tag buf 0x85)
      as [[|? ?]|];
    destruct (sc_asn1_find_tag buf 0x84) as [[|? t]|];
    try match goal with
        | |- context [if ?c then with_name _ _ else _] => destruct c
        end;
    repeat split.
Qed.

Lemma process_fcp_decodes buf :
  decoded buf
    (with_magic
       (fcp_sec_attr
          (fcp_prop_info_constructed
             (fcp_prop_info
                (fcp_df_name
                   (fcp_descriptor
                      (fcp_size (fcp_file_identifier sc_file_new buf) buf)
                      buf) buf) buf) buf) buf)).
Proof.
  pose proof (later_blocks_keep
                (fcp_descriptor
                   (fcp_size (fcp_file_identifier sc_file_new buf) buf)
                   buf) buf) as Hkeep.
  destruct Hkeep as (Hk1 & Hk2 & Hk3 & Hk4 & Hk5).
  destruct (fcp_descriptor_keeps
              (fcp_size (fcp_file_identifier sc_file_new buf) buf) buf)
    as [Hd1 Hd2].
  destruct (fcp_size_keeps (fcp_file_identifier sc_file_new buf) buf)
    as [Hi Ht].
  unfold decoded. rewrite Hk1, Hk2, Hk3, Hk4, Hk5, Hd1, Hd2, Hi.
  split; [|split].
  - intros id Hid. now apply fcp_file_identifier_encoded.
  - intros size Hsize. now apply fcp_size_encoded.
  - intros byte more H82 Hbyte.
    unfold fcp_descriptor. rewrite H82, (Z.mod_small _ _ Hbyte).
    apply with_descriptor_fields; [exact Hbyte|].
    now rewrite Ht, fcp_file_identifier_keeps.
Qed.

Lemma process_arr_on_an_ef t card :
  is_ef (drv_data card) = true ->
  process_arr t card
  = match t with
    | [_] => Fault AssertionFailed
    | _ => Done tt card
    end.
Proof.
  intros Hef. unfold process_arr.
  destruct t as [|x [|y t]]; [reflexivity | | ].
  - cbn [length Z.of_nat Z.eqb negb Pos.of_succ_nat Pos.eqb].
    unfold get_df_info. rewrite bind_assoc, bind_DRVDATA, Hef.
    reflexivity.
  - replace (Z.of_nat (length (x :: y :: t)) =? 1) with false;
      [reflexivity|].
    symmetry. apply Z.eqb_neq. cbn [length]. lia.
Qed.

Lemma fcp_arr_on_an_ef buf card :
  is_ef (drv_data card) = true ->
  fcp_arr buf card
  = if short_arr buf then Fault AssertionFailed else Done tt card.
Proof.
  intros Hef. unfold fcp_arr, short_arr, arr_reference.
  destruct (sc_asn1_find_tag buf 0x8B) as [[|x t]|].
  - destruct (sc_asn1_find_tag buf 0xA1) as [[|a tpl]|];
      [reflexivity | | reflexivity].
    destruct (sc_asn1_find_tag (a :: tpl) 0x8B) as [[|x t]|];
      [reflexivity | | reflexivity].
    rewrite (process_arr_on_an_ef _ _ Hef). now destruct t.
  - rewrite (process_arr_on_an_ef _ _ Hef). now destruct t.
  - destruct (sc_asn1_find_tag buf 0xA1) as [[|a tpl]|];
      [reflexivity | | reflexivity].
    destruct (sc_asn1_find_tag (a :: tpl) 0x8B) as [[|x t]|];
      [reflexivity | | reflexivity].
    rewrite (process_arr_on_an_ef _ _ Hef). now destruct t.
Qed.

(** [process_fcp] on a fresh descriptor: it stops on the assertion of
    [get_df_info] when an EF is current and the response refers to an
    access rule in the short form, and in every other case it returns the
    decoded descriptor, the position and the wire being as before. *)
Lemma process_fcp_decodes_or_stops card buf :
  (is_ef (drv_data card) = true
   /\ short_arr buf = true
   /\ process_fcp sc_file_new buf card = Fault AssertionFailed)
  \/ ((is_ef (drv_data card) = false \/ short_arr buf = false)
      /\ exists file card',
           process_fcp sc_file_new buf card = Done file card'
           /\ position card' = position card
           /\ transmitted card' = transmitted card
           /\ decoded buf file).
Proof.
  destruct (is_ef (drv_data card)) eqn:Hef.
  - destruct (short_arr buf) eqn:Hshort.
    + left. split; [reflexivity|]. split; [reflexivity|].
      unfold process_fcp, bind.
      now rewrite (fcp_arr_on_an_ef _ _ Hef), Hshort.
    + right. split; [now right|].
      eexists _, card. split.
      * unfold process_fcp, bind.
        rewrite (fcp_arr_on_an_ef _ _ Hef), Hshort. reflexivity.
      * split; [reflexivity|]. split; [reflexivity|].
        apply process_fcp_decodes.
  - right. split; [now left|].
    destruct (process_fcp_total sc_file_new buf card Hef)
      as (card' & Hrun & Hpos & Htr).
    eexists _, card'. split; [exact Hrun|].
    split; [exact Hpos|]. split; [exact Htr|].
    apply process_fcp_decodes.
Qed.

(** ** get_se_num_from_keyd *)

Lemma store_ref_data_twice ref a b c d :
  store_ref_data (store_ref_data ref a b) c d = store_ref_data ref c d.
Proof.
  destruct ref as [[|x [|y l]]|]; reflexivity.
Qed.

Lemma fidbuf_high fid : 0 <= fid < 65536 -> Z.shiftr fid 8 mod 256 = fid / 256.
Proof.
  intros H. rewrite Z.shiftr_div_pow2 by lia. change (2 ^ 8) with 256.
  apply Z.mod_small. split.
  - apply Z.div_pos; lia.
  - apply Z.div_lt_upper_bound; lia.
Qed.

(** One turn of the loop, in the words of the specification. *)
Lemma keyd_scan_turn fid k next ref :
  0 <= fid < 65536 ->
  keyd_scan (Z.shiftr fid 8 mod 256) (fid mod 256) (k :: next) ref
  = match keyd_reference fid k with
    | None => keyd_scan (Z.shiftr fid 8 mod 256) (fid mod 256) next ref
    | Some (t0, t1) =>
        match keyd_se_number k with
        | Some se => (se mod 256, store_ref_data ref t0 t1)
        | None =>
            keyd_scan (Z.shiftr fid 8 mod 256) (fid mod 256) next
                      (store_ref_data ref t0 t1)
        end
    end.
Proof.
  intros Hfid. cbn [keyd_scan]. unfold keyd_reference, keyd_se_number.
  rewrite (fidbuf_high fid Hfid).
  destruct (sc_asn1_find_tag (keyd_data k) 0x83)
    as [[|t0 [|t1 [|t2 [|t3 [|? ?]]]]]|]; try reflexivity.
  destruct ((t2 =? fid / 256) && (t3 =? fid mod 256)); [|reflexivity].
  destruct (sc_asn1_find_tag (keyd_data k) 0x7B) as [[|? se_do]|];
    try reflexivity.
  match goal with
  | |- context [sc_asn1_find_tag ?v 0x80] =>
      destruct (sc_asn1_find_tag v 0x80) as [[|? [|? ?]]|]
  end; reflexivity.
Qed.

Lemma get_se_num_from_keyd_scans card keyd fid ref :
  keyd_records card keyd ->
  get_se_num_from_keyd fid ref card
  = Done (keyd_scan (Z.shiftr fid 8 mod 256) (fid mod 256) keyd ref) card.
Proof.
  intros (dfi & d & Hget & Hd & <-).
  unfold get_se_num_from_keyd.
  rewrite (bind_Done _ _ _ _ _ Hget), (bind_Done _ _ _ _ _ Hd).
  now destruct (keyd_file d).
Qed.

(** Records that do not name [fid] are passed over. *)
Lemma keyd_scan_skips fid before rest ref :
  0 <= fid < 65536 ->
  Forall (fun k => keyd_reference fid k = None) before ->
  keyd_scan (Z.shiftr fid 8 mod 256) (fid mod 256) (before ++ rest) ref
  = keyd_scan (Z.shiftr fid 8 mod 256) (fid mod 256) rest ref.
Proof.
  intros Hfid H. induction H as [|k before Hk _ IH]; [reflexivity|].
  rewrite <- app_comm_cons, keyd_scan_turn by exact Hfid.
  now rewrite Hk.
Qed.

(** When no record both names [fid] and carries a number, the scan ends
    in -1; the buffer is the caller's or holds the reference data of a
    record that names [fid]. *)
Lemma keyd_scan_not_found fid keyd :
  0 <= fid < 65536 ->
  Forall (fun k => keyd_reference fid k = None \/ keyd_se_number k = None)
         keyd ->
  forall ref,
    fst (keyd_scan (Z.shiftr fid 8 mod 256) (fid mod 256) keyd ref) = -1
    /\ (Forall (fun k => keyd_reference fid k = None) keyd
        \/ exists k t0 t1,
             In k keyd /\ keyd_reference fid k = Some (t0, t1)
             /\ snd (keyd_scan (Z.shiftr fid 8 mod 256) (fid mod 256)
                               keyd ref)
                = store_ref_data ref t0 t1).
Proof.
  intros Hfid H. induction H as [|k keyd Hk _ IH]; intros ref.
  - split; [reflexivity|]. now left.
  - rewrite keyd_scan_turn by exact Hfid.
    destruct (keyd_reference fid k) as [[t0 t1]|] eqn:Hr.
    + destruct Hk as [Hk|Hk]; [discriminate|]. rewrite Hk.
      destruct (IH (store_ref_data ref t0 t1)) as [IH1 IH2].
      split; [exact IH1|]. right.
      destruct IH2 as [Hnone | (k' & u0 & u1 & Hin & Hk' & Heq)].
      * exists k, t0, t1. split; [now left|]. split; [exact Hr|].
        clear IH IH1.
        generalize (store_ref_data ref t0 t1) as r.
        induction Hnone as [|k' keyd' Hk' _ IH']; intros r.
        -- reflexivity.
        -- rewrite keyd_scan_turn by exact Hfid. rewrite Hk'. apply IH'.
      * exists k', u0, u1. split; [now right|]. split; [exact Hk'|].
        now rewrite Heq, store_ref_data_twice.
    + destruct (IH ref) as [IH1 IH2]. split; [exact IH1|].
      destruct IH2 as [Hnone | (k' & u0 & u1 & Hin & Hk' & Heq)].
      * left. now constructor.
      * right. exists k', u0, u1. split; [now right|]. now split.
Qed.

(** C1, as amended.  When the scan reaches a record that names the target
    file (the records before it do not), the first two bytes of its tag are
    stored as reference data.  If the record carries a security-environment
    number, that number is the result.  If it does not, the scan goes on
    with the later records, and when none of them both names the file and
    carries a number the result is -1 (not found), not 0. *)
Theorem get_se_num_from_keyd_on_match :
  forall (card : sc_card) (fid : Z) (ref : option (list Z))
         (before after : list keyd_record_s) (k : keyd_record_s)
         (t0 t1 : Z),
    0 <= fid < 65536 ->
    keyd_records card (before ++ k :: after) ->
    Forall (fun k' => keyd_reference fid k' = None) before ->
    keyd_reference fid k = Some (t0, t1) ->
    (forall se, keyd_se_number k = Some se ->
       get_se_num_from_keyd fid ref card
       = Done (se mod 256, store_ref_data ref t0 t1) card)
    /\ (keyd_se_number k = None ->
        get_se_num_from_keyd fid ref card
        = Done (keyd_scan (Z.shiftr fid 8 mod 256) (fid mod 256) after
                          (store_ref_data ref t0 t1)) card)
    /\ (keyd_se_number k = None ->
        Forall (fun k' => keyd_reference fid k' = None
                          \/ keyd_se_number k' = None) after ->
        exists ref', get_se_num_from_keyd fid ref card
                     = Done (-1, ref') card).
Proof.
  intros card fid ref before after k t0 t1 Hfid Hrec Hbefore Hk.
  rewrite (get_se_num_from_keyd_scans _ _ fid ref Hrec).
  rewrite (keyd_scan_skips _ _ _ _ Hfid Hbefore).
  rewrite (keyd_scan_turn _ _ _ _ Hfid), Hk.
  split; [|split].
  - now intros se ->.
  - now intros ->.
  - intros -> Hafter.
    destruct (keyd_scan_not_found fid after Hfid Hafter
                (store_ref_data ref t0 t1)) as [H1 _].
    destruct (keyd_scan _ _ after _) as [r ref'].
    cbn in H1. subst r. now exists ref'.
Qed.

(** C10.  When some record of the directory names the target file but no
    record both names it and carries a security-environment number, the
    result is -1 (not found) and yet the caller's buffer holds the
    reference data of a record that names the file: a buffer that began
    with other bytes has been changed. *)
Theorem get_se_num_from_keyd_writes_then_fails :
  forall (card : sc_card) (fid : Z) (keyd : list keyd_record_s)
         (b0 b1 : Z) (more : list Z),
    0 <= fid < 65536 ->
    keyd_records card keyd ->
    Exists (fun k => keyd_reference fid k <> None) keyd ->
    Forall (fun k => keyd_reference fid k = None \/ keyd_se_number k = None)
           keyd ->
    exists k t0 t1,
      In k keyd
      /\ keyd_reference fid k = Some (t0, t1)
      /\ get_se_num_from_keyd fid (Some (b0 :: b1 :: more)) card
         = Done (-1, Some (t0 :: t1 :: more)) card
      /\ ((b0, b1) <> (t0, t1) ->
          Some (t0 :: t1 :: more) <> Some (b0 :: b1 :: more)).
Proof.
  intros card fid keyd b0 b1 more Hfid Hrec Hsome Hnone.
  rewrite (get_se_num_from_keyd_scans _ _ fid _ Hrec).
  destruct (keyd_scan_not_found fid keyd Hfid Hnone
              (Some (b0 :: b1 :: more))) as [H1 H2].
  destruct H2 as [Hall | (k & t0 & t1 & Hin & Hk & Heq)].
  - exfalso. apply Exists_exists in Hsome as (k & Hin & Hk).
    rewrite Forall_forall in Hall. now apply Hk, Hall.
  - exists k, t0, t1. split; [exact Hin|]. split; [exact Hk|].
    destruct (keyd_scan _ _ keyd _) as [r ref']. cbn in H1, Heq.
    subst r ref'. split; [reflexivity|].
    intros Hne Heq. apply Hne. now injection Heq as -> ->.
Qed.

(** ** mcrd_finish *)

(** C5 (the code departs from the claim).  [mcrd_finish] returns 0 for
    every card and leaves the card as it found it: the path and all the
    records of all directories are still there.  So it is for the session
    whose root directory holds a key-directory record. *)
Theorem mcrd_finish_discards_nothing :
  (forall card : sc_card, mcrd_finish (Some card) = Done 0 card)
  /\ mcrd_finish (Some (card_with_keyd [keyd_4101]))
     = Done 0 (card_with_keyd [keyd_4101])
  /\ map keyd_file (df_infos (drv_data (card_with_keyd [keyd_4101])))
     = [[keyd_4101]]
  /\ cached_path (drv_data (card_with_keyd [keyd_4101])) = [0x3F00].
Proof. repeat split. Qed.

(** ** mcrd_set_security_env *)

Lemma get_se_num_from_keyd_silent fid ref card x card' :
  get_se_num_from_keyd fid ref card = Done x card' ->
  transmitted card' = transmitted card /\ card_cla card' = card_cla card.
Proof.
  unfold get_se_num_from_keyd, get_df_info, bind, DRVDATA, c_assert, deref.
  destruct (negb (is_ef (drv_data card))); cbn; [|discriminate].
  destruct (curpathlen (drv_data card) =? 0); cbn.
  - now intros [= _ <-].
  - destruct (find_df_info _ _) as [i|]; cbn.
    + destruct (nth_error _ i); cbn; [|discriminate].
      destruct (keyd_file _); now intros [= _ <-].
    + now intros [= _ <-].
Qed.

(** C2, as amended.  A call with an environment selector other than 0,
    with an operation that is neither sign nor decipher, or with a file
    reference that is absent or shorter than 2 bytes returns
    SC_ERROR_INVALID_ARGUMENTS and transmits nothing.  A call that passes
    these tests and finds no key reference (the lookup gives -1) sends no
    "restore" command: it transmits the one "set" command with the
    three-byte template alone, and its result is the result of that
    command. *)
Theorem mcrd_set_security_env_outcomes :
  forall (env : sc_security_env) (se_num : Z) (card : sc_card),
    ((se_num <> 0
      \/ (exists code, env_operation env = SC_SEC_OPERATION_other code)
      \/ Z.land (env_flags env) SC_SEC_ENV_FILE_REF_PRESENT = 0
      \/ path_len (env_file_ref env) <= 1) ->
     mcrd_set_security_env env se_num card
     = Done SC_ERROR_INVALID_ARGUMENTS card)
    /\ (forall (p2 : Z) (at_p : option (list Z)) (card' : sc_card),
          se_num = 0 ->
          (env_operation env = SC_SEC_OPERATION_SIGN /\ p2 = 0xB6
           \/ env_operation env = SC_SEC_OPERATION_DECIPHER /\ p2 = 0xB8) ->
          Z.land (env_flags env) SC_SEC_ENV_FILE_REF_PRESENT <> 0 ->
          1 < path_len (env_file_ref env) ->
          get_se_num_from_keyd (file_ref_fid (env_file_ref env))
            (Some [uninitialised sbuf 3; uninitialised sbuf 4]) card
          = Done (-1, at_p) card' ->
          exists card'',
            mcrd_set_security_env env se_num card
            = Done (match card_answer (transmitted card)
                            (set_env_apdu (card_cla card) p2
                                          [0x83; 0x03; 0x80]) with
                    | TransmitFailed e => Z.neg e
                    | Answer sw1 sw2 _ => sc_check_sw sw1 sw2
                    end) card''
            /\ transmitted card''
               = transmitted card
                 ++ [set_env_apdu (card_cla card) p2 [0x83; 0x03; 0x80]]).
Proof.
  intros env se_num card. split.
  - intros H. unfold mcrd_set_security_env.
    destruct (se_num =? 0) eqn:Hse; [|reflexivity]. cbn [negb].
    apply Z.eqb_eq in Hse.
    unfold bind, sc_format_apdu.
    destruct H as [H | [(code & H) | H]]; [contradiction | |].
    + now rewrite H.
    + assert (Hguard :
        negb (Z.land (env_flags env) SC_SEC_ENV_FILE_REF_PRESENT =? 0)
        && (1 <? path_len (env_file_ref env)) = false).
      { destruct H as [H | H].
        - rewrite H. reflexivity.
        - apply andb_false_iff. right. apply Z.ltb_ge. exact H. }
      destruct (env_operation env); try reflexivity;
        now rewrite Hguard.
  - intros p2 at_p card' -> Hop Hflag Hlen Hnum.
    destruct (get_se_num_from_keyd_silent _ _ _ _ _ Hnum) as [Htr Hcla].
    assert (Hguard :
      negb (Z.land (env_flags env) SC_SEC_ENV_FILE_REF_PRESENT =? 0)
      && (1 <? path_len (env_file_ref env)) = true).
    { apply andb_true_iff. split.
      - apply negb_true_iff. now apply Z.eqb_neq.
      - now apply Z.ltb_lt. }
    unfold file_ref_fid in Hnum.
    unfold mcrd_set_security_env. cbn [Z.eqb negb].
    unfold bind at 1. unfold sc_format_apdu at 1.
    destruct Hop as [[Hop ->] | [Hop ->]]; rewrite Hop, Hguard;
      rewrite (bind_Done _ _ _ _ _ Hnum); cbn;
      unfold bind, sc_transmit_apdu, set_env_apdu; cbn;
      rewrite Htr;
      (destruct (card_answer _ _) as [e | sw1 sw2 resp]; cbn;
       [ eexists; split; reflexivity
       | destruct (sc_check_sw sw1 sw2 =? 0) eqn:Hsw; cbn;
         [ apply Z.eqb_eq in Hsw; rewrite Hsw;
           eexists; split; reflexivity
         | eexists; split; reflexivity ] ]).
Qed.

(** ** select_file_by_path on the cached path *)

Lemma common_prefix_same n :
  forall a b : list Z,
    firstn n a = firstn n b ->
    length (firstn n b) = n ->
    common_prefix n a b = Z.of_nat n.
Proof.
  induction n as [|n IH]; intros a b Heq Hlen; [reflexivity|].
  destruct b as [|y b]; [discriminate|].
  destruct a as [|x a]; [discriminate|].
  cbn in Heq, Hlen. injection Heq as -> Heq. injection Hlen as Hlen.
  cbn [common_prefix]. rewrite Z.eqb_refl, (IH a b Heq Hlen). lia.
Qed.

(** The branch "Already selected" of [select_file_by_path], taken without
    a request for the descriptor. *)
Lemma select_file_by_path_cached :
  forall (fuel : nat) (card : sc_card) (pathptr : list Z) (pathlen : Z),
    1 < pathlen < MAX_CURPATH ->
    nth 0 pathptr 0 = MFID ->
    curpathlen (drv_data card) = pathlen ->
    firstn (Z.to_nat pathlen) pathptr = cached_path (drv_data card) ->
    length (cached_path (drv_data card)) = Z.to_nat pathlen ->
    select_file_by_path fuel pathptr pathlen false card
    = Done (0, None) card.
Proof.
  intros fuel card pathptr pathlen Hlen Hroot Hcur Hsame Hcells.
  unfold cached_path in Hsame, Hcells. rewrite Hcur in Hsame, Hcells.
  destruct pathptr as [|p0 pathptr].
  { destruct (Z.to_nat pathlen) eqn:E; [lia|].
    rewrite <- Hsame in Hcells. discriminate. }
  cbn in Hroot. subst p0.
  assert (Hfirst : nth 0 (curpath (drv_data card)) 0 = MFID).
  { destruct (Z.to_nat pathlen) eqn:E; [lia|].
    destruct (curpath (drv_data card)); [discriminate|].
    cbn in Hsame. now injection Hsame as <- _. }
  unfold select_file_by_path, bind, DRVDATA, c_assert.
  rewrite Hfirst, Z.eqb_refl, orb_true_r. cbn [ret].
  change (MFID =? 0x3FFF) with false. rewrite andb_false_r.
  assert (H0 : (pathlen =? 0) = false) by (apply Z.eqb_neq; lia).
  assert (H1 : (MAX_CURPATH <=? pathlen) = false) by (apply Z.leb_gt; lia).
  assert (H2 : (pathlen =? 1) = false) by (apply Z.eqb_neq; lia).
  assert (H3 : (1 <? pathlen) = true) by (apply Z.ltb_lt; lia).
  rewrite H0, H1. cbn [orb first_cell ret].
  rewrite H2, H3, Z.eqb_refl. cbn [andb].
  rewrite Hcur, H0, Nat.min_id.
  rewrite (common_prefix_same _ _ _ Hsame Hcells).
  rewrite Z2Nat.id by lia.
  rewrite Z.eqb_refl, Z.ltb_irrefl. reflexivity.
Qed.

Lemma firstn_seq_le :
  forall n m start, (n <= m)%nat -> firstn n (seq start m) = seq start n.
Proof.
  induction n as [|n IH]; intros m start Hle; [reflexivity|].
  destruct m as [|m]; [lia|]. cbn. f_equal. apply IH. lia.
Qed.

Lemma firstn_fill_pathtmp value n :
  0 <= n <= SC_MAX_PATH_SIZE / 2 ->
  firstn (Z.to_nat n) (fill_pathtmp value (2 * n))
  = map (fun k => fid_at value (2 * k)) (seq 0 (Z.to_nat n)).
Proof.
  intros Hn. unfold fill_pathtmp.
  rewrite firstn_map, firstn_seq_le by lia.
  apply map_ext_in. intros k Hk. apply in_seq in Hk.
  assert (H : (2 * Z.of_nat k <? 2 * n) = true) by (apply Z.ltb_lt; lia).
  now rewrite H.
Qed.

Lemma map_seq_nth (f : nat -> Z) (l : list Z) :
  (forall k, (k < length l)%nat -> f k = nth k l 0) ->
  map f (seq 0 (length l)) = l.
Proof.
  intros H. apply nth_ext with (d := 0) (d' := 0).
  - now rewrite length_map, length_seq.
  - intros k Hk. rewrite length_map, length_seq in Hk.
    rewrite (nth_indep _ 0 (f O)) by now rewrite length_map, length_seq.
    rewrite map_nth, seq_nth by exact Hk. now apply H.
Qed.

(** The test of lines 762-763 refuses a path of [MAX_CURPATH] components
    or more before anything is selected. *)
Lemma select_file_by_path_too_long :
  forall (fuel : nat) (card : sc_card) (pathptr : list Z) (pathlen : Z)
         (want_file : bool),
    MAX_CURPATH <= pathlen ->
    nth 0 pathptr 0 = MFID ->
    nth 0 (curpath (drv_data card)) 0 = MFID ->
    select_file_by_path fuel pathptr pathlen want_file card
    = Done (SC_ERROR_INVALID_ARGUMENTS, None) card.
Proof.
  intros fuel card pathptr pathlen want_file Hlen Hroot Hfirst.
  unfold select_file_by_path, bind, DRVDATA, c_assert.
  rewrite Hfirst, Z.eqb_refl, orb_true_r. cbn [ret].
  assert (H1 : (MAX_CURPATH <=? pathlen) = true) by (apply Z.leb_le; lia).
  destruct pathptr as [|p0 pathptr].
  - rewrite H1, orb_true_r. reflexivity.
  - cbn in Hroot. subst p0.
    change (MFID =? 0x3FFF) with false. rewrite andb_false_r.
    rewrite H1, orb_true_r. reflexivity.
Qed.

(** C8, as amended.  An absolute path of at least two components that
    equals the cached path is resolved without a descriptor without a
    command to the card, and the card handle, cache included, is as
    before.  The result is 0 when the path has fewer than [MAX_CURPATH]
    components and fits the conversion buffer of [SC_MAX_PATH_SIZE / 2]
    identifiers; a longer path is refused with
    SC_ERROR_INVALID_ARGUMENTS. *)
Theorem mcrd_select_file_cached_noop :
  forall (fuel : nat) (card : sc_card) (path : sc_path) (n : Z),
    path_type path = SC_PATH_TYPE_PATH ->
    path_len path = 2 * n ->
    1 < n ->
    curpathlen (drv_data card) = n ->
    length (cached_path (drv_data card)) = Z.to_nat n ->
    nth 0 (cached_path (drv_data card)) 0 = MFID ->
    (forall k, (k < Z.to_nat n)%nat ->
       fid_at (path_value path) (2 * k)
       = nth k (cached_path (drv_data card)) 0) ->
    mcrd_select_file fuel path false card
    = Done (if (n <=? SC_MAX_PATH_SIZE / 2) && (n <? MAX_CURPATH)
            then 0 else SC_ERROR_INVALID_ARGUMENTS, None) card.
Proof.
  intros fuel card path n Hty Hlen Hn Hcur Hcells Hroot Hsame.
  unfold mcrd_select_file. rewrite Hty, Hlen.
  assert (Heven : Z.land (2 * n) 1 = 0).
  { change 1 with (Z.ones 1) at 1. rewrite Z.land_ones by lia.
    change (2 ^ 1) with 2. rewrite Z.mul_comm. apply Z.mod_mul. lia. }
  rewrite Heven. cbn [Z.eqb negb orb].
  destruct (n <=? SC_MAX_PATH_SIZE / 2) eqn:Hmax; cbn [andb].
  2:{ apply Z.leb_gt in Hmax.
      assert (Hfits : (2 * (SC_MAX_PATH_SIZE / 2) <? 2 * n) = true)
        by (apply Z.ltb_lt; lia).
      now rewrite Hfits. }
  apply Z.leb_le in Hmax.
  assert (Hfits : (2 * (SC_MAX_PATH_SIZE / 2) <? 2 * n) = false)
    by (apply Z.ltb_ge; lia).
  rewrite Hfits.
  assert (Hhalf : Z.shiftr (2 * n) 1 = n).
  { rewrite Z.shiftr_div_pow2 by lia. change (2 ^ 1) with 2.
    rewrite Z.mul_comm. apply Z.div_mul. lia. }
  rewrite Hhalf.
  assert (Hpre : firstn (Z.to_nat n)
                   (fill_pathtmp (path_value path) (2 * n))
                 = cached_path (drv_data card)).
  { rewrite firstn_fill_pathtmp by lia. rewrite <- Hcells.
    apply map_seq_nth. intros k Hk. apply Hsame. lia. }
  assert (Hhead : nth 0 (fill_pathtmp (path_value path) (2 * n)) 0 = MFID).
  { rewrite <- Hroot, <- Hpre.
    destruct (Z.to_nat n) eqn:E; [lia|].
    now destruct (fill_pathtmp (path_value path) (2 * n)). }
  destruct (n <? MAX_CURPATH) eqn:Hdeep.
  - apply Z.ltb_lt in Hdeep.
    apply select_file_by_path_cached; try assumption. lia.
  - apply Z.ltb_ge in Hdeep.
    apply select_file_by_path_too_long; try assumption.
    rewrite <- Hroot. unfold cached_path. rewrite Hcur.
    destruct (Z.to_nat n) eqn:E; [lia|].
    now destruct (curpath (drv_data card)).
Qed.

(** ** load_special_files *)

Lemma bind_inv {A B} (m : M A) (k : A -> M B) card b card' :
  bind m k card = Done b card' ->
  exists a card1, m card = Done a card1 /\ k a card1 = Done b card'.
Proof.
  unfold bind. destruct (m card) as [a card1| |]; try discriminate. eauto.
Qed.

Tactic Notation "invert_bind" hyp(H) "as" ident(a) ident(c) ident(Ha) :=
  apply bind_inv in H as (a & c & Ha & H).

Lemma do_select_without_file kind buf card r f card' :
  do_select kind buf false card = Done (r, f) card' ->
  drv_data card' = drv_data card
  /\ f = None
  /\ (PlatformOk P -> r <= 0).
Proof.
  unfold do_select, bind, sc_transmit_apdu. cbn.
  destruct (card_answer _ _) as [e | sw1 sw2 resp]; cbn.
  - intros [= <- <- <-]. repeat split. lia.
  - destruct (sw1 =? 0x61); cbn.
    + intros [= <- <- <-]. repeat split. lia.
    + destruct ((sc_check_sw sw1 sw2 =? 0) && (kind =? MCRD_SEL_AID)); cbn;
        intros [= <- <- <-]; repeat split;
        intros OK; apply sc_check_sw_nonpos.
Qed.

Lemma select_part_without_file kind fid card r f card' :
  select_part kind fid false card = Done (r, f) card' ->
  drv_data card' = drv_data card
  /\ f = None
  /\ (PlatformOk P -> r <= 0).
Proof. unfold select_part. apply do_select_without_file. Qed.

(** One turn of a record loop. *)
Lemma read_records_turn which fuel recno dfi card :
  read_records which (S fuel) recno dfi card
  = match card_answer (transmitted card)
                      (read_apdu (card_cla card) recno) with
    | TransmitFailed e =>
        Done (Returned (Z.neg e))
             (sent card (read_apdu (card_cla card) recno))
    | Answer sw1 sw2 resp =>
        if status_is sw1 sw2 0x6a 0x83
        then Done Completed (sent card (read_apdu (card_cla card) recno))
        else if negb (status_is sw1 sw2 0x90 0x00
                      || status_is sw1 sw2 0x62 0x82)
        then Done (Returned (sc_check_sw sw1 sw2))
                  (sent card (read_apdu (card_cla card) recno))
        else
          bind (store_record which dfi recno (firstn 200 resp))
               (fun _ => read_records which fuel (recno + 1) dfi)
               (sent card (read_apdu (card_cla card) recno))
    end.
Proof.
  cbn [read_records].
  unfold bind at 1. unfold read_record_apdu, sc_format_apdu, bind, ret.
  cbn. fold (read_apdu (card_cla card) recno).
  unfold sc_transmit_apdu. fold (sent card (read_apdu (card_cla card) recno)).
  destruct (card_answer _ _) as [e | sw1 sw2 resp]; [reflexivity|].
  cbn. destruct (status_is sw1 sw2 0x6a 0x83); [reflexivity|].
  destruct (negb _); reflexivity.
Qed.

Lemma status_is_true sw1 sw2 a b :
  status_is sw1 sw2 a b = true <-> sw1 = a /\ sw2 = b.
Proof.
  unfold status_is. rewrite andb_true_iff, !Z.eqb_eq. tauto.
Qed.

Lemma status_is_false sw1 sw2 a b :
  status_is sw1 sw2 a b = false <-> ~ (sw1 = a /\ sw2 = b).
Proof.
  rewrite <- status_is_true. destruct (status_is sw1 sw2 a b); split;
    congruence.
Qed.

Lemma nth_error_update_nth {A} (f : A -> A) :
  forall (l : list A) (i : nat),
    nth_error (update_nth l i f) i = option_map f (nth_error l i).
Proof.
  induction l as [|h t IH]; intros [|i]; cbn; auto.
Qed.

Lemma modify_dfi_Done dfi f card u card' :
  modify_dfi dfi f card = Done u card' ->
  exists i d,
    dfi = Some i
    /\ nth_error (df_infos (drv_data card)) i = Some d
    /\ nth_error (df_infos (drv_data card')) i = Some (f d)
    /\ position card' = position card
    /\ transmitted card' = transmitted card.
Proof.
  unfold modify_dfi, deref, bind, DRVDATA.
  destruct dfi as [i|]; cbn; [|discriminate].
  destruct (nth_error (df_infos (drv_data card)) i) as [d|] eqn:Hd; cbn;
    [|discriminate].
  intros [= _ <-]. exists i, d. cbn.
  rewrite nth_error_update_nth, Hd. repeat split.
Qed.

(** Storing rule records leaves the key records of [dfi] alone. *)
Lemma read_records_rule_keeps_keyd fuel :
  forall recno dfi card e card',
    read_records the_rule_file fuel recno dfi card = Done e card' ->
    keyd_at card' dfi = keyd_at card dfi.
Proof.
  induction fuel as [|fuel IH]; intros recno dfi card e card' H;
    [discriminate|].
  rewrite read_records_turn in H.
  destruct (card_answer _ _) as [x | sw1 sw2 resp].
  - now injection H as _ <-.
  - destruct (status_is sw1 sw2 0x6a 0x83); [now injection H as _ <-|].
    destruct (negb _); [now injection H as _ <-|].
    invert_bind H as u c Hstore. apply IH in H. rewrite H.
    apply modify_dfi_Done in Hstore
      as (i & d & -> & Hd & Hd' & _).
    cbn in Hd |- *. now rewrite Hd, Hd'.
Qed.

Lemma find_df_info_valid priv :
  forall l i, find_df_info l priv = Some i -> (i < length l)%nat.
Proof.
  induction l as [|d l IH]; intros i; cbn; [discriminate|].
  destruct (same_path d priv).
  - intros [= <-]. lia.
  - destruct (find_df_info l priv) as [j|]; cbn; [|discriminate].
    intros [= <-]. specialize (IH j eq_refl). lia.
Qed.

Lemma get_df_info_valid card dfi card' :
  get_df_info card = Done dfi card' ->
  curpathlen (drv_data card) <> 0 ->
  exists i, dfi = Some i /\ (i < length (df_infos (drv_data card')))%nat.
Proof.
  unfold get_df_info, bind, DRVDATA, c_assert.
  destruct (negb (is_ef (drv_data card))); cbn; [|discriminate].
  intros H Hlen. apply Z.eqb_neq in Hlen. rewrite Hlen in H.
  destruct (find_df_info _ _) as [i|] eqn:Hfind; cbn in H.
  - injection H as <- <-. exists i. split; [reflexivity|].
    now apply find_df_info_valid in Hfind.
  - injection H as <- <-. exists O. split; [reflexivity|]. cbn. lia.
Qed.

Lemma clear_special_files_empties i card u card' :
  clear_special_files (Some i) card = Done u card' ->
  keyd_at card' (Some i) = Some [].
Proof.
  unfold clear_special_files. intros H.
  apply modify_dfi_Done in H as (j & d & [= <-] & _ & Hd' & _).
  cbn. now rewrite Hd'.
Qed.

(** A half that ran to the end of its scan in a current directory has
    left that directory without key records. *)
Lemma load_rule_file_Completed fuel card dfi card1 :
  load_rule_file fuel card = Done (dfi, Completed) card1 ->
  curpathlen (drv_data card) <> 0 ->
  keyd_at card1 dfi = Some [].
Proof.
  unfold load_rule_file. intros H Hcur.
  invert_bind H as priv c0 Hpriv.
  unfold DRVDATA in Hpriv. injection Hpriv as <- <-.
  invert_bind H as u c0 Hassert. unfold c_assert in Hassert.
  destruct (negb (is_ef (drv_data card))); [|discriminate].
  injection Hassert as _ <-.
  invert_bind H as dfi0 c1 Hget.
  destruct (get_df_info_valid _ _ _ Hget Hcur) as (i & -> & Hi).
  invert_bind H as cached c2 Hcached.
  assert (c2 = c1) as ->.
  { unfold has_rule_file, deref, bind, DRVDATA in Hcached.
    destruct (nth_error _ i); cbn in Hcached; [|discriminate].
    now injection Hcached. }
  destruct cached; [discriminate|].
  invert_bind H as u' c3 Hclear.
  apply clear_special_files_empties in Hclear.
  invert_bind H as rf c4 Hsel. destruct rf as [r f].
  apply select_part_without_file in Hsel as (Hdrv & _ & _).
  destruct (SC_TEST_RET_returns r); [discriminate|].
  invert_bind H as e c5 Hscan.
  injection H as <- -> <-.
  apply read_records_rule_keeps_keyd in Hscan.
  rewrite Hscan. unfold keyd_at in *. now rewrite Hdrv.
Qed.

(** C7.  In each record scan of a directory-metadata load, the status
    6A 83 ("record not found") ends the scan normally; a status other than
    that and other than the two that deliver a record (90 00, 62 82) ends
    the scan and the load at once with the error code of the status, and
    so does a transport failure.  When the EF_Rule half has come to the end
    of its scan, a selection of EF_KeyD that fails with
    SC_ERROR_FILE_NOT_FOUND makes the load succeed (0) with the directory
    holding no key records, and a selection that fails in any other way
    makes the load return that failure. *)
Theorem load_special_files_tolerances :
  PlatformOk P ->
  (forall which fuel recno dfi card,
     let apdu := read_apdu (card_cla card) recno in
     (forall sw1 sw2 resp,
        card_answer (transmitted card) apdu = Answer sw1 sw2 resp ->
        record_not_found sw1 sw2 ->
        read_records which (S fuel) recno dfi card
        = Done Completed (sent card apdu))
     /\ (forall sw1 sw2 resp,
           card_answer (transmitted card) apdu = Answer sw1 sw2 resp ->
           ~ record_not_found sw1 sw2 ->
           ~ record_read sw1 sw2 ->
           read_records which (S fuel) recno dfi card
           = Done (Returned (sc_check_sw sw1 sw2)) (sent card apdu))
     /\ (forall e,
           card_answer (transmitted card) apdu = TransmitFailed e ->
           read_records which (S fuel) recno dfi card
           = Done (Returned (Z.neg e)) (sent card apdu)))
  /\ (forall fuel card dfi r card1,
        load_rule_file fuel card = Done (dfi, Returned r) card1 ->
        load_special_files fuel card = Done r card1)
  /\ (forall fuel card dfi card1,
        load_rule_file fuel card = Done (dfi, Completed) card1 ->
        curpathlen (drv_data card) <> 0 ->
        (forall f card2,
           select_part 2 EF_KeyD false card1
           = Done (SC_ERROR_FILE_NOT_FOUND, f) card2 ->
           load_special_files fuel card = Done 0 card2
           /\ keyd_at card2 dfi = Some [])
        /\ (forall r f card2,
              select_part 2 EF_KeyD false card1 = Done (r, f) card2 ->
              r <> 0 ->
              r <> SC_ERROR_FILE_NOT_FOUND ->
              load_special_files fuel card = Done r card2)
        /\ (forall f card2 r card3,
              select_part 2 EF_KeyD false card1 = Done (0, f) card2 ->
              read_records the_keyd_file fuel 1 dfi card2
              = Done (Returned r) card3 ->
              load_special_files fuel card = Done r card3)).
Proof.
  intros OK. split; [|split].
  - intros which fuel recno dfi card apdu. subst apdu.
    split; [|split].
    + intros sw1 sw2 resp Hans [-> ->].
      rewrite read_records_turn, Hans. reflexivity.
    + intros sw1 sw2 resp Hans Hnf Hnr.
      rewrite read_records_turn, Hans.
      apply status_is_false in Hnf. rewrite Hnf.
      assert (H : status_is sw1 sw2 0x90 0x00
                  || status_is sw1 sw2 0x62 0x82 = false).
      { apply orb_false_iff. split; apply status_is_false;
          intros H; apply Hnr; [now left | now right]. }
      now rewrite H.
    + intros e Hans. rewrite read_records_turn, Hans. reflexivity.
  - intros fuel card dfi r card1 H. unfold load_special_files.
    now rewrite (bind_Done _ _ _ _ _ H).
  - intros fuel card dfi card1 H Hcur.
    pose proof (load_rule_file_Completed _ _ _ _ H Hcur) as Hkeyd.
    unfold load_special_files. rewrite (bind_Done _ _ _ _ _ H).
    unfold load_keyd_file.
    split; [|split].
    + intros f card2 Hsel. rewrite (bind_Done _ _ _ _ _ Hsel).
      rewrite Z.eqb_refl. split; [reflexivity|].
      apply select_part_without_file in Hsel as (Hdrv & _ & _).
      unfold keyd_at in *. now rewrite Hdrv.
    + intros r f card2 Hsel Hr Hnf. rewrite (bind_Done _ _ _ _ _ Hsel).
      apply Z.eqb_neq in Hnf. rewrite Hnf.
      apply select_part_without_file in Hsel as (_ & _ & Hle).
      specialize (Hle OK).
      assert (Hneg : SC_TEST_RET_returns r = true)
        by (apply Z.ltb_lt; lia).
      now rewrite Hneg.
    + intros f card2 r card3 Hsel Hscan.
      rewrite (bind_Done _ _ _ _ _ Hsel).
      assert (Hnf : (0 =? SC_ERROR_FILE_NOT_FOUND) = false).
      { apply Z.eqb_neq. pose proof file_not_found_neg. lia. }
      rewrite Hnf. cbn [SC_TEST_RET_returns Z.ltb Z.compare].
      now rewrite (bind_Done _ _ _ _ _ Hscan).
Qed.

(** ** select_down *)


Lemma firstn_poke (v : Z) :
  forall (l : list Z) (k : nat),
    (k < length l)%nat ->
    firstn (S k) (poke l k v) = firstn k l ++ [v].
Proof.
  induction l as [|h t IH]; intros k Hk; [cbn in Hk; lia|].
  destruct k as [|k]; [reflexivity|].
  cbn in Hk. cbn [poke]. rewrite !firstn_cons, IH by lia. reflexivity.
Qed.

Lemma length_poke (v : Z) :
  forall (l : list Z) (k : nat), length (poke l k v) = length l.
Proof.
  induction l as [|h t IH]; intros [|k]; cbn; auto.
Qed.



Lemma position_inv card card' :
  position card' = position card ->
  curpath (drv_data card') = curpath (drv_data card)
  /\ curpathlen (drv_data card') = curpathlen (drv_data card)
  /\ is_ef (drv_data card') = is_ef (drv_data card)
  /\ cached_path (drv_data card') = cached_path (drv_data card).
Proof.
  unfold position, cached_path. intros [= -> -> ->]. repeat split.
Qed.

(** One turn of the loop of [select_down]. *)
Lemma select_down_loop_turn n fid rest df_only want_file found_ef file card :
  select_down_loop (S n) (fid :: rest) df_only want_file found_ef file card
  = if (curpathlen (drv_data card) =? MAX_CURPATH)
       && SC_TEST_RET_returns SC_ERROR_INTERNAL
    then Done (Returned SC_ERROR_INTERNAL, found_ef, file) card
    else
      bind (select_down_try fid (Nat.eqb n 0) df_only want_file)
        (fun x =>
           let '(r, ef, f) := x in
           if SC_TEST_RET_returns r
           then ret (Returned r, (found_ef || ef)%bool, or_file f file)
           else
             bind DRVDATA (fun priv =>
               bind (set_curpath_at (curpathlen priv) fid) (fun _ =>
                 bind (set_curpathlen (curpathlen priv + 1)) (fun _ =>
                   select_down_loop n rest df_only want_file
                     (found_ef || ef)%bool (or_file f file))))) card.
Proof.
  cbn [select_down_loop]. unfold bind at 1. unfold DRVDATA at 1.
  destruct ((curpathlen (drv_data card) =? MAX_CURPATH)
            && SC_TEST_RET_returns SC_ERROR_INTERNAL); reflexivity.
Qed.

(** *** load_special_files returns or runs out of fuel, and stays put *)

Lemma length_update_nth {A} (f : A -> A) :
  forall (l : list A) (i : nat), length (update_nth l i f) = length l.
Proof.
  induction l as [|h t IH]; intros [|i]; cbn; auto.
Qed.

Lemma modify_dfi_total i f card :
  (i < length (df_infos (drv_data card)))%nat ->
  exists card',
    modify_dfi (Some i) f card = Done tt card'
    /\ position card' = position card
    /\ length (df_infos (drv_data card'))
       = length (df_infos (drv_data card)).
Proof.
  intros Hi. unfold modify_dfi, deref, bind, DRVDATA.
  destruct (nth_error (df_infos (drv_data card)) i) as [d|] eqn:Hd.
  - cbn. eexists. split; [reflexivity|]. cbn.
    split; [reflexivity | apply length_update_nth].
  - apply nth_error_None in Hd. lia.
Qed.

Lemma read_records_safe which fuel :
  forall recno i card,
    (i < length (df_infos (drv_data card)))%nat ->
    read_records which fuel recno (Some i) card = OutOfFuel
    \/ exists e card',
         read_records which fuel recno (Some i) card = Done e card'
         /\ position card' = position card
         /\ (i < length (df_infos (drv_data card')))%nat.
Proof.
  induction fuel as [|fuel IH]; intros recno i card Hi; [now left|].
  rewrite read_records_turn.
  destruct (card_answer _ _) as [x | sw1 sw2 resp].
  { right. eexists _, _. repeat split. exact Hi. }
  destruct (status_is sw1 sw2 0x6a 0x83).
  { right. eexists _, _. repeat split. exact Hi. }
  destruct (negb _).
  { right. eexists _, _. repeat split. exact Hi. }
  unfold store_record.
  match goal with
  | |- context [modify_dfi (Some i) ?f] =>
      destruct (modify_dfi_total i f
                  (sent card (read_apdu (card_cla card) recno)) Hi)
        as (card1 & Hmod & Hp1 & Hl1)
  end.
  rewrite (bind_Done _ _ _ _ _ Hmod).
  destruct (IH (recno + 1) i card1) as [Hout | (e & card' & Hrun & Hp & Hi')].
  { rewrite Hl1. exact Hi. }
  - now left.
  - right. exists e, card'. split; [exact Hrun|]. split; [|exact Hi'].
    rewrite Hp, Hp1. reflexivity.
Qed.

Lemma select_part_quiet kind fid card :
  exists r card',
    select_part kind fid false card = Done (r, None) card'
    /\ drv_data card' = drv_data card
    /\ (PlatformOk P -> r <= 0).
Proof.
  unfold select_part, do_select, bind, sc_transmit_apdu. cbn.
  destruct (card_answer _ _) as [e | sw1 sw2 resp]; cbn.
  { eexists _, _. repeat split. lia. }
  destruct (sw1 =? 0x61); cbn.
  { eexists _, _. repeat split. lia. }
  match goal with
  | |- context [if ?c then _ else _] => destruct c
  end; cbn; eexists _, _; repeat split; intros; apply sc_check_sw_nonpos.
Qed.

Lemma load_keyd_file_safe fuel i card :
  (i < length (df_infos (drv_data card)))%nat ->
  load_keyd_file fuel (Some i) card = OutOfFuel
  \/ exists r card',
       load_keyd_file fuel (Some i) card = Done r card'
       /\ position card' = position card.
Proof.
  intros Hi. unfold load_keyd_file.
  destruct (select_part_quiet 2 EF_KeyD card) as (r & card1 & Hsel & Hdrv & _).
  rewrite (bind_Done _ _ _ _ _ Hsel).
  assert (Hp1 : position card1 = position card)
    by (unfold position; now rewrite Hdrv).
  destruct (r =? SC_ERROR_FILE_NOT_FOUND); [right; now exists 0, card1|].
  destruct (SC_TEST_RET_returns r); [right; now exists r, card1|].
  destruct (read_records_safe the_keyd_file fuel 1 i card1)
    as [Hout | (e & card' & Hrun & Hp & _)].
  { now rewrite Hdrv. }
  - left. unfold bind. now rewrite Hout.
  - right. rewrite (bind_Done _ _ _ _ _ Hrun).
    destruct e as [|r']; eexists _, card'; (split; [reflexivity|]);
      now rewrite Hp.
Qed.

Lemma load_special_files_safe fuel card :
  is_ef (drv_data card) = false ->
  curpathlen (drv_data card) <> 0 ->
  load_special_files fuel card = OutOfFuel
  \/ exists r card',
       load_special_files fuel card = Done r card'
       /\ position card' = position card.
Proof.
  intros Hef Hcur. unfold load_special_files, load_rule_file.
  rewrite bind_assoc, bind_DRVDATA, Hef. cbn [negb c_assert].
  rewrite bind_assoc, bind_ret, bind_assoc.
  destruct (get_df_info_total card Hef) as (dfi & card1 & Hget & Hp1 & _).
  destruct (get_df_info_valid _ _ _ Hget Hcur) as (i & -> & Hi).
  rewrite (bind_Done _ _ _ _ _ Hget), bind_assoc.
  assert (Hhas : exists b, has_rule_file (Some i) card1 = Done b card1).
  { unfold has_rule_file, deref, bind, DRVDATA.
    destruct (nth_error (df_infos (drv_data card1)) i) eqn:Hd.
    - cbn. eauto.
    - apply nth_error_None in Hd. lia. }
  destruct Hhas as (cached & Hhas).
  rewrite (bind_Done _ _ _ _ _ Hhas).
  destruct cached.
  { right. exists 0, card1. split; [reflexivity | exact Hp1]. }
  rewrite bind_assoc. unfold clear_special_files.
  match goal with
  | |- context [modify_dfi (Some i) ?f] =>
      destruct (modify_dfi_total i f card1 Hi)
        as (card2 & Hmod & Hp2 & Hl2)
  end.
  rewrite (bind_Done _ _ _ _ _ Hmod), bind_assoc.
  destruct (select_part_quiet 2 EF_Rule card2)
    as (r & card3 & Hsel & Hdrv & _).
  rewrite (bind_Done _ _ _ _ _ Hsel).
  assert (Hp3 : position card3 = position card)
    by (unfold position in *; rewrite Hdrv; congruence).
  destruct (SC_TEST_RET_returns r).
  { right. exists r, card3. split; [reflexivity | exact Hp3]. }
  rewrite bind_assoc.
  destruct (read_records_safe the_rule_file fuel 1 i card3)
    as [Hout | (e & card4 & Hrun & Hp4 & Hi4)].
  { rewrite Hdrv, Hl2. exact Hi. }
  { left. unfold bind. now rewrite Hout. }
  rewrite (bind_Done _ _ _ _ _ Hrun), bind_ret.
  destruct e as [|r'].
  - destruct (load_keyd_file_safe fuel i card4 Hi4)
      as [Hout | (r' & card5 & Hk & Hp5)].
    + now left.
    + right. exists r', card5. split; [exact Hk|]. congruence.
  - right. exists r', card4. split; [reflexivity|]. congruence.
Qed.

Lemma bind_set_is_ef {B} (b : bool) (k : unit -> M B) card :
  bind (set_is_ef b) k card
  = k tt {| drv_data :=
              {| curpath := curpath (drv_data card);
                 curpathlen := curpathlen (drv_data card);
                 is_ef := b;
                 df_infos := df_infos (drv_data card) |};
            card_cla := card_cla card;
            cache_current_path_len := cache_current_path_len card;
            transmitted := transmitted card |}.
Proof. reflexivity. Qed.

(** ** The cached path never outgrows its array *)

Lemma get_df_info_Done card dfi card' :
  get_df_info card = Done dfi card' -> position card' = position card.
Proof.
  unfold get_df_info, bind, DRVDATA, c_assert.
  destruct (negb (is_ef (drv_data card))); cbn; [|discriminate].
  destruct (curpathlen (drv_data card) =? 0); cbn.
  - now intros [= _ <-].
  - destruct (find_df_info _ _); cbn; now intros [= _ <-].
Qed.

Lemma process_arr_Done buf card u card' :
  process_arr buf card = Done u card' -> position card' = position card.
Proof.
  unfold process_arr. destruct (negb _).
  - now intros [= _ <-].
  - intros H. invert_bind H as dfi c Hget. injection H as _ <-.
    now apply get_df_info_Done in Hget.
Qed.

Lemma fcp_arr_Done buf card u card' :
  fcp_arr buf card = Done u card' -> position card' = position card.
Proof.
  unfold fcp_arr.
  destruct (sc_asn1_find_tag buf 0x8B) as [[|? ?]|];
    try apply process_arr_Done;
    (destruct (sc_asn1_find_tag buf 0xA1) as [[|? ?]|];
     [now intros [= _ <-] | | now intros [= _ <-]];
     match goal with
     | |- context [sc_asn1_find_tag ?t 0x8B] =>
         destruct (sc_asn1_find_tag t 0x8B) as [[|? ?]|]
     end;
     try apply process_arr_Done; now intros [= _ <-]).
Qed.

Lemma process_fcp_Done file buf card file' card' :
  process_fcp file buf card = Done file' card' ->
  position card' = position card.
Proof.
  unfold process_fcp. intros H. invert_bind H as u c Harr.
  injection H as _ <-. now apply fcp_arr_Done in Harr.
Qed.

Lemma do_select_Done kind buf want_file card x card' :
  do_select kind buf want_file card = Done x card' ->
  position card' = position card.
Proof.
  unfold do_select. intros H. invert_bind H as ans c Htx.
  assert (Hc : position c = position card).
  { unfold sc_transmit_apdu in Htx. now injection Htx as _ <-. }
  rewrite <- Hc. clear Htx Hc.
  destruct ans as [e | sw1 sw2 resp]; [now injection H as _ <-|].
  destruct (negb want_file).
  - destruct (sw1 =? 0x61); [now injection H as _ <-|].
    invert_bind H as u c1 Hset. injection H as _ <-.
    destruct (_ && _); now injection Hset as _ <-.
  - destruct (negb _); [now injection H as _ <-|].
    destruct (_ =? 0x6F); [|now injection H as _ <-].
    invert_bind H as file c1 Hfcp. injection H as _ <-.
    destruct (_ <=? _).
    + now apply process_fcp_Done in Hfcp.
    + now injection Hfcp as _ <-.
Qed.

Lemma select_part_Done kind fid want_file card x card' :
  select_part kind fid want_file card = Done x card' ->
  position card' = position card.
Proof. unfold select_part. apply do_select_Done. Qed.

Lemma select_down_try_Done fid last df_only want_file card x card' :
  select_down_try fid last df_only want_file card = Done x card' ->
  position card' = position card.
Proof.
  unfold select_down_try. destruct (last && negb df_only); intros H.
  - invert_bind H as rf c Hsel. destruct rf as [r f].
    apply select_part_Done in Hsel.
    destruct (r =? 0); [injection H as _ <-; exact Hsel|].
    invert_bind H as rf2 c2 Hsel2. destruct rf2 as [r2 f2].
    apply select_part_Done in Hsel2. injection H as _ <-. congruence.
  - invert_bind H as rf c Hsel. destruct rf as [r f].
    apply select_part_Done in Hsel. injection H as _ <-. exact Hsel.
Qed.

Lemma bounded_position card card' :
  position card' = position card ->
  path_cache_bounded (drv_data card) ->
  path_cache_bounded (drv_data card').
Proof.
  intros Hp. destruct (position_inv _ _ Hp) as (Hcp & Hcl & _).
  unfold path_cache_bounded. now rewrite Hcp, Hcl.
Qed.

Lemma select_down_loop_bounded df_only want_file :
  forall n pathptr found_ef file card x card',
    path_cache_bounded (drv_data card) ->
    select_down_loop n pathptr df_only want_file found_ef file card
    = Done x card' ->
    path_cache_bounded (drv_data card')
    /\ curpathlen (drv_data card) <= curpathlen (drv_data card').
Proof.
  induction n as [|n IH]; intros pathptr found_ef file card x card' Hb H.
  - injection H as _ <-. split; [exact Hb | lia].
  - cbn [select_down_loop] in H. rewrite bind_DRVDATA in H.
    destruct (_ && _); [injection H as _ <-; split; [exact Hb | lia]|].
    destruct pathptr as [|fid rest]; [discriminate|].
    invert_bind H as y c Htry. destruct y as [[r ef] f].
    apply select_down_try_Done in Htry.
    destruct (position_inv _ _ Htry) as (Hcp & Hcl & _).
    destruct (SC_TEST_RET_returns r).
    { injection H as _ <-. split; [now apply (bounded_position card)|].
      lia. }
    rewrite bind_DRVDATA in H.
    invert_bind H as u c1 Hset.
    unfold set_curpath_at in Hset. rewrite bind_DRVDATA in Hset.
    destruct (_ && _) eqn:Hidx in Hset; [|discriminate].
    injection Hset as _ <-.
    invert_bind H as u' c2 Hlen. injection Hlen as _ <-.
    apply andb_true_iff in Hidx as [H0 H1].
    apply Z.leb_le in H0. apply Z.ltb_lt in H1.
    destruct Hb as [Hrange Hcells].
    apply IH in H.
    + cbn in H. destruct H as [Hb' Hle]. split; [exact Hb'|]. lia.
    + unfold path_cache_bounded. cbn.
      rewrite length_poke, Hcp, Hcells. rewrite Hcp, Hcells in H1.
      split; [|reflexivity]. unfold MAX_CURPATH in *. lia.
Qed.

Lemma read_records_Done which fuel :
  forall recno dfi card e card',
    read_records which fuel recno dfi card = Done e card' ->
    position card' = position card.
Proof.
  induction fuel as [|fuel IH]; intros recno dfi card e card' H;
    [discriminate|].
  rewrite read_records_turn in H.
  destruct (card_answer _ _) as [x | sw1 sw2 resp];
    [now injection H as _ <-|].
  destruct (status_is sw1 sw2 0x6a 0x83); [now injection H as _ <-|].
  destruct (negb _); [now injection H as _ <-|].
  invert_bind H as u c Hstore. apply IH in H. rewrite H.
  apply modify_dfi_Done in Hstore as (i & d & _ & _ & _ & Hp & _).
  exact Hp.
Qed.

Lemma load_keyd_file_Done fuel dfi card r card' :
  load_keyd_file fuel dfi card = Done r card' ->
  position card' = position card.
Proof.
  unfold load_keyd_file. intros H.
  invert_bind H as rf c Hsel. destruct rf as [r0 f].
  apply select_part_Done in Hsel.
  destruct (r0 =? SC_ERROR_FILE_NOT_FOUND); [now injection H as _ <-|].
  destruct (SC_TEST_RET_returns r0); [now injection H as _ <-|].
  invert_bind H as e c1 Hscan. apply read_records_Done in Hscan.
  destruct e; injection H as _ <-; congruence.
Qed.

Lemma load_special_files_Done fuel card r card' :
  load_special_files fuel card = Done r card' ->
  position card' = position card.
Proof.
  unfold load_special_files. intros H.
  invert_bind H as de c Hrule. destruct de as [dfi e].
  assert (Hc : position c = position card).
  { clear H. unfold load_rule_file in Hrule.
    rewrite bind_DRVDATA in Hrule.
    invert_bind Hrule as u c0 Hassert. unfold c_assert in Hassert.
    destruct (negb _); [|discriminate]. injection Hassert as _ <-.
    invert_bind Hrule as dfi0 c1 Hget. apply get_df_info_Done in Hget.
    invert_bind Hrule as cached c2 Hhas.
    assert (c2 = c1) as ->.
    { unfold has_rule_file in Hhas. destruct dfi0.
      - invert_bind Hhas as d c3 Hd. injection Hhas as _ <-.
        unfold deref in Hd. rewrite bind_DRVDATA in Hd.
        destruct (nth_error _ _); now inversion Hd.
      - now injection Hhas. }
    destruct cached; [injection Hrule as _ _ <-; exact Hget|].
    invert_bind Hrule as u' c3 Hclear.
    assert (Hc3 : position c3 = position c1).
    { unfold clear_special_files in Hclear. destruct dfi0.
      - now apply modify_dfi_Done in Hclear as (? & ? & _ & _ & _ & Hp & _).
      - now injection Hclear as _ <-. }
    invert_bind Hrule as rf c4 Hsel. destruct rf as [r0 f].
    apply select_part_Done in Hsel.
    destruct (SC_TEST_RET_returns r0);
      [injection Hrule as _ _ <-; congruence|].
    invert_bind Hrule as e0 c5 Hscan. apply read_records_Done in Hscan.
    injection Hrule as _ _ <-. congruence. }
  destruct e.
  - apply load_keyd_file_Done in H. congruence.
  - injection H as _ <-. exact Hc.
Qed.

Lemma select_down_bounded fuel pathptr pathlen df_only want_file card x
    card' :
  path_cache_bounded (drv_data card) ->
  select_down fuel pathptr pathlen df_only want_file card = Done x card' ->
  path_cache_bounded (drv_data card').
Proof.
  unfold select_down. intros Hb H.
  destruct (pathlen =? 0); [now injection H as _ <-|].
  invert_bind H as y c Hloop. destruct y as [[e fe] f].
  apply select_down_loop_bounded in Hloop as [Hc _]; [|exact Hb].
  destruct e; [|now injection H as _ <-].
  rewrite bind_set_is_ef in H.
  invert_bind H as u c1 Hload. injection H as _ <-.
  destruct (negb fe).
  - invert_bind Hload as r c2 Hl. injection Hload as _ <-.
    apply load_special_files_Done in Hl.
    now apply (bounded_position _ _ Hl).
  - now injection Hload as _ <-.
Qed.

Lemma bind_set_curpathlen {B} (n : Z) (k : unit -> M B) card :
  bind (set_curpathlen n) k card
  = k tt {| drv_data :=
              {| curpath := curpath (drv_data card);
                 curpathlen := n;
                 is_ef := is_ef (drv_data card);
                 df_infos := df_infos (drv_data card) |};
            card_cla := card_cla card;
            cache_current_path_len := cache_current_path_len card;
            transmitted := transmitted card |}.
Proof. reflexivity. Qed.

Lemma bounded_with_curpathlen (priv : mcrd_priv_data) n b l :
  path_cache_bounded priv ->
  0 <= n <= MAX_CURPATH ->
  path_cache_bounded
    {| curpath := curpath priv; curpathlen := n; is_ef := b;
       df_infos := l |}.
Proof. intros [_ Hcells] Hn. now split. Qed.

(** After a successful select of the MF: lines 769-771. *)
Lemma store_root_bounded {A} fid (a : A) card x card' :
  path_cache_bounded (drv_data card) ->
  bind (set_curpath_at 0 fid) (fun _ =>
    bind (set_curpathlen 1) (fun _ =>
      bind (set_is_ef false) (fun _ => ret a))) card = Done x card' ->
  path_cache_bounded (drv_data card').
Proof.
  intros [_ Hcells] H. invert_bind H as u c Hset.
  unfold set_curpath_at in Hset. rewrite bind_DRVDATA in Hset.
  destruct (_ && _); [|discriminate]. injection Hset as _ <-.
  injection H as _ <-. split; cbn.
  - unfold MAX_CURPATH. lia.
  - now rewrite length_poke.
Qed.

Lemma select_mf_bounded fid want_file card x card' :
  path_cache_bounded (drv_data card) ->
  select_mf fid want_file card = Done x card' ->
  path_cache_bounded (drv_data card').
Proof.
  unfold select_mf. intros Hb H. rewrite bind_set_curpathlen in H.
  invert_bind H as rf c Hsel. destruct rf as [r f].
  apply select_part_Done in Hsel.
  assert (Hc : path_cache_bounded (drv_data c)).
  { apply (bounded_position _ _ Hsel). cbn.
    apply bounded_with_curpathlen; [exact Hb|]. unfold MAX_CURPATH. lia. }
  destruct (SC_TEST_RET_returns r); [now injection H as _ <-|].
  now apply store_root_bounded in H.
Qed.

Lemma restart_at_root_bounded fuel pathptr pathlen df_only want_file card x
    card' :
  path_cache_bounded (drv_data card) ->
  restart_at_root fuel pathptr pathlen df_only want_file card = Done x card' ->
  path_cache_bounded (drv_data card').
Proof.
  unfold restart_at_root. intros Hb H.
  rewrite bind_set_curpathlen, bind_set_is_ef in H.
  apply select_down_bounded in H; [exact H|]. cbn.
  apply bounded_with_curpathlen; [exact Hb|]. unfold MAX_CURPATH. lia.
Qed.

Lemma pop_bounded fuel pathptr pathlen want_file card x card' :
  path_cache_bounded (drv_data card) ->
  bind (c_assert (1 <? curpathlen (drv_data card))) (fun _ =>
    bind (set_curpathlen (curpathlen (drv_data card) - 1)) (fun _ =>
      bind (set_is_ef false) (fun _ =>
        select_down fuel pathptr pathlen false want_file))) card
  = Done x card' ->
  path_cache_bounded (drv_data card').
Proof.
  intros Hb H. unfold c_assert in H.
  destruct (1 <? curpathlen (drv_data card)) eqn:Hgt; [|discriminate].
  apply Z.ltb_lt in Hgt.
  rewrite bind_ret, bind_set_curpathlen, bind_set_is_ef in H.
  apply select_down_bounded in H; [exact H|]. cbn.
  apply bounded_with_curpathlen; [exact Hb|]. destruct Hb. lia.
Qed.

Lemma relative_addressing_bounded fuel pathptr pathlen want_file card x
    card' :
  path_cache_bounded (drv_data card) ->
  relative_addressing fuel pathptr pathlen want_file card = Done x card' ->
  path_cache_bounded (drv_data card').
Proof.
  unfold relative_addressing. intros Hb H. rewrite bind_DRVDATA in H.
  invert_bind H as y c Hroot. destruct y as [[r file0] returned].
  assert (Hc : path_cache_bounded (drv_data c)).
  { destruct (curpathlen (drv_data card) =? 0).
    - invert_bind Hroot as fid c0 Hfid.
      assert (c0 = card) as ->
        by (destruct pathptr; [discriminate | now injection Hfid]).
      invert_bind Hroot as rf c1 Hsel. destruct rf as [r0 f].
      apply select_part_Done in Hsel.
      pose proof (bounded_position _ _ Hsel Hb) as Hb1.
      destruct (SC_TEST_RET_returns r0); [now injection Hroot as _ _ _ <-|].
      now apply store_root_bounded in Hroot.
    - now injection Hroot as _ _ _ <-. }
  destruct returned; [now injection H as _ <-|].
  rewrite bind_DRVDATA in H.
  invert_bind H as u c1 Hpop.
  invert_bind H as rf c2 Hdown. destruct rf as [r1 f1].
  injection H as _ <-.
  apply select_down_bounded in Hdown; [exact Hdown|].
  destruct (is_ef (drv_data c)); [|now injection Hpop as _ <-].
  unfold c_assert in Hpop.
  destruct (1 <? curpathlen (drv_data c)) eqn:Hgt; [|discriminate].
  apply Z.ltb_lt in Hgt.
  rewrite bind_ret, bind_set_curpathlen in Hpop. injection Hpop as _ <-.
  cbn. apply bounded_with_curpathlen; [exact Hc|]. destruct Hc. lia.
Qed.

Lemma c_assert_Done b card u card' :
  c_assert b card = Done u card' -> b = true /\ card' = card.
Proof.
  unfold c_assert. destruct b; [|discriminate]. now intros [= _ <-].
Qed.

Lemma first_cell_Done pathptr card fid card' :
  first_cell pathptr card = Done fid card' -> card' = card.
Proof. destruct pathptr; [discriminate|]. now intros [= _ <-]. Qed.

Lemma select_file_by_path_bounded fuel pathptr pathlen want_file card x
    card' :
  path_cache_bounded (drv_data card) ->
  select_file_by_path fuel pathptr pathlen want_file card = Done x card' ->
  path_cache_bounded (drv_data card').
Proof.
  unfold select_file_by_path. intros Hb H. rewrite bind_DRVDATA in H.
  invert_bind H as u c Hassert.
  apply c_assert_Done in Hassert as [_ ->]. cbv zeta in H.
  destruct (_ || _); [now injection H as _ <-|].
  invert_bind H as fid c Hfid. apply first_cell_Done in Hfid as ->.
  destruct (_ && _); [now apply select_mf_bounded in H|].
  destruct (_ && _); [|now apply relative_addressing_bounded in H].
  destruct (curpathlen (drv_data card) =? 0);
    [now apply restart_at_root_bounded in H|].
  destruct (_ && _); [now apply restart_at_root_bounded in H|].
  destruct (_ && _); [|now apply restart_at_root_bounded in H].
  destruct (negb want_file); [now injection H as _ <-|].
  now apply pop_bounded in H.
Qed.

Lemma select_file_by_fid_bounded fuel pathptr pathlen want_file card x
    card' :
  path_cache_bounded (drv_data card) ->
  select_file_by_fid fuel pathptr pathlen want_file card = Done x card' ->
  path_cache_bounded (drv_data card').
Proof.
  unfold select_file_by_fid. intros Hb H. rewrite bind_DRVDATA in H.
  invert_bind H as u c Hassert.
  apply c_assert_Done in Hassert as [_ ->].
  destruct (1 <? pathlen); [now injection H as _ <-|].
  destruct (_ && _); [now injection H as _ <-|].
  destruct (pathlen =? 0).
  - destruct (negb want_file); [now injection H as _ <-|].
    destruct (curpathlen (drv_data card) =? 0);
      [now injection H as _ <-|].
    now apply pop_bounded in H.
  - invert_bind H as fid c Hfid. apply first_cell_Done in Hfid as ->.
    destruct (fid =? MFID); [now apply select_mf_bounded in H|].
    now apply relative_addressing_bounded in H.
Qed.

Lemma mcrd_select_file_bounded fuel path want_file card x card' :
  path_cache_bounded (drv_data card) ->
  mcrd_select_file fuel path want_file card = Done x card' ->
  path_cache_bounded (drv_data card').
Proof.
  unfold mcrd_select_file. intros Hb H.
  destruct (path_type path).
  - destruct (_ || _); [now injection H as _ <-|].
    now apply select_file_by_fid_bounded in H.
  - destruct (16 <? path_len path); [now injection H as _ <-|].
    invert_bind H as rf c Hsel. destruct rf as [r f].
    apply do_select_Done in Hsel.
    rewrite bind_set_curpathlen in H. injection H as _ <-. cbn.
    apply bounded_with_curpathlen;
      [now apply (bounded_position _ _ Hsel) | unfold MAX_CURPATH; lia].
  - destruct (_ || _); [now injection H as _ <-|].
    now apply select_file_by_path_bounded in H.
Qed.

Lemma mcrd_init_bounded fuel card r card' :
  mcrd_init true fuel card = Done r card' ->
  path_cache_bounded (drv_data card').
Proof.
  unfold mcrd_init. intros H. invert_bind H as r0 c Hload.
  injection H as _ <-. apply load_special_files_Done in Hload.
  apply (bounded_position _ _ Hload). split; cbn.
  - unfold MAX_CURPATH. lia.
  - reflexivity.
Qed.

Lemma resolve_all_bounded fuel :
  forall requests card rs card',
    path_cache_bounded (drv_data card) ->
    resolve_all fuel requests card = Done rs card' ->
    path_cache_bounded (drv_data card').
Proof.
  induction requests as [|[path want_file] rest IH];
    intros card rs card' Hb H.
  - now injection H as _ <-.
  - cbn [resolve_all] in H.
    invert_bind H as rf c Hsel. destruct rf as [r f].
    apply mcrd_select_file_bounded in Hsel; [|exact Hb].
    invert_bind H as rs0 c1 Hrest. injection H as _ <-.
    now apply IH in Hrest.
Qed.

(** X1.  The length bound of the selection-path cache.  After [mcrd_init] and
    any sequence of requests that the driver answers, the cached path has
    between 0 and [MAX_CURPATH] identifiers; and a descent that finds the
    cache full returns SC_ERROR_INTERNAL and appends nothing. *)
Theorem session_keeps_path_cache_bounded :
  PlatformOk P ->
  (forall fuel requests card rs card',
     session fuel requests card = Done rs card' ->
     0 <= curpathlen (drv_data card') <= MAX_CURPATH
     /\ Z.of_nat (length (cached_path (drv_data card'))) <= MAX_CURPATH)
  /\ (forall fuel pathptr pathlen df_only want_file card,
        curpathlen (drv_data card) = MAX_CURPATH ->
        0 < pathlen ->
        select_down fuel pathptr pathlen df_only want_file card
        = Done (SC_ERROR_INTERNAL, None) card).
Proof.
  intros OK. split.
  - intros fuel requests card rs card' H. unfold session in H.
    invert_bind H as r c Hinit. apply mcrd_init_bounded in Hinit.
    apply resolve_all_bounded in H; [|exact Hinit].
    destruct H as [Hrange Hcells]. split; [exact Hrange|].
    unfold cached_path. rewrite length_firstn. lia.
  - intros fuel pathptr pathlen df_only want_file card Hfull Hlen.
    unfold select_down.
    assert (H0 : (pathlen =? 0) = false) by (apply Z.eqb_neq; lia).
    rewrite H0.
    destruct (Z.to_nat pathlen) as [|n] eqn:Hn; [lia|].
    cbn [select_down_loop]. rewrite bind_assoc, bind_DRVDATA, Hfull.
    assert (Hint : SC_TEST_RET_returns SC_ERROR_INTERNAL = true)
      by (apply Z.ltb_lt, internal_neg).
    rewrite Z.eqb_refl, Hint. reflexivity.
Qed.

(** * Further properties of the driver *)

(** ** What goes over the wire *)

Lemma get_df_info_wire card dfi card' :
  get_df_info card = Done dfi card' ->
  transmitted card' = transmitted card /\ card_cla card' = card_cla card.
Proof.
  unfold get_df_info, bind, DRVDATA, c_assert.
  destruct (negb (is_ef (drv_data card))); cbn; [|discriminate].
  destruct (curpathlen (drv_data card) =? 0); cbn.
  - now intros [= _ <-].
  - destruct (find_df_info _ _); cbn; now intros [= _ <-].
Qed.

Lemma process_fcp_wire file buf card file' card' :
  process_fcp file buf card = Done file' card' ->
  transmitted card' = transmitted card /\ card_cla card' = card_cla card.
Proof.
  assert (Harr : forall t c u c', process_arr t c = Done u c' ->
            transmitted c' = transmitted c /\ card_cla c' = card_cla c).
  { intros t c u c'. unfold process_arr. destruct (negb _).
    - now intros [= _ <-].
    - intros H. invert_bind H as dfi c0 Hget. injection H as _ <-.
      now apply get_df_info_wire in Hget. }
  unfold process_fcp. intros H. invert_bind H as u c Hfcp.
  injection H as _ <-. unfold fcp_arr in Hfcp.
  destruct (sc_asn1_find_tag buf 0x8B) as [[|? ?]|];
    try (now apply Harr in Hfcp);
    (destruct (sc_asn1_find_tag buf 0xA1) as [[|? ?]|];
     [now injection Hfcp as _ <- | | now injection Hfcp as _ <-];
     match type of Hfcp with
     | context [sc_asn1_find_tag ?t 0x8B] =>
         destruct (sc_asn1_find_tag t 0x8B) as [[|? ?]|]
     end;
     try (now apply Harr in Hfcp); now injection Hfcp as _ <-).
Qed.

Lemma do_select_wire kind buf want_file card x card' :
  do_select kind buf want_file card = Done x card' ->
  transmitted card' = transmitted card ++ [select_apdu kind buf want_file]
  /\ card_cla card' = card_cla card.
Proof.
  unfold do_select. fold (select_apdu kind buf want_file). intros H.
  invert_bind H as ans c Htx.
  assert (Hc : transmitted c
               = transmitted card ++ [select_apdu kind buf want_file]
               /\ card_cla c = card_cla card).
  { unfold sc_transmit_apdu in Htx. now injection Htx as _ <-. }
  destruct Hc as [Hc1 Hc2]. rewrite <- Hc1, <- Hc2. clear Htx Hc1 Hc2.
  destruct ans as [e | sw1 sw2 resp]; [now injection H as _ <-|].
  destruct (negb want_file).
  - destruct (sw1 =? 0x61); [now injection H as _ <-|].
    invert_bind H as u c1 Hset. injection H as _ <-.
    destruct (_ && _); now injection Hset as _ <-.
  - destruct (negb _); [now injection H as _ <-|].
    destruct (_ =? 0x6F); [|now injection H as _ <-].
    invert_bind H as file c1 Hfcp. injection H as _ <-.
    destruct (_ <=? _).
    + now apply process_fcp_wire in Hfcp.
    + now injection Hfcp as _ <-.
Qed.

Lemma fid_at_bytes value n :
  0 <= nth n value 0 < 256 ->
  0 <= nth (S n) value 0 < 256 ->
  fid_at value n = 256 * nth n value 0 + nth (S n) value 0.
Proof.
  intros H0 H1. unfold fid_at. rewrite lor_high_low by assumption.
  apply Z.mod_small. lia.
Qed.

Lemma fbuf_bytes b0 b1 :
  0 <= b0 < 256 -> 0 <= b1 < 256 ->
  Z.shiftr (256 * b0 + b1) 8 mod 256 = b0
  /\ Z.land (256 * b0 + b1) 0xff = b1.
Proof.
  intros H0 H1. split.
  - rewrite Z.shiftr_div_pow2 by lia. change (2 ^ 8) with 256.
    rewrite (Z.mul_comm 256), Z.div_add_l, Z.div_small by lia.
    rewrite Z.add_0_r. now apply Z.mod_small.
  - change 0xff with (Z.ones 8). rewrite Z.land_ones by lia.
    change (2 ^ 8) with 256.
    rewrite Z.add_comm, Z.mul_comm, Z.mod_add by lia.
    now apply Z.mod_small.
Qed.

(** X2.  A component of a path, given by two bytes, is selected by
    [select_part] with exactly one SELECT command that carries the same two
    bytes; its P1 is the kind asked for, except that 3F00 is always
    selected as MF.  The selected path kept by the driver is not touched,
    whatever the card answers. *)
Theorem select_part_sends_the_path_bytes :
  forall (kind : Z) (value : list Z) (n : nat) (want_file : bool)
         (card : sc_card) x (card' : sc_card),
    0 <= nth n value 0 < 256 ->
    0 <= nth (S n) value 0 < 256 ->
    select_part kind (fid_at value n) want_file card = Done x card' ->
    position card' = position card
    /\ transmitted card'
       = transmitted card
         ++ [select_apdu (forced_kind kind (fid_at value n))
                         [nth n value 0; nth (S n) value 0] want_file].
Proof.
  intros kind value n want_file card x card' H0 H1 H.
  split; [now apply select_part_Done in H|].
  unfold select_part in H. apply do_select_wire in H as [H _].
  rewrite H. unfold forced_kind.
  rewrite (fid_at_bytes _ _ H0 H1).
  now destruct (fbuf_bytes _ _ H0 H1) as [-> ->].
Qed.

(** ** The directory entries *)

Lemma same_path_fresh (priv : mcrd_priv_data) l :
  0 <= curpathlen priv <= Z.of_nat (length (curpath priv)) ->
  same_path
    {| path := firstn (Z.to_nat (curpathlen priv)) (curpath priv)
               ++ repeat 0 (Z.to_nat (MAX_CURPATH - curpathlen priv));
       pathlen := curpathlen priv;
       rule_file := []; keyd_file := [] |}
    {| curpath := curpath priv; curpathlen := curpathlen priv;
       is_ef := is_ef priv; df_infos := l |} = true.
Proof.
  intros H. unfold same_path. cbn. rewrite Z.eqb_refl. cbn.
  rewrite firstn_app, firstn_firstn, Nat.min_id, length_firstn.
  replace (Z.to_nat (curpathlen priv)
           - Nat.min (Z.to_nat (curpathlen priv)) (length (curpath priv)))%nat
    with O by lia.
  cbn. rewrite app_nil_r. now destruct (list_eq_dec _ _ _).
Qed.

Lemma get_df_info_makes card :
  0 <= curpathlen (drv_data card)
    <= Z.of_nat (length (curpath (drv_data card))) ->
  is_ef (drv_data card) = false ->
  (curpathlen (drv_data card) =? 0) = false ->
  find_df_info (df_infos (drv_data card)) (drv_data card) = None ->
  exists card2 d,
    get_df_info card = Done (Some O) card2
    /\ get_df_info card2 = Done (Some O) card2
    /\ df_infos (drv_data card2) = d :: df_infos (drv_data card)
    /\ rule_file d = [] /\ keyd_file d = [].
Proof.
  intros Hlen Hef H0 Hfind.
  exists {| drv_data :=
              {| curpath := curpath (drv_data card);
                 curpathlen := curpathlen (drv_data card);
                 is_ef := is_ef (drv_data card);
                 df_infos :=
                   {| path := firstn (Z.to_nat (curpathlen (drv_data card)))
                                     (curpath (drv_data card))
                              ++ repeat 0 (Z.to_nat
                                   (MAX_CURPATH - curpathlen (drv_data card)));
                      pathlen := curpathlen (drv_data card);
                      rule_file := []; keyd_file := [] |}
                   :: df_infos (drv_data card) |};
            card_cla := card_cla card;
            cache_current_path_len := cache_current_path_len card;
            transmitted := transmitted card |}.
  eexists. split; [|split; [|repeat split]].
  - unfold get_df_info. rewrite bind_DRVDATA.
    replace (negb (is_ef (drv_data card))) with true by now rewrite Hef.
    cbn [c_assert]. rewrite bind_ret, H0, Hfind. reflexivity.
  - unfold get_df_info. rewrite bind_DRVDATA.
    cbn [drv_data is_ef curpathlen df_infos curpath].
    replace (negb (is_ef (drv_data card))) with true by now rewrite Hef.
    cbn [c_assert]. rewrite bind_ret, H0.
    cbn [find_df_info].
    now rewrite same_path_fresh by exact Hlen.
Qed.

(** X3.  Looking up the entry of the current directory twice gives the
    same entry, and the second lookup changes nothing: the first lookup
    either found the entry or put one new entry, without records, in front
    of the others. *)
Theorem get_df_info_finds_what_it_made :
  forall (card : sc_card) (dfi : option nat) (card' : sc_card),
    0 <= curpathlen (drv_data card)
      <= Z.of_nat (length (curpath (drv_data card))) ->
    get_df_info card = Done dfi card' ->
    get_df_info card' = Done dfi card'
    /\ (df_infos (drv_data card') = df_infos (drv_data card)
        \/ exists d,
             df_infos (drv_data card') = d :: df_infos (drv_data card)
             /\ rule_file d = [] /\ keyd_file d = []
             /\ dfi = Some O).
Proof.
  intros card dfi card' Hlen H.
  destruct (is_ef (drv_data card)) eqn:Hef.
  { unfold get_df_info in H. rewrite bind_DRVDATA, Hef in H. discriminate. }
  destruct (curpathlen (drv_data card) =? 0) eqn:H0.
  { assert (Hnone : get_df_info card = Done None card).
    { unfold get_df_info. rewrite bind_DRVDATA, Hef. cbn [negb c_assert].
      now rewrite bind_ret, H0. }
    rewrite Hnone in H. injection H as <- <-. auto. }
  destruct (find_df_info (df_infos (drv_data card)) (drv_data card))
    as [i|] eqn:Hfind.
  { assert (Hsome : get_df_info card = Done (Some i) card).
    { unfold get_df_info. rewrite bind_DRVDATA, Hef. cbn [negb c_assert].
      now rewrite bind_ret, H0, Hfind. }
    rewrite Hsome in H. injection H as <- <-. auto. }
  destruct (get_df_info_makes card Hlen Hef H0 Hfind)
    as (card2 & d & Hmake & Hagain & Hd & Hr & Hk).
  rewrite Hmake in H. injection H as <- <-. split; [exact Hagain|].
  right. exists d. auto.
Qed.

(** ** The record loops *)

Lemma recnos_from_S recno k :
  recnos_from recno (S k) = recno :: recnos_from (recno + 1) k.
Proof.
  unfold recnos_from. cbn [seq map]. f_equal; [lia|].
  rewrite <- seq_shift, map_map. apply map_ext. intros j. lia.
Qed.

Lemma store_record_records which i recno resp card u card' old :
  store_record which (Some i) recno resp card = Done u card' ->
  records_at which card i = Some old ->
  records_at which card' i = Some ((recno, resp) :: old)
  /\ transmitted card' = transmitted card
  /\ card_cla card' = card_cla card.
Proof.
  unfold store_record, modify_dfi, deref. rewrite bind_assoc, bind_DRVDATA.
  unfold records_at.
  destruct (nth_error (df_infos (drv_data card)) i) as [d|] eqn:Hd;
    [|discriminate].
  rewrite bind_ret, bind_DRVDATA. intros [= Hc] [= <-]. subst card'.
  cbn [drv_data df_infos transmitted card_cla].
  rewrite nth_error_update_nth, Hd. cbn. now destruct which.
Qed.

Lemma status_not_found_is_no_record sw1 sw2 :
  status_is sw1 sw2 0x6a 0x83 = true ->
  status_is sw1 sw2 0x90 0x00 || status_is sw1 sw2 0x62 0x82 = false.
Proof.
  intros H. apply status_is_true in H as [-> ->]. reflexivity.
Qed.

(** X4.  A record loop asks the card for consecutive record numbers,
    starting with the one it is given, one READ RECORD each, until an
    answer is not a record (a status word other than 90 00 and 62 82, or
    no answer).  Every record before that answer is stored with its number
    and with the bytes the card delivered for it (at most 200), each in
    front of the records already held, so that the list is in descending
    order of record number.  The loop is left by [break] on 6A 83 and by
    returning the error otherwise. *)
Theorem read_records_reads_in_order :
  forall (which : special_file) (fuel : nat) (recno : Z) (i : nat)
         (card : sc_card) (e : loop_exit) (card' : sc_card)
         (old : list (Z * list Z)),
    read_records which fuel recno (Some i) card = Done e card' ->
    records_at which card i = Some old ->
    exists (k : nat) (delivered : list (Z * list Z)),
      records_read (card_cla card) (transmitted card) recno k
      = Some delivered
      /\ records_read (card_cla card) (transmitted card) recno (S k) = None
      /\ map fst delivered = recnos_from recno k
      /\ records_at which card' i = Some (rev delivered ++ old)
      /\ transmitted card'
         = transmitted card
           ++ map (read_apdu (card_cla card)) (recnos_from recno (S k))
      /\ e = loop_exit_on
               (card_answer
                  (transmitted card
                   ++ map (read_apdu (card_cla card)) (recnos_from recno k))
                  (read_apdu (card_cla card) (recno + Z.of_nat k))).
Proof.
  intros which fuel. induction fuel as [|fuel IH];
    intros recno i card e card' old H Hold; [discriminate|].
  rewrite read_records_turn in H.
  assert (Hstop : forall e0,
            records_read (card_cla card) (transmitted card) recno 1 = None ->
            e0 = loop_exit_on
                   (card_answer (transmitted card)
                                (read_apdu (card_cla card) recno)) ->
            Done e0 (sent card (read_apdu (card_cla card) recno))
            = Done e card' ->
            exists (k : nat) (delivered : list (Z * list Z)),
              records_read (card_cla card) (transmitted card) recno k
              = Some delivered
              /\ records_read (card_cla card) (transmitted card) recno (S k)
                 = None
              /\ map fst delivered = recnos_from recno k
              /\ records_at which card' i = Some (rev delivered ++ old)
              /\ transmitted card'
                 = transmitted card
                   ++ map (read_apdu (card_cla card))
                          (recnos_from recno (S k))
              /\ e = loop_exit_on
                       (card_answer
                          (transmitted card
                           ++ map (read_apdu (card_cla card))
                                  (recnos_from recno k))
                          (read_apdu (card_cla card)
                                     (recno + Z.of_nat k)))).
  { intros e0 Hnone He0 [= <- <-]. exists O, [].
    split; [reflexivity|]. split; [exact Hnone|]. split; [reflexivity|].
    split; [exact Hold|]. cbn [recnos_from seq map Z.of_nat].
    rewrite app_nil_r, Z.add_0_r. split; [reflexivity | exact He0]. }
  destruct (card_answer _ _) as [x | sw1 sw2 resp] eqn:Hans.
  { apply Hstop in H; [exact H | | reflexivity].
    cbn [records_read]. now rewrite Hans. }
  destruct (status_is sw1 sw2 0x6a 0x83) eqn:Hend.
  { apply Hstop in H; [exact H | | cbn [loop_exit_on]; now rewrite Hend].
    cbn [records_read].
    now rewrite Hans, (status_not_found_is_no_record _ _ Hend). }
  destruct (status_is sw1 sw2 0x90 0x00 || status_is sw1 sw2 0x62 0x82)
    eqn:Hrec; cbn [negb] in H.
  2:{ apply Hstop in H; [exact H | | cbn [loop_exit_on]; now rewrite Hend].
      cbn [records_read]. now rewrite Hans, Hrec. }
  clear Hstop.
  invert_bind H as u c Hstore.
  destruct (store_record_records _ _ _ _ _ _ _ old Hstore Hold)
    as (Hnew & Htr & Hcla).
  destruct (IH _ _ _ _ _ _ H Hnew)
    as (k & delivered & Hk1 & Hk2 & Hk3 & Hk4 & Hk5 & Hk6).
  rewrite Htr, Hcla in Hk1, Hk2, Hk5, Hk6.
  cbn [sent transmitted card_cla] in Hk1, Hk2, Hk5, Hk6.
  exists (S k), ((recno, firstn 200 resp) :: delivered).
  split; [|split; [|split; [|split; [|split]]]].
  - cbn [records_read]. rewrite Hans, Hrec, Hk1. reflexivity.
  - change (records_read (card_cla card) (transmitted card) recno
              (S (S k)))
      with (match card_answer (transmitted card)
                              (read_apdu (card_cla card) recno) with
            | TransmitFailed _ => None
            | Answer sw1 sw2 resp =>
                if status_is sw1 sw2 0x90 0x00
                   || status_is sw1 sw2 0x62 0x82
                then option_map (cons (recno, firstn 200 resp))
                       (records_read (card_cla card)
                          (transmitted card
                           ++ [read_apdu (card_cla card) recno])
                          (recno + 1) (S k))
                else None
            end).
    rewrite Hans, Hrec, Hk2. reflexivity.
  - cbn [map fst]. now rewrite Hk3, recnos_from_S.
  - rewrite Hk4. cbn [rev]. now rewrite <- app_assoc.
  - rewrite Hk5, <- app_assoc. cbn [app].
    now rewrite (recnos_from_S recno (S k)).
  - rewrite Hk6, <- app_assoc. cbn [app].
    rewrite (recnos_from_S recno k). cbn [map].
    do 3 f_equal. lia.
Qed.

(** ** The signature *)

Lemma deliver_Done out outlen resp card r out' card' :
  0 <= outlen ->
  deliver out outlen resp card = Done (r, out') card' ->
  card' = card
  /\ 0 <= r <= outlen
  /\ r <= Z.of_nat (length resp)
  /\ length out' = length out
  /\ firstn (Z.to_nat r) out' = firstn (Z.to_nat r) resp
  /\ skipn (Z.to_nat r) out' = skipn (Z.to_nat r) out.
Proof.
  intros Hout. unfold deliver.
  set (len := if outlen <? Z.of_nat (length resp) then outlen
              else Z.of_nat (length resp)).
  assert (Hlen : 0 <= len <= outlen /\ len <= Z.of_nat (length resp)).
  { subst len. destruct (outlen <? Z.of_nat (length resp)) eqn:E; lia. }
  destruct (Z.of_nat (length out) <? len) eqn:Hfit; [discriminate|].
  intros [= <- <- <-].
  assert (Hn : length (firstn (Z.to_nat len) resp) = Z.to_nat len).
  { rewrite length_firstn. lia. }
  repeat split; try lia.
  - rewrite length_app, Hn, length_skipn. lia.
  - rewrite firstn_app, Hn, Nat.sub_diag, firstn_firstn, Nat.min_id.
    cbn. apply app_nil_r.
  - rewrite skipn_app, Hn, Nat.sub_diag.
    rewrite skipn_all2 by lia. reflexivity.
Qed.

Lemma sc_transmit_apdu_Done apdu card ans card' :
  sc_transmit_apdu apdu card = Done ans card' ->
  card' = sent card apdu
  /\ ans = match card_answer (transmitted card) apdu with
           | TransmitFailed e => TransmitFailed e
           | Answer sw1 sw2 resp =>
               Answer sw1 sw2 (firstn (Z.to_nat (apdu_resplen apdu)) resp)
           end.
Proof. unfold sc_transmit_apdu. now intros [= <- <-]. Qed.

(** X5.  A signature changes at most the first [r] cells of the caller's
    buffer, where [r] is the value returned: [r] never exceeds [outlen],
    the buffer keeps its length and its cells from [r] on, and on an error
    the buffer is as it was. *)
Theorem mcrd_compute_signature_fills_a_prefix :
  forall (data : list Z) (datalen : Z) (out : list Z) (outlen : Z)
         (card : sc_card) (r : Z) (out' : list Z) (card' : sc_card),
    PlatformOk P ->
    0 <= outlen ->
    mcrd_compute_signature data datalen out outlen card
    = Done (r, out') card' ->
    r <= outlen
    /\ length out' = length out
    /\ skipn (Z.to_nat r) out' = skipn (Z.to_nat r) out
    /\ (r <= 0 -> out' = out).
Proof.
  intros data datalen out outlen card r out' card' OK Hout H.
  assert (Herr : forall e c,
            e <= 0 ->
            Done (e, out) c = Done (r, out') card' ->
            r <= outlen
            /\ length out' = length out
            /\ skipn (Z.to_nat r) out' = skipn (Z.to_nat r) out
            /\ (r <= 0 -> out' = out)).
  { intros e c He [= <- <- _]. repeat split; auto; lia. }
  assert (Hdel : forall resp c,
            deliver out outlen resp c = Done (r, out') card' ->
            r <= outlen
            /\ length out' = length out
            /\ skipn (Z.to_nat r) out' = skipn (Z.to_nat r) out
            /\ (r <= 0 -> out' = out)).
  { intros resp c Hd.
    destruct (deliver_Done _ _ _ _ _ _ _ Hout Hd)
      as (_ & Hr & _ & Hl & _ & Hs).
    repeat split; auto; try lia.
    intros Hr0. replace (Z.to_nat r) with O in Hs by lia. exact Hs. }
  unfold mcrd_compute_signature in H.
  destruct (255 <? datalen).
  { apply (Herr _ _ (Z.lt_le_incl _ _ invalid_arguments_neg) H). }
  invert_bind H as apdu0 c0 Hfmt.
  destruct (_ || _); [discriminate|].
  invert_bind H as ans c1 Htx.
  destruct ans as [e | sw1 sw2 resp].
  { apply (Herr (Z.neg e) c1); [lia | exact H]. }
  destruct (status_is sw1 sw2 0x90 0x00); [now apply Hdel in H|].
  destruct (status_is sw1 sw2 0x60 0x61).
  - invert_bind H as apdu1 c2 Hfmt1. invert_bind H as ans1 c3 Htx1.
    destruct ans1 as [e | sw1' sw2' resp'].
    + apply (Herr (Z.neg e) c3); [lia | exact H].
    + destruct (_ <? _); [discriminate|]. now apply Hdel in H.
  - apply (Herr _ _ (sc_check_sw_nonpos sw1 sw2) H).
Qed.

(** X6.  What a signature sends.  A payload of more than 255 bytes is
    refused before anything is sent.  Otherwise PERFORM SECURITY OPERATION
    (2A 9E 9A) goes out with the first [datalen] bytes of the payload, and
    GET RESPONSE follows it exactly when the card answers 60 61; nothing
    else is sent. *)
Theorem mcrd_compute_signature_sends :
  forall (data : list Z) (datalen : Z) (out : list Z) (outlen : Z)
         (card : sc_card) x (card' : sc_card),
    mcrd_compute_signature data datalen out outlen card = Done x card' ->
    let apdu := sign_apdu (card_cla card)
                          (firstn (Z.to_nat datalen) data) datalen in
    (255 < datalen /\ x = (SC_ERROR_INVALID_ARGUMENTS, out) /\ card' = card)
    \/ (datalen <= 255
        /\ datalen <= Z.of_nat (length data)
        /\ drv_data card' = drv_data card
        /\ exists more,
             transmitted card' = transmitted card ++ apdu :: more
             /\ ((more = [get_response_apdu (card_cla card)]
                  /\ exists resp, card_answer (transmitted card) apdu
                                  = Answer 0x60 0x61 resp)
                 \/ (more = []
                     /\ forall resp, card_answer (transmitted card) apdu
                                     <> Answer 0x60 0x61 resp))).
Proof.
  intros data datalen out outlen card x card' H apdu.
  subst apdu. unfold sign_apdu, get_response_apdu.
  unfold mcrd_compute_signature in H.
  destruct (255 <? datalen) eqn:Hbig.
  { left. injection H as <- <-. repeat split. lia. }
  right. split; [lia|].
  invert_bind H as apdu0 c0 Hfmt. unfold sc_format_apdu in Hfmt.
  injection Hfmt as <- <-. cbn [apdu_cse apdu_cla apdu_ins apdu_p1 apdu_p2
                                apdu_le] in H.
  change (0x9E mod 256) with 0x9E in H. change (0x9A mod 256) with 0x9A in H.
  destruct (_ || _) eqn:Hfits; [discriminate|].
  apply Bool.orb_false_iff in Hfits as [_ Hfits]. split; [lia|].
  invert_bind H as ans c1 Htx.
  apply sc_transmit_apdu_Done in Htx as [-> ->].
  cbn [apdu_resplen] in H.
  assert (Hdel : forall resp c,
            deliver out outlen resp c = Done x card' -> card' = c).
  { intros resp c. unfold deliver.
    destruct (Z.of_nat (length out) <? _); [discriminate|].
    now intros [= _ <-]. }
  destruct (card_answer (transmitted card) _) as [e | sw1 sw2 resp]
    eqn:Hans.
  { injection H as _ <-. split; [reflexivity|]. exists []. split;
      [reflexivity|]. right. split; [reflexivity|]. discriminate. }
  destruct (status_is sw1 sw2 0x90 0x00) eqn:H90.
  { apply Hdel in H as ->. split; [reflexivity|]. exists []. split;
      [reflexivity|]. right. split; [reflexivity|].
    apply status_is_true in H90 as [-> ->]. discriminate. }
  destruct (status_is sw1 sw2 0x60 0x61) eqn:H60.
  - apply status_is_true in H60 as [-> ->].
    invert_bind H as apdu1 c2 Hfmt1. unfold sc_format_apdu in Hfmt1.
    injection Hfmt1 as <- <-.
    cbn [apdu_cse apdu_cla apdu_ins apdu_p1 apdu_p2 apdu_lc apdu_data
         sent card_cla] in H.
    change (0 mod 256) with 0 in H.
    invert_bind H as ans1 c3 Htx1.
    apply sc_transmit_apdu_Done in Htx1 as [-> _].
    match type of H with
    | _ (sent ?c ?a) = _ => assert (Hc : card' = sent c a)
    end.
    { destruct ans1 as [e | sw1' sw2' resp'].
      - now injection H as _ <-.
      - destruct (SC_MAX_APDU_BUFFER_SIZE <? Z.of_nat (length resp'));
          [discriminate|]. now apply Hdel in H. }
    subst card'. split; [reflexivity|].
    eexists. split.
    + cbn [sent transmitted]. rewrite <- app_assoc. reflexivity.
    + left. split; [reflexivity|]. now exists resp.
  - injection H as _ <-. split; [reflexivity|]. exists []. split;
      [reflexivity|]. right. split; [reflexivity|].
    apply status_is_false in H60. intros resp' [= -> -> _]. now apply H60.
Qed.

(** ** Loading the special files *)

Lemma get_df_info_found card i :
  is_ef (drv_data card) = false ->
  curpathlen (drv_data card) <> 0 ->
  current_df_info card = Some i ->
  get_df_info card = Done (Some i) card.
Proof.
  intros Hef H0 Hfind. unfold get_df_info. rewrite bind_DRVDATA, Hef.
  cbn [negb c_assert]. rewrite bind_ret.
  apply Z.eqb_neq in H0. rewrite H0.
  unfold current_df_info in Hfind. now rewrite Hfind.
Qed.

(** X8.  The special files of a directory are read once: when the entry
    of the current directory holds a rule record, [load_special_files]
    returns 0 without sending anything and without changing the driver
    data, whatever fuel it is given. *)
Theorem load_special_files_uses_its_cache :
  forall (fuel : nat) (card : sc_card) (i : nat) (d : df_info_s),
    is_ef (drv_data card) = false ->
    curpathlen (drv_data card) <> 0 ->
    current_df_info card = Some i ->
    nth_error (df_infos (drv_data card)) i = Some d ->
    rule_file d <> [] ->
    load_special_files fuel card = Done 0 card.
Proof.
  intros fuel card i d Hef H0 Hfind Hd Hrule.
  unfold load_special_files, load_rule_file.
  rewrite bind_assoc, bind_DRVDATA, Hef. cbn [negb c_assert].
  rewrite bind_assoc, bind_ret, bind_assoc.
  rewrite (bind_Done _ _ _ _ _ (get_df_info_found card i Hef H0 Hfind)).
  rewrite bind_assoc. unfold has_rule_file, deref.
  rewrite !bind_assoc, bind_DRVDATA, Hd, bind_ret, bind_ret.
  destruct (rule_file d); [contradiction|]. reflexivity.
Qed.

Lemma store_record_wire which dfi recno resp card u card' :
  store_record which dfi recno resp card = Done u card' ->
  transmitted card' = transmitted card.
Proof.
  unfold store_record. intros H.
  now apply modify_dfi_Done in H as (i & d & _ & _ & _ & _ & Htr).
Qed.

Lemma read_records_extends which fuel :
  forall recno dfi card e card',
    read_records which fuel recno dfi card = Done e card' ->
    exists more, transmitted card' = transmitted card ++ more.
Proof.
  induction fuel as [|fuel IH]; intros recno dfi card e card' H;
    [discriminate|].
  rewrite read_records_turn in H.
  assert (Hstop : forall e0,
            Done e0 (sent card (read_apdu (card_cla card) recno))
            = Done e card' ->
            exists more, transmitted card' = transmitted card ++ more).
  { intros e0 [= _ <-]. now eexists. }
  destruct (card_answer _ _) as [x | sw1 sw2 resp]; [now apply Hstop in H|].
  destruct (status_is sw1 sw2 0x6a 0x83); [now apply Hstop in H|].
  destruct (negb _); [now apply Hstop in H|].
  invert_bind H as u c Hstore. apply store_record_wire in Hstore.
  apply IH in H as (more & Hmore). rewrite Hmore, Hstore.
  cbn [sent transmitted]. rewrite <- app_assoc. now eexists.
Qed.

Lemma load_keyd_file_extends fuel dfi card r card' :
  load_keyd_file fuel dfi card = Done r card' ->
  exists more, transmitted card' = transmitted card ++ more.
Proof.
  unfold load_keyd_file. intros H. invert_bind H as x c Hsel.
  destruct x as [r0 f]. apply do_select_wire in Hsel as [Hsel _].
  destruct (r0 =? SC_ERROR_FILE_NOT_FOUND).
  { injection H as _ <-. rewrite Hsel. now eexists. }
  destruct (SC_TEST_RET_returns r0).
  { injection H as _ <-. rewrite Hsel. now eexists. }
  invert_bind H as e c1 Hread.
  apply read_records_extends in Hread as (more & Hmore).
  assert (card' = c1) as -> by (destruct e; now injection H as _ <-).
  rewrite Hmore, Hsel, <- app_assoc. now eexists.
Qed.

(** X9.  A load that is not answered from the cache begins on the card
    with the selection of EF_Rule (SELECT, P1 = 2, data 00 30): either
    [load_special_files] returns 0 and leaves everything as it was, the
    entry of the current directory holding a rule record, or the first
    command it sends is that SELECT. *)
Theorem load_special_files_starts_with_the_rule_file :
  forall (fuel : nat) (card : sc_card) (r : Z) (card' : sc_card),
    load_special_files fuel card = Done r card' ->
    (r = 0 /\ card' = card
     /\ exists i d,
          current_df_info card = Some i
          /\ nth_error (df_infos (drv_data card)) i = Some d
          /\ rule_file d <> [])
    \/ exists more,
         transmitted card'
         = transmitted card ++ select_apdu 2 [0x00; 0x30] false :: more.
Proof.
  intros fuel card r card' H. unfold load_special_files in H.
  invert_bind H as x c Hrule. destruct x as [dfi e].
  unfold load_rule_file in Hrule.
  rewrite bind_DRVDATA in Hrule. invert_bind Hrule as u c0 Hassert.
  apply c_assert_Done in Hassert as [Hef ->].
  apply Bool.negb_true_iff in Hef.
  invert_bind Hrule as dfi0 c1 Hget. invert_bind Hrule as cached c2 Hhas.
  destruct cached.
  - (* answered from the cache *)
    injection Hrule as <- <- <-. injection H as <- <-. left.
    unfold has_rule_file in Hhas. destruct dfi0 as [i|]; [|discriminate].
    invert_bind Hhas as d c3 Hderef. injection Hhas as Hd <-.
    unfold deref in Hderef. rewrite bind_DRVDATA in Hderef.
    destruct (nth_error (df_infos (drv_data c1)) i) as [d0|] eqn:Hnth;
      [|discriminate].
    injection Hderef as -> <-.
    assert (Hsame : c1 = card /\ current_df_info card = Some i).
    { unfold get_df_info in Hget. rewrite bind_DRVDATA, Hef in Hget.
      cbn [negb c_assert] in Hget. rewrite bind_ret in Hget.
      destruct (curpathlen (drv_data card) =? 0); [discriminate|].
      unfold current_df_info.
      destruct (find_df_info _ _) as [j|] eqn:Hfind.
      - now injection Hget as <- <-.
      - exfalso.
        unfold set_df_infos, bind, DRVDATA, set_DRVDATA, ret in Hget.
        set (pad := repeat 0 _) in Hget. clearbody pad.
        injection Hget as <- <-. cbn in Hnth. injection Hnth as <-.
        discriminate. }
    destruct Hsame as [-> Hcur]. repeat split.
    exists i, d. repeat split; auto.
    now destruct (rule_file d).
  - (* read from the card *)
    right. apply get_df_info_wire in Hget as [Hget _].
    assert (Hc2 : transmitted c2 = transmitted c1).
    { unfold has_rule_file in Hhas. destruct dfi0 as [i|].
      - invert_bind Hhas as d c3 Hderef. injection Hhas as _ <-.
        unfold deref in Hderef. rewrite bind_DRVDATA in Hderef.
        destruct (nth_error _ _); [|discriminate].
        now injection Hderef as _ <-.
      - now inversion Hhas. }
    invert_bind Hrule as u1 c3 Hclear.
    assert (Hc3 : transmitted c3 = transmitted c2).
    { unfold clear_special_files in Hclear. destruct dfi0 as [i|].
      - now apply modify_dfi_Done in Hclear as (j & d & _ & _ & _ & _ & Htr).
      - now inversion Hclear. }
    invert_bind Hrule as y c4 Hsel. destruct y as [r0 f].
    apply do_select_wire in Hsel as [Hsel _].
    change (if EF_Rule =? MFID then MCRD_SEL_MF else 2) with 2 in Hsel.
    change [Z.shiftr EF_Rule 8 mod 256; Z.land EF_Rule 255]
      with [0x00; 0x30] in Hsel.
    rewrite Hc3, Hc2, Hget in Hsel.
    assert (Hrest : exists more, transmitted c = transmitted c4 ++ more).
    { destruct (SC_TEST_RET_returns r0).
      - injection Hrule as _ _ <-. exists []. now rewrite app_nil_r.
      - invert_bind Hrule as e0 c5 Hread. injection Hrule as _ _ <-.
        now apply read_records_extends in Hread. }
    destruct Hrest as (more & Hmore).
    assert (Hlast : exists more', transmitted card' = transmitted c ++ more').
    { destruct e as [|r1].
      - now apply load_keyd_file_extends in H.
      - injection H as _ <-. exists []. now rewrite app_nil_r. }
    destruct Hlast as (more' & Hmore').
    exists (more ++ more').
    rewrite Hmore', Hmore, Hsel, <- !app_assoc. reflexivity.
Qed.

(** ** The requests of mcrd_select_file *)

Lemma land_1_odd n : Z.land n 1 = if Z.odd n then 1 else 0.
Proof.
  change 1 with (Z.ones 1) at 1. rewrite Z.land_ones by lia.
  change (2 ^ 1) with 2. apply Zmod_odd.
Qed.

Lemma rooted_assert card :
  rooted card ->
  (curpathlen (drv_data card) =? 0)
  || (nth 0 (curpath (drv_data card)) 0 =? MFID) = true.
Proof.
  intros [H | H]; rewrite H.
  - reflexivity.
  - rewrite Z.eqb_refl. apply Bool.orb_true_r.
Qed.

Lemma fill_pathtmp_first value len :
  0 < len <= 2 * (SC_MAX_PATH_SIZE / 2) ->
  exists rest, fill_pathtmp value len = fid_at value 0 :: rest.
Proof.
  intros H. unfold fill_pathtmp.
  destruct (Z.to_nat (SC_MAX_PATH_SIZE / 2)) as [|n] eqn:E; [lia|].
  cbn [seq map]. replace (2 * Z.of_nat 0 <? len) with true
    by (symmetry; apply Z.ltb_lt; lia).
  now eexists.
Qed.

(** X10.  Requests that name no file are refused with
    SC_ERROR_INVALID_ARGUMENTS, and the card handle is left as it was,
    nothing being sent: a DF name of more than 16 bytes; a path or file
    identifier of odd length or longer than the conversion buffer; a file
    identifier of more than one component; an empty path; and a path that
    consists of the component 3FFF alone. *)
Theorem mcrd_select_file_refuses_malformed :
  forall (fuel : nat) (path : sc_path) (want_file : bool) (card : sc_card),
    (path_type path = SC_PATH_TYPE_DF_NAME /\ 16 < path_len path)
    \/ (path_type path <> SC_PATH_TYPE_DF_NAME
        /\ (Z.odd (path_len path) = true
            \/ 2 * (SC_MAX_PATH_SIZE / 2) < path_len path))
    \/ (rooted card
        /\ ((path_type path = SC_PATH_TYPE_FILE_ID /\ 2 < path_len path)
            \/ (path_type path = SC_PATH_TYPE_PATH /\ path_len path = 0)
            \/ (path_type path = SC_PATH_TYPE_PATH /\ path_len path = 2
                /\ fid_at (path_value path) 0 = 0x3FFF))) ->
    mcrd_select_file fuel path want_file card
    = Done (SC_ERROR_INVALID_ARGUMENTS, None) card.
Proof.
  intros fuel path want_file card H. unfold mcrd_select_file.
  destruct (negb (Z.land (path_len path) 1 =? 0)
            || (2 * (SC_MAX_PATH_SIZE / 2) <? path_len path)) eqn:Hfirst.
  { destruct H as [[Hty Hlen] | H].
    - rewrite Hty. now replace (16 <? path_len path) with true
        by (symmetry; apply Z.ltb_lt; lia).
    - destruct (path_type path) eqn:Hty; try reflexivity.
      destruct H as [[Hn _] | (_ & [[? _] | [[? _] | [? _]]])];
        congruence. }
  apply Bool.orb_false_iff in Hfirst as [Heven Hfit].
  apply Bool.negb_false_iff, Z.eqb_eq in Heven.
  rewrite land_1_odd in Heven. apply Z.ltb_ge in Hfit.
  destruct H as [[Hty Hlen] | [[Hty [Hodd | Hlong]] | (Hroot & H)]].
  - rewrite Hty. now replace (16 <? path_len path) with true
      by (symmetry; apply Z.ltb_lt; lia).
  - rewrite Hodd in Heven. discriminate.
  - lia.
  - apply rooted_assert in Hroot.
    assert (Hhalf : Z.shiftr (path_len path) 1 = path_len path / 2).
    { now rewrite Z.shiftr_div_pow2 by lia. }
    destruct H as [[Hty Hlen] | [[Hty Hlen] | (Hty & Hlen & Hfid)]];
      rewrite Hty.
    + unfold select_file_by_fid. rewrite bind_DRVDATA, Hroot.
      cbn [c_assert]. rewrite bind_ret, Hhalf.
      assert (Heven' : Z.even (path_len path) = true).
      { rewrite <- Z.negb_odd. now destruct (Z.odd (path_len path)). }
      apply Z.even_spec in Heven' as [k Hk].
      replace (1 <? path_len path / 2) with true; [reflexivity|].
      symmetry. apply Z.ltb_lt. rewrite Hk, Z.mul_comm, Z.div_mul; lia.
    + unfold select_file_by_path. rewrite bind_DRVDATA, Hroot.
      cbn [c_assert]. rewrite bind_ret, Hhalf, Hlen.
      change (0 / 2) with 0. cbn [Z.eqb negb andb].
      now destruct (fill_pathtmp _ _).
    + unfold select_file_by_path. rewrite bind_DRVDATA, Hroot.
      cbn [c_assert]. rewrite bind_ret, Hhalf, Hlen.
      change (2 / 2) with 1.
      destruct (fill_pathtmp_first (path_value path) 2) as (rest & ->);
        [lia|].
      rewrite Hfid. reflexivity.
Qed.

(** X11.  A selection by DF name sends exactly one SELECT with P1 = 4 that
    carries the first [path->len] bytes of the name, and it empties the
    cached path whatever the card answers; the cells of the cache and the
    EF mark are not touched. *)
Theorem mcrd_select_file_by_name_empties_the_cache :
  forall (fuel : nat) (path : sc_path) (want_file : bool)
         (card : sc_card) x (card' : sc_card),
    path_type path = SC_PATH_TYPE_DF_NAME ->
    path_len path <= 16 ->
    mcrd_select_file fuel path want_file card = Done x card' ->
    curpathlen (drv_data card') = 0
    /\ cached_path (drv_data card') = []
    /\ curpath (drv_data card') = curpath (drv_data card)
    /\ is_ef (drv_data card') = is_ef (drv_data card)
    /\ transmitted card'
       = transmitted card
         ++ [select_apdu MCRD_SEL_AID
               (firstn (Z.to_nat (path_len path)) (path_value path))
               want_file].
Proof.
  intros fuel path want_file card x card' Hty Hlen H.
  unfold mcrd_select_file in H. rewrite Hty in H.
  replace (16 <? path_len path) with false in H
    by (symmetry; apply Z.ltb_ge; lia).
  invert_bind H as y c Hsel. destruct y as [r f].
  rewrite bind_set_curpathlen in H. injection H as _ <-.
  pose proof (do_select_Done _ _ _ _ _ _ Hsel) as Hpos.
  apply position_inv in Hpos as (Hp1 & _ & Hp3 & _).
  apply do_select_wire in Hsel as [Htr _].
  cbn [drv_data curpathlen curpath is_ef transmitted].
  unfold cached_path. cbn [curpathlen curpath]. auto.
Qed.

Lemma do_select_nonpos kind buf want_file card r f card' :
  PlatformOk P ->
  do_select kind buf want_file card = Done (r, f) card' ->
  r <= 0.
Proof.
  intros OK H. unfold do_select in H. invert_bind H as ans c Htx.
  pose proof invalid_arguments_neg. pose proof unknown_data_neg.
  destruct ans as [e | sw1 sw2 resp]; [injection H as <- _ _; lia|].
  destruct (negb want_file).
  - destruct (sw1 =? 0x61); [injection H as <- _ _; lia|].
    invert_bind H as u c1 Hset. injection H as <- _ _.
    apply sc_check_sw_nonpos.
  - destruct (negb _); [injection H as <- _ _; apply sc_check_sw_nonpos|].
    destruct (_ =? 0x6F); [|injection H as <- _ _; lia].
    invert_bind H as file c1 Hfcp. injection H as <- _ _. lia.
Qed.

Lemma select_mf_root want_file card r f card' :
  PlatformOk P ->
  select_mf MFID want_file card = Done (r, f) card' ->
  transmitted card'
  = transmitted card ++ [select_apdu MCRD_SEL_MF [0x3F; 0x00] want_file]
  /\ ((r < 0 /\ curpathlen (drv_data card') = 0)
      \/ (r = 0
          /\ cached_path (drv_data card') = [MFID]
          /\ is_ef (drv_data card') = false)).
Proof.
  intros OK H. unfold select_mf in H. rewrite bind_set_curpathlen in H.
  invert_bind H as y c Hsel. destruct y as [r0 f0].
  unfold select_part in Hsel.
  change (if MFID =? MFID then MCRD_SEL_MF else MCRD_SEL_MF)
    with MCRD_SEL_MF in Hsel.
  change [Z.shiftr MFID 8 mod 256; Z.land MFID 255] with [0x3F; 0x00] in Hsel.
  pose proof (do_select_nonpos _ _ _ _ _ _ _ OK Hsel) as Hr.
  pose proof (do_select_Done _ _ _ _ _ _ Hsel) as Hpos.
  apply position_inv in Hpos as (Hp1 & Hp2 & _ & _).
  apply do_select_wire in Hsel as [Htr _].
  cbn [drv_data curpathlen curpath transmitted] in Hp1, Hp2, Htr.
  unfold SC_TEST_RET_returns in H. destruct (r0 <? 0) eqn:Hneg.
  - injection H as <- _ <-. split; [exact Htr|]. left.
    apply Z.ltb_lt in Hneg. now split.
  - apply Z.ltb_ge in Hneg. assert (r0 = 0) as -> by lia.
    invert_bind H as u c1 Hpoke.
    unfold set_curpath_at in Hpoke. rewrite bind_DRVDATA in Hpoke.
    destruct (_ && _) eqn:Hin; [|discriminate].
    injection Hpoke as _ <-.
    rewrite bind_set_curpathlen, bind_set_is_ef in H.
    injection H as <- _ <-.
    cbn [drv_data curpathlen curpath is_ef transmitted].
    split; [exact Htr|]. right. repeat split.
    unfold cached_path. cbn [curpathlen curpath].
    destruct (curpath (drv_data c)) as [|a l]; [cbn in Hin; lia|].
    reflexivity.
Qed.

(** X12.  A request for the root, as the path 3F00 or as the file
    identifier 3F00, sends one SELECT with P1 = 0 and the data 3F 00.
    When it fails the cached path is left empty; when it succeeds the
    cached path is the root alone and the current file is no EF. *)
Theorem mcrd_select_file_root :
  forall (fuel : nat) (path : sc_path) (want_file : bool)
         (card : sc_card) (r : Z) (f : option sc_file) (card' : sc_card),
    PlatformOk P ->
    2 <= SC_MAX_PATH_SIZE ->
    rooted card ->
    path_type path <> SC_PATH_TYPE_DF_NAME ->
    path_len path = 2 ->
    fid_at (path_value path) 0 = MFID ->
    mcrd_select_file fuel path want_file card = Done (r, f) card' ->
    transmitted card'
    = transmitted card ++ [select_apdu MCRD_SEL_MF [0x3F; 0x00] want_file]
    /\ ((r < 0 /\ curpathlen (drv_data card') = 0)
        \/ (r = 0
            /\ cached_path (drv_data card') = [MFID]
            /\ is_ef (drv_data card') = false)).
Proof.
  intros fuel path want_file card r f card' OK Hsize Hroot Hty Hlen Hfid H.
  apply rooted_assert in Hroot.
  assert (Hfit : 2 <= 2 * (SC_MAX_PATH_SIZE / 2)).
  { assert (1 <= SC_MAX_PATH_SIZE / 2) by (apply Z.div_le_lower_bound; lia).
    lia. }
  destruct (fill_pathtmp_first (path_value path) 2) as (rest & Hfill);
    [lia|].
  unfold mcrd_select_file in H. rewrite Hlen, Hfill, Hfid in H.
  replace (2 * (SC_MAX_PATH_SIZE / 2) <? 2) with false in H
    by (symmetry; apply Z.ltb_ge; lia).
  change (Z.land 2 1) with 0 in H. change (Z.shiftr 2 1) with 1 in H.
  cbn [Z.eqb negb orb] in H.
  destruct (path_type path); [| contradiction |].
  - unfold select_file_by_fid in H. rewrite bind_DRVDATA, Hroot in H.
    cbn [c_assert] in H. rewrite bind_ret in H.
    change (1 <? 1) with false in H. cbv iota in H.
    change (negb (1 =? 0) && (MFID =? 0x3FFF)) with false in H.
    change (1 =? 0) with false in H. cbv iota in H.
    unfold first_cell in H. rewrite bind_ret in H.
    change (MFID =? MFID) with true in H. cbv iota in H.
    now apply select_mf_root in H.
  - unfold select_file_by_path in H. rewrite bind_DRVDATA, Hroot in H.
    cbn [c_assert] in H. rewrite bind_ret in H.
    change (negb (1 =? 0) && (MFID =? 0x3FFF)) with false in H.
    cbv iota in H.
    change ((1 =? 0) || (MAX_CURPATH <=? 1)) with false in H.
    cbv iota in H. unfold first_cell in H. rewrite bind_ret in H.
    change ((1 =? 1) && (MFID =? MFID)) with true in H. cbv iota in H.
    now apply select_mf_root in H.
Qed.

(** ** The security environment *)

Lemma restore_se_sends num card :
  restore_se num card
  = Done (outcome_code
            (card_answer (transmitted card)
                         (restore_apdu (card_cla card) num)))
         (sent card (restore_apdu (card_cla card) num)).
Proof.
  unfold restore_se, bind, sc_format_apdu, sc_transmit_apdu, outcome_code.
  cbn. fold (restore_apdu (card_cla card) num).
  fold (sent card (restore_apdu (card_cla card) num)).
  now destruct (card_answer _ _).
Qed.

(** X13.  When the key reference of the file is resolved (the lookup in
    EF_KeyD does not give -1), [mcrd_set_security_env] first sends RESTORE
    SECURITY ENVIRONMENT (22 F3) for the number found, unless that number
    is 0; if the restore fails its code is returned and no SET is sent.
    Otherwise SET goes out with the five bytes 83 03 80 and the two
    reference bytes, and its outcome is the result. *)
Theorem mcrd_set_security_env_restores_then_sets :
  forall (env : sc_security_env) (card : sc_card) (p2 num : Z)
         (b : list Z) (card1 : sc_card),
    (env_operation env = SC_SEC_OPERATION_SIGN /\ p2 = 0xB6
     \/ env_operation env = SC_SEC_OPERATION_DECIPHER /\ p2 = 0xB8) ->
    Z.land (env_flags env) SC_SEC_ENV_FILE_REF_PRESENT <> 0 ->
    1 < path_len (env_file_ref env) ->
    get_se_num_from_keyd (file_ref_fid (env_file_ref env))
      (Some [uninitialised sbuf 3; uninitialised sbuf 4]) card
    = Done (num, Some b) card1 ->
    num <> -1 ->
    let restore := restore_apdu (card_cla card) num in
    let set := set_env_apdu (card_cla card) p2 ([0x83; 0x03; 0x80] ++ b) in
    let restored := outcome_code (card_answer (transmitted card) restore) in
    exists card'',
      mcrd_set_security_env env 0 card
      = Done (if num =? 0
              then outcome_code (card_answer (transmitted card) set)
              else if restored <? 0 then restored
              else outcome_code
                     (card_answer (transmitted card ++ [restore]) set))
             card''
      /\ transmitted card''
         = transmitted card
           ++ (if num =? 0 then [set]
               else if restored <? 0 then [restore]
               else [restore; set])
      /\ drv_data card'' = drv_data card1.
Proof.
  intros env card p2 num b card1 Hop Hflag Hlen Hnum Hne restore set
         restored.
  destruct (get_se_num_from_keyd_silent _ _ _ _ _ Hnum) as [Htr Hcla].
  assert (Hguard :
    negb (Z.land (env_flags env) SC_SEC_ENV_FILE_REF_PRESENT =? 0)
    && (1 <? path_len (env_file_ref env)) = true).
  { apply andb_true_iff. split.
    - apply negb_true_iff. now apply Z.eqb_neq.
    - now apply Z.ltb_lt. }
  assert (Hfound : negb (num =? -1) = true).
  { apply negb_true_iff. now apply Z.eqb_neq. }
  assert (Hset : forall c : sc_card,
    transmitted c = transmitted card1 ++
                    (if num =? 0 then [] else [restore]) ->
    card_cla c = card_cla card ->
    drv_data c = drv_data card1 ->
    exists card'',
      (ans <- sc_transmit_apdu set ;;
       match ans with
       | TransmitFailed e => ret (Z.neg e)
       | Answer sw1 sw2 _ =>
           let r := sc_check_sw sw1 sw2 in
           if negb (r =? 0) then ret r
           else if 0 <=? 0 then ret 0
           else ret (sc_check_sw sw1 sw2)
       end) c
      = Done (outcome_code (card_answer (transmitted c) set)) card''
      /\ transmitted card'' = transmitted c ++ [set]
      /\ drv_data card'' = drv_data card1).
  { intros c Hc1 Hc2 Hc3. unfold bind, sc_transmit_apdu.
    destruct (card_answer (transmitted c) set) as [e | sw1 sw2 resp];
      cbn [outcome_code].
    - eexists. split; [reflexivity|]. now split.
    - destruct (sc_check_sw sw1 sw2 =? 0) eqn:Hsw; cbn [negb].
      + apply Z.eqb_eq in Hsw. rewrite Hsw. eexists.
        split; [reflexivity|]. now split.
      + eexists. split; [reflexivity|]. now split. }
  unfold file_ref_fid in Hnum.
  unfold mcrd_set_security_env. cbn [Z.eqb negb].
  unfold bind at 1. unfold sc_format_apdu at 1.
  assert (Hp : match env_operation env with
               | SC_SEC_OPERATION_SIGN => Some (0x41, 0xB6)
               | SC_SEC_OPERATION_DECIPHER => Some (0x41, 0xB8)
               | SC_SEC_OPERATION_other _ => None
               end = Some (0x41, p2)).
  { destruct Hop as [[-> ->] | [-> ->]]; reflexivity. }
  rewrite Hp, Hguard. rewrite (bind_Done _ _ _ _ _ Hnum). rewrite Hfound.
  cbn [apdu_cse apdu_cla apdu_ins].
  change ((0 <? 0) && SC_TEST_RET_returns sc_lock) with false.
  assert (Hdata : negb (Z.of_nat (length ([0x83; 0x03; 0x80] ++ b)) =? 0)
                  = true).
  { apply negb_true_iff, Z.eqb_neq. cbn [length app]. lia. }
  destruct (num =? 0) eqn:Hzero.
  - cbn [negb]. rewrite bind_assoc, !bind_ret. cbv beta iota.
    rewrite Hdata.
    destruct (Hset card1) as (card'' & Hrun & Htr'' & Hdrv);
      [now rewrite app_nil_r | exact Hcla | reflexivity |].
    exists card''. rewrite Htr in Hrun, Htr''. split; [exact Hrun|].
    now split.
  - cbn [negb]. rewrite !bind_assoc.
    rewrite (bind_Done _ _ _ _ _ (restore_se_sends num card1)).
    rewrite Hcla, Htr. fold restore. fold restored.
    unfold SC_TEST_RET_returns. rewrite !bind_ret. cbv beta iota.
    destruct (restored <? 0) eqn:Hfail.
    + eexists. split; [reflexivity|].
      cbn [sent transmitted drv_data]. now rewrite Htr.
    + rewrite Hdata.
      destruct (Hset (sent card1 restore)) as (card'' & Hrun & Htr'' & Hdrv);
        [reflexivity | exact Hcla | reflexivity |].
      exists card''. cbn [sent transmitted] in Hrun, Htr''.
      rewrite Htr in Hrun, Htr''. rewrite <- app_assoc in Htr''.
      split; [exact Hrun|]. now split.
Qed.

(** ** The key lookup *)

Lemma store_ref_data_shape ref t0 t1 :
  option_map (@length Z) (store_ref_data ref t0 t1)
  = option_map (@length Z) ref
  /\ option_map (skipn 2) (store_ref_data ref t0 t1)
     = option_map (skipn 2) ref.
Proof.
  destruct ref as [b|]; [|now split]. cbn.
  rewrite !length_poke. split; [reflexivity|]. f_equal.
  destruct b as [|b0 [|b1 b]]; reflexivity.
Qed.

Lemma keyd_scan_result a b keyd :
  forall ref r ref',
    keyd_scan a b keyd ref = (r, ref') ->
    (r = -1 \/ 0 <= r < 256)
    /\ option_map (@length Z) ref' = option_map (@length Z) ref
    /\ option_map (skipn 2) ref' = option_map (skipn 2) ref.
Proof.
  induction keyd as [|k next IH]; intros ref r ref' H; cbn in H.
  - injection H as <- <-. auto.
  - assert (Hstored : forall t0 t1,
              keyd_scan a b next (store_ref_data ref t0 t1) = (r, ref') ->
              (r = -1 \/ 0 <= r < 256)
              /\ option_map (@length Z) ref' = option_map (@length Z) ref
              /\ option_map (skipn 2) ref' = option_map (skipn 2) ref).
    { intros t0 t1 H1. apply IH in H1 as (H1 & H2 & H3).
      destruct (store_ref_data_shape ref t0 t1) as [H4 H5].
      rewrite H4 in H2. rewrite H5 in H3. auto. }
    destruct (sc_asn1_find_tag (keyd_data k) 0x83)
      as [[|t0 [|t1 [|t2 [|t3 [|]]]]]|]; try (now apply IH in H).
    destruct (_ && _); [|now apply IH in H].
    destruct (sc_asn1_find_tag (keyd_data k) 0x7B) as [[|s0 se_do]|];
      try (now apply Hstored in H).
    destruct (sc_asn1_find_tag (s0 :: se_do) 0x80) as [[|se [|]]|];
      try (now apply Hstored in H).
    injection H as <- <-.
    destruct (store_ref_data_shape ref t0 t1) as [H4 H5].
    split; [|auto]. right. apply Z.mod_pos_bound. lia.
Qed.

(** X14.  The key lookup answers with -1 or with a byte, it sends nothing
    and does not move the selected path; of the caller's buffer it can
    change the first two cells only, and it leaves the buffer's presence
    and length as they were. *)
Theorem get_se_num_from_keyd_result :
  forall (fid : Z) (ref : option (list Z)) (card : sc_card)
         (r : Z) (ref' : option (list Z)) (card' : sc_card),
    get_se_num_from_keyd fid ref card = Done (r, ref') card' ->
    (r = -1 \/ 0 <= r < 256)
    /\ option_map (@length Z) ref' = option_map (@length Z) ref
    /\ option_map (skipn 2) ref' = option_map (skipn 2) ref
    /\ transmitted card' = transmitted card
    /\ position card' = position card.
Proof.
  intros fid ref card r ref' card' H.
  destruct (get_se_num_from_keyd_silent _ _ _ _ _ H) as [Htr _].
  unfold get_se_num_from_keyd in H. invert_bind H as dfi c Hget.
  apply get_df_info_Done in Hget.
  assert (Hnone : Done (-1, ref) c = Done (r, ref') card' ->
            (r = -1 \/ 0 <= r < 256)
            /\ option_map (@length Z) ref' = option_map (@length Z) ref
            /\ option_map (skipn 2) ref' = option_map (skipn 2) ref
            /\ transmitted card' = transmitted card
            /\ position card' = position card).
  { intros [= <- <- <-]. auto 6. }
  destruct dfi as [i|]; [|now apply Hnone].
  invert_bind H as d c1 Hderef.
  assert (c1 = c) as ->.
  { unfold deref in Hderef. rewrite bind_DRVDATA in Hderef.
    destruct (nth_error _ _); [|discriminate]. now injection Hderef as _ <-. }
  destruct (keyd_file d) as [|k keyd]; [now apply Hnone|].
  assert (Hret : forall x : Z * option (list Z),
            Done x c = Done (r, ref') card' -> x = (r, ref') /\ c = card')
    by now intros x [= -> ->].
  apply Hret in H as [H <-].
  apply keyd_scan_result in H as (H1 & H2 & H3). auto 6.
Qed.

(** ** The start of a session *)

Lemma read_records_enough which n :
  (forall trace cla sw1 sw2 resp,
     card_answer trace (read_apdu cla (n + 1)) = Answer sw1 sw2 resp ->
     ~ record_read sw1 sw2) ->
  forall fuel recno i card,
    recno <= n + 1 ->
    n + 1 - recno < Z.of_nat fuel ->
    (i < length (df_infos (drv_data card)))%nat ->
    exists e card',
      read_records which fuel recno (Some i) card = Done e card'
      /\ position card' = position card
      /\ (i < length (df_infos (drv_data card')))%nat.
Proof.
  intros Hcard. induction fuel as [|fuel IH]; intros recno i card H0 Hf Hi;
    [lia|].
  rewrite read_records_turn.
  destruct (card_answer _ _) as [x | sw1 sw2 resp] eqn:Hans.
  { eexists _, _. repeat split. exact Hi. }
  destruct (status_is sw1 sw2 0x6a 0x83).
  { eexists _, _. repeat split. exact Hi. }
  destruct (negb _) eqn:Hread.
  { eexists _, _. repeat split. exact Hi. }
  assert (Hrec : recno <= n).
  { destruct (Z_le_gt_dec recno n) as [Hle | Hgt]; [exact Hle|].
    exfalso. assert (recno = n + 1) by lia. subst recno.
    apply (Hcard _ _ _ _ _ Hans).
    apply Bool.negb_false_iff, Bool.orb_true_iff in Hread.
    destruct Hread as [Hs | Hs]; apply status_is_true in Hs;
      [left | right]; exact Hs. }
  unfold store_record.
  match goal with
  | |- context [modify_dfi (Some i) ?f] =>
      destruct (modify_dfi_total i f
                  (sent card (read_apdu (card_cla card) recno)) Hi)
        as (card1 & Hmod & Hp1 & Hl1)
  end.
  rewrite (bind_Done _ _ _ _ _ Hmod).
  destruct (IH (recno + 1) i card1) as (e & card' & Hrun & Hp & Hi');
    [lia | lia | now rewrite Hl1 |].
  exists e, card'. split; [exact Hrun|]. split; [|exact Hi'].
  rewrite Hp, Hp1. reflexivity.
Qed.

Lemma load_special_files_enough n fuel card :
  (forall trace cla sw1 sw2 resp,
     card_answer trace (read_apdu cla (n + 1)) = Answer sw1 sw2 resp ->
     ~ record_read sw1 sw2) ->
  0 <= n < Z.of_nat fuel ->
  is_ef (drv_data card) = false ->
  curpathlen (drv_data card) <> 0 ->
  exists r card',
    load_special_files fuel card = Done r card'
    /\ position card' = position card.
Proof.
  intros Hcard Hfuel Hef Hcur.
  assert (Hloop : forall which i c,
            (i < length (df_infos (drv_data c)))%nat ->
            exists e c',
              read_records which fuel 1 (Some i) c = Done e c'
              /\ position c' = position c
              /\ (i < length (df_infos (drv_data c')))%nat).
  { intros which i c Hi.
    apply (read_records_enough which n Hcard); [lia | lia | exact Hi]. }
  unfold load_special_files, load_rule_file.
  rewrite bind_assoc, bind_DRVDATA, Hef. cbn [negb c_assert].
  rewrite bind_assoc, bind_ret, bind_assoc.
  destruct (get_df_info_total card Hef) as (dfi & card1 & Hget & Hp1 & _).
  destruct (get_df_info_valid _ _ _ Hget Hcur) as (i & -> & Hi).
  rewrite (bind_Done _ _ _ _ _ Hget), bind_assoc.
  assert (Hhas : exists b, has_rule_file (Some i) card1 = Done b card1).
  { unfold has_rule_file, deref, bind, DRVDATA.
    destruct (nth_error (df_infos (drv_data card1)) i) eqn:Hd.
    - cbn. eauto.
    - apply nth_error_None in Hd. lia. }
  destruct Hhas as (cached & Hhas).
  rewrite (bind_Done _ _ _ _ _ Hhas).
  destruct cached.
  { exists 0, card1. split; [reflexivity | exact Hp1]. }
  rewrite bind_assoc. unfold clear_special_files.
  match goal with
  | |- context [modify_dfi (Some i) ?f] =>
      destruct (modify_dfi_total i f card1 Hi)
        as (card2 & Hmod & Hp2 & Hl2)
  end.
  rewrite (bind_Done _ _ _ _ _ Hmod), bind_assoc.
  destruct (select_part_quiet 2 EF_Rule card2)
    as (r & card3 & Hsel & Hdrv & _).
  rewrite (bind_Done _ _ _ _ _ Hsel).
  assert (Hp3 : position card3 = position card)
    by (unfold position in *; rewrite Hdrv; congruence).
  destruct (SC_TEST_RET_returns r).
  { exists r, card3. split; [reflexivity | exact Hp3]. }
  rewrite bind_assoc.
  destruct (Hloop the_rule_file i card3) as (e & card4 & Hrun & Hp4 & Hi4).
  { rewrite Hdrv, Hl2. exact Hi. }
  rewrite (bind_Done _ _ _ _ _ Hrun), bind_ret.
  destruct e as [|r'].
  - unfold load_keyd_file.
    destruct (select_part_quiet 2 EF_KeyD card4)
      as (r1 & card5 & Hsel5 & Hdrv5 & _).
    rewrite (bind_Done _ _ _ _ _ Hsel5).
    assert (Hp5 : position card5 = position card)
      by (unfold position in *; rewrite Hdrv5; congruence).
    destruct (r1 =? SC_ERROR_FILE_NOT_FOUND); [now exists 0, card5|].
    destruct (SC_TEST_RET_returns r1); [now exists r1, card5|].
    destruct (Hloop the_keyd_file i card5) as (e & card6 & Hrun6 & Hp6 & _).
    { now rewrite Hdrv5. }
    rewrite (bind_Done _ _ _ _ _ Hrun6).
    destruct e as [|r']; eexists _, card6; (split; [reflexivity|]);
      congruence.
  - exists r', card4. split; [reflexivity|]. congruence.
Qed.

Lemma modify_dfi_cla dfi f card u card' :
  modify_dfi dfi f card = Done u card' -> card_cla card' = card_cla card.
Proof.
  unfold modify_dfi, deref. rewrite bind_assoc, bind_DRVDATA.
  destruct dfi as [i|]; [|discriminate].
  destruct (nth_error _ _); [|discriminate].
  rewrite bind_ret, bind_DRVDATA. now intros [= _ <-].
Qed.

Lemma read_records_cla which fuel :
  forall recno dfi card e card',
    read_records which fuel recno dfi card = Done e card' ->
    card_cla card' = card_cla card.
Proof.
  induction fuel as [|fuel IH]; intros recno dfi card e card' H;
    [discriminate|].
  rewrite read_records_turn in H.
  assert (Hstop : forall e0,
            Done e0 (sent card (read_apdu (card_cla card) recno))
            = Done e card' ->
            card_cla card' = card_cla card).
  { now intros e0 [= _ <-]. }
  destruct (card_answer _ _) as [x | sw1 sw2 resp]; [now apply Hstop in H|].
  destruct (status_is sw1 sw2 0x6a 0x83); [now apply Hstop in H|].
  destruct (negb _); [now apply Hstop in H|].
  invert_bind H as u c Hstore. apply modify_dfi_cla in Hstore.
  apply IH in H. now rewrite H, Hstore.
Qed.

Lemma load_special_files_cla fuel card r card' :
  load_special_files fuel card = Done r card' ->
  card_cla card' = card_cla card.
Proof.
  intros H. unfold load_special_files in H.
  invert_bind H as x c Hrule. destruct x as [dfi e].
  assert (Hc : card_cla c = card_cla card).
  { unfold load_rule_file in Hrule.
    rewrite bind_DRVDATA in Hrule. invert_bind Hrule as u c0 Hassert.
    apply c_assert_Done in Hassert as [_ ->].
    invert_bind Hrule as dfi0 c1 Hget. apply get_df_info_wire in Hget as [_ Hget].
    invert_bind Hrule as cached c2 Hhas.
    assert (Hc2 : c2 = c1).
    { unfold has_rule_file in Hhas. destruct dfi0 as [i|].
      - invert_bind Hhas as d c3 Hderef. injection Hhas as _ <-.
        unfold deref in Hderef. rewrite bind_DRVDATA in Hderef.
        destruct (nth_error _ _); [|discriminate].
        now injection Hderef as _ <-.
      - now inversion Hhas. }
    subst c2. destruct cached; [now injection Hrule as _ _ <-|].
    invert_bind Hrule as u1 c3 Hclear.
    assert (Hc3 : card_cla c3 = card_cla c1).
    { unfold clear_special_files in Hclear. destruct dfi0 as [i|].
      - now apply modify_dfi_cla in Hclear.
      - now inversion Hclear. }
    invert_bind Hrule as y c4 Hsel. destruct y as [r0 f].
    apply do_select_wire in Hsel as [_ Hsel].
    destruct (SC_TEST_RET_returns r0).
    - injection Hrule as _ _ <-. congruence.
    - invert_bind Hrule as e0 c5 Hread. injection Hrule as _ _ <-.
      apply read_records_cla in Hread. congruence. }
  rewrite <- Hc. destruct e as [|r1]; [|now injection H as _ <-].
  unfold load_keyd_file in H. invert_bind H as y c1 Hsel.
  destruct y as [r0 f]. apply do_select_wire in Hsel as [_ Hsel].
  destruct (r0 =? SC_ERROR_FILE_NOT_FOUND); [now injection H as _ <-|].
  destruct (SC_TEST_RET_returns r0); [now injection H as _ <-|].
  invert_bind H as e c2 Hread. apply read_records_cla in Hread.
  assert (card' = c2) as -> by (destruct e; now injection H as _ <-).
  congruence.
Qed.

(** X15.  [mcrd_init] fails in one way only: when its allocation fails
    it returns SC_ERROR_OUT_OF_MEMORY and leaves the card handle as it was
    (the allocations made while the special files are loaded are taken to
    succeed, as everywhere in this development).
    Once the allocation has succeeded, whatever the card answers while the
    special files of the root are loaded, the function returns 0 with the
    root as the cached path, no EF current and class byte 00, unless the
    record loops do not end; and they end within [n + 1] turns on a card
    that does not deliver the record of number [n + 1], whatever it
    delivers for the numbers before. *)
Theorem mcrd_init_roots_the_session :
  (forall (fuel : nat) (card : sc_card),
     mcrd_init false fuel card = Done SC_ERROR_OUT_OF_MEMORY card)
  /\ (forall (fuel : nat) (card : sc_card),
        mcrd_init true fuel card = OutOfFuel
        \/ exists card',
             mcrd_init true fuel card = Done 0 card'
             /\ cached_path (drv_data card') = [MFID]
             /\ is_ef (drv_data card') = false
             /\ card_cla card' = 0)
  /\ (forall (n : Z) (fuel : nat) (card : sc_card),
        (forall trace cla sw1 sw2 resp,
           card_answer trace (read_apdu cla (n + 1)) = Answer sw1 sw2 resp ->
           ~ record_read sw1 sw2) ->
        0 <= n < Z.of_nat fuel ->
        exists card',
          mcrd_init true fuel card = Done 0 card'
          /\ cached_path (drv_data card') = [MFID]
          /\ is_ef (drv_data card') = false
          /\ card_cla card' = 0).
Proof.
  split; [reflexivity|]. split.
  - intros fuel card. unfold mcrd_init. cbn [negb].
    match goal with
    | |- context [bind _ _ ?c] =>
        destruct (load_special_files_safe fuel c eq_refl)
          as [Hout | (r & card' & Hrun & Hpos)]
    end.
    + discriminate.
    + left. unfold bind. now rewrite Hout.
    + right. exists card'. rewrite (bind_Done _ _ _ _ _ Hrun).
      split; [reflexivity|].
      apply position_inv in Hpos as (_ & _ & Hef & Hpath).
      split; [exact Hpath|]. split; [exact Hef|].
      now apply load_special_files_cla in Hrun.
  - intros n fuel card Hcard Hfuel. unfold mcrd_init. cbn [negb].
    match goal with
    | |- context [bind _ _ ?c] =>
        destruct (load_special_files_enough n fuel c Hcard Hfuel eq_refl)
          as (r & card' & Hrun & Hpos)
    end.
    + discriminate.
    + exists card'. rewrite (bind_Done _ _ _ _ _ Hrun).
      split; [reflexivity|].
      apply position_inv in Hpos as (_ & _ & Hef & Hpath).
      split; [exact Hpath|]. split; [exact Hef|].
      now apply load_special_files_cla in Hrun.
Qed.

(** ** A path resolved twice *)

Lemma select_down_loop_outcome df_only want_file :
  forall n pathptr found_ef file card e fe f card',
    select_down_loop n pathptr df_only want_file found_ef file card
    = Done (e, fe, f) card' ->
    match e with
    | Completed =>
        cached_path (drv_data card')
        = cached_path (drv_data card) ++ firstn n pathptr
        /\ curpathlen (drv_data card')
           = curpathlen (drv_data card) + Z.of_nat n
        /\ length (firstn n pathptr) = n
    | Returned r => r < 0
    end.
Proof.
  induction n as [|n IH]; intros pathptr found_ef file card e fe f card' H.
  - injection H as <- _ _ <-. rewrite app_nil_r. repeat split. lia.
  - cbn [select_down_loop] in H. rewrite bind_DRVDATA in H.
    destruct (_ && _) eqn:Hfull.
    { injection H as <- _ _ _. apply andb_true_iff in Hfull as [_ Hneg].
      now apply Z.ltb_lt in Hneg. }
    destruct pathptr as [|fid rest]; [discriminate|].
    invert_bind H as y c Htry. destruct y as [[r ef] f0].
    apply select_down_try_Done in Htry.
    destruct (position_inv _ _ Htry) as (Hcp & Hcl & _ & Hcached).
    unfold SC_TEST_RET_returns in H. destruct (r <? 0) eqn:Hneg.
    { injection H as <- _ _ _. now apply Z.ltb_lt in Hneg. }
    rewrite bind_DRVDATA in H.
    invert_bind H as u c1 Hset.
    unfold set_curpath_at in Hset. rewrite bind_DRVDATA in Hset.
    destruct (_ && _) eqn:Hidx in Hset; [|discriminate].
    injection Hset as _ <-.
    invert_bind H as u' c2 Hlen. injection Hlen as _ <-.
    apply andb_true_iff in Hidx as [H0 H1].
    apply Z.leb_le in H0. apply Z.ltb_lt in H1.
    apply IH in H. destruct e as [|r']; [|exact H].
    cbn [drv_data curpath curpathlen] in H.
    destruct H as (Hpath & Hlen & Hcells).
    unfold cached_path in Hpath at 2. cbn [curpath curpathlen] in Hpath.
    replace (Z.to_nat (curpathlen (drv_data c) + 1))
      with (S (Z.to_nat (curpathlen (drv_data c)))) in Hpath by lia.
    rewrite firstn_poke in Hpath by lia.
    fold (cached_path (drv_data c)) in Hpath.
    rewrite Hcached, <- app_assoc in Hpath.
    split; [exact Hpath|]. split; [lia|]. cbn [firstn length]. lia.
Qed.

Lemma select_down_succeeded fuel pathptr pathlen df_only want_file card f
    card' :
  PlatformOk P ->
  select_down fuel pathptr pathlen df_only want_file card = Done (0, f) card' ->
  cached_path (drv_data card')
  = cached_path (drv_data card) ++ firstn (Z.to_nat pathlen) pathptr
  /\ curpathlen (drv_data card')
     = curpathlen (drv_data card) + Z.of_nat (Z.to_nat pathlen)
  /\ length (firstn (Z.to_nat pathlen) pathptr) = Z.to_nat pathlen.
Proof.
  intros OK H. unfold select_down in H.
  destruct (pathlen =? 0).
  { injection H as H _ _. pose proof invalid_arguments_neg. lia. }
  invert_bind H as y c Hloop. destruct y as [[e fe] f0].
  apply select_down_loop_outcome in Hloop.
  destruct e as [|r]; [|injection H as -> _ _; lia].
  rewrite bind_set_is_ef in H. invert_bind H as u c1 Hload.
  injection H as _ <-.
  assert (Hpos : position c1
                 = (curpath (drv_data c), curpathlen (drv_data c), fe)).
  { destruct (negb fe).
    - invert_bind Hload as r c2 Hl. injection Hload as _ <-.
      now apply load_special_files_Done in Hl.
    - now injection Hload as _ <-. }
  unfold position in Hpos. injection Hpos as Hp1 Hp2 _.
  unfold cached_path at 1. rewrite Hp1, Hp2.
  fold (cached_path (drv_data c)). exact Hloop.
Qed.

Lemma common_prefix_full n :
  forall a b : list Z,
    common_prefix n a b = Z.of_nat n ->
    firstn n a = firstn n b /\ length (firstn n b) = n.
Proof.
  assert (Hle : forall n a b, 0 <= common_prefix n a b <= Z.of_nat n).
  { clear n. induction n as [|n IHn]; intros a b;
      [destruct a, b; cbn; lia|].
    destruct a as [|x a]; [cbn; lia|]. destruct b as [|y b]; [cbn; lia|].
    cbn [common_prefix]. specialize (IHn a b).
    destruct (x =? y); lia. }
  induction n as [|n IH]; intros a b H; [now split|].
  destruct a as [|x a]; [cbn in H; lia|].
  destruct b as [|y b]; [cbn in H; lia|].
  cbn [common_prefix] in H. destruct (x =? y) eqn:E; [|lia].
  apply Z.eqb_eq in E. subst y.
  destruct (IH a b) as [H1 H2]; [lia|].
  cbn [firstn length]. now rewrite H1, H2.
Qed.

Lemma firstn_last_cell (l : list Z) :
  forall k, firstn (S k) l = firstn k l ++ firstn 1 (skipn k l).
Proof.
  induction l as [|x l IH]; intros [|k]; try reflexivity.
  cbn [firstn skipn app]. now rewrite <- IH.
Qed.

Lemma select_file_by_path_resolved fuel pathptr pathlen want_file card f
    card' :
  PlatformOk P ->
  1 < pathlen ->
  nth 0 pathptr 0 = MFID ->
  select_file_by_path fuel pathptr pathlen want_file card = Done (0, f) card' ->
  cached_path (drv_data card') = firstn (Z.to_nat pathlen) pathptr
  /\ curpathlen (drv_data card') = pathlen
  /\ length (cached_path (drv_data card')) = Z.to_nat pathlen.
Proof.
  intros OK Hlen Hroot H.
  assert (Hrestart : forall df_only c,
            restart_at_root fuel pathptr pathlen df_only want_file c
            = Done (0, f) card' ->
            cached_path (drv_data card') = firstn (Z.to_nat pathlen) pathptr
            /\ curpathlen (drv_data card') = pathlen
            /\ length (cached_path (drv_data card')) = Z.to_nat pathlen).
  { intros df_only c Hr. unfold restart_at_root in Hr.
    rewrite bind_set_curpathlen, bind_set_is_ef in Hr.
    apply select_down_succeeded in Hr as (H1 & H2 & H3); [|exact OK].
    cbn [drv_data curpathlen curpath] in H1, H2.
    unfold cached_path in H1 at 2. cbn [curpathlen curpath firstn app] in H1.
    rewrite H1. split; [reflexivity|]. split; [lia | exact H3]. }
  unfold select_file_by_path in H. rewrite bind_DRVDATA in H.
  invert_bind H as u c Hassert. apply c_assert_Done in Hassert as [_ ->].
  destruct pathptr as [|p0 rest]; [cbn in Hroot; discriminate Hroot|].
  cbn [nth] in Hroot. subst p0.
  change (MFID =? 0x3FFF) with false in H. rewrite andb_false_r in H.
  replace ((pathlen =? 0) || (MAX_CURPATH <=? pathlen))
    with (MAX_CURPATH <=? pathlen) in H
    by (replace (pathlen =? 0) with false
          by (symmetry; apply Z.eqb_neq; lia); reflexivity).
  destruct (MAX_CURPATH <=? pathlen).
  { injection H as H _ _. pose proof invalid_arguments_neg. lia. }
  unfold first_cell in H. rewrite bind_ret in H.
  replace (pathlen =? 1) with false in H
    by (symmetry; apply Z.eqb_neq; lia).
  replace (1 <? pathlen) with true in H by (symmetry; apply Z.ltb_lt; lia).
  rewrite Z.eqb_refl in H. cbn [andb] in H.
  destruct (curpathlen (drv_data card) =? 0); [now apply Hrestart in H|].
  destruct (_ && _); [now apply Hrestart in H|].
  destruct (_ && _) eqn:Hsame; [|now apply Hrestart in H].
  apply andb_true_iff in Hsame as [Hi1 Hi2].
  apply Z.eqb_eq in Hi1, Hi2.
  assert (Hcur : curpathlen (drv_data card) = pathlen) by lia.
  rewrite Hcur, Nat.min_id in Hi1.
  rewrite <- (Z2Nat.id pathlen) in Hi1 at 2 by lia.
  apply common_prefix_full in Hi1 as [Heq Hcells].
  assert (Hcached : cached_path (drv_data card)
                    = firstn (Z.to_nat pathlen) (MFID :: rest)).
  { unfold cached_path. now rewrite Hcur. }
  destruct (negb want_file).
  { injection H as _ <-. split; [exact Hcached|]. split; [exact Hcur|].
    rewrite Hcached, Heq. exact Hcells. }
  invert_bind H as u' c Hassert. apply c_assert_Done in Hassert as [_ ->].
  rewrite bind_set_curpathlen, bind_set_is_ef in H.
  apply select_down_succeeded in H as (H1 & H2 & H3); [|exact OK].
  cbn [drv_data curpathlen curpath] in H1, H2.
  unfold cached_path in H1 at 2. cbn [curpathlen curpath] in H1.
  change (Z.to_nat 1) with 1%nat in H1, H2, H3.
  rewrite Hcur in H1, H2.
  assert (Hk : Z.to_nat pathlen = S (Z.to_nat (pathlen - 1))) by lia.
  assert (Hshort : firstn (Z.to_nat (pathlen - 1)) (curpath (drv_data card))
                   = firstn (Z.to_nat (pathlen - 1)) (MFID :: rest)).
  { rewrite Hk in Heq.
    apply (f_equal (firstn (Z.to_nat (pathlen - 1)))) in Heq.
    rewrite !firstn_firstn in Heq.
    replace (Nat.min (Z.to_nat (pathlen - 1)) (S (Z.to_nat (pathlen - 1))))
      with (Z.to_nat (pathlen - 1)) in Heq by lia.
    now symmetry. }
  rewrite Hshort, <- firstn_last_cell, <- Hk in H1.
  split; [exact H1|]. split; [lia|].
  rewrite H1, Heq. exact Hcells.
Qed.

(** X16.  An absolute path that has been resolved with success is the
    cached path afterwards, component by component, and resolving it again
    without asking for the descriptor returns 0 without sending anything
    and without changing the card handle. *)
Theorem mcrd_select_file_twice :
  forall (fuel fuel' : nat) (path : sc_path) (want_file : bool) (n : Z)
         (card : sc_card) (f : option sc_file) (card' : sc_card),
    PlatformOk P ->
    path_type path = SC_PATH_TYPE_PATH ->
    path_len path = 2 * n ->
    1 < n < MAX_CURPATH ->
    n <= SC_MAX_PATH_SIZE / 2 ->
    fid_at (path_value path) 0 = MFID ->
    mcrd_select_file fuel path want_file card = Done (0, f) card' ->
    cached_path (drv_data card')
    = map (fun k => fid_at (path_value path) (2 * k)) (seq 0 (Z.to_nat n))
    /\ mcrd_select_file fuel' path false card' = Done (0, None) card'.
Proof.
  intros fuel fuel' path want_file n card f card' OK Hty Hlen Hn Hfit Hfid H.
  assert (Hguard : negb (Z.land (path_len path) 1 =? 0)
                   || (2 * (SC_MAX_PATH_SIZE / 2) <? path_len path) = false).
  { rewrite Hlen, land_1_odd, Z.odd_mul. cbn [Z.odd andb Z.eqb negb orb].
    apply Z.ltb_ge. lia. }
  assert (Hhalf : Z.shiftr (path_len path) 1 = n).
  { rewrite Z.shiftr_div_pow2, Hlen by lia. change (2 ^ 1) with 2.
    rewrite Z.mul_comm. apply Z.div_mul. lia. }
  assert (Hfirst : nth 0 (fill_pathtmp (path_value path) (path_len path)) 0
                   = MFID).
  { destruct (fill_pathtmp_first (path_value path) (path_len path))
      as (rest & ->); [lia|]. exact Hfid. }
  unfold mcrd_select_file in *. rewrite Hty, Hguard, Hhalf in *.
  apply select_file_by_path_resolved in H as (H1 & H2 & H3);
    [|exact OK | lia | exact Hfirst].
  assert (Hreq : firstn (Z.to_nat n)
                        (fill_pathtmp (path_value path) (path_len path))
                 = map (fun k => fid_at (path_value path) (2 * k))
                       (seq 0 (Z.to_nat n))).
  { rewrite Hlen. apply firstn_fill_pathtmp. lia. }
  split; [now rewrite H1|].
  apply select_file_by_path_cached; try assumption.
  now symmetry.
Qed.

(** ** A file identifier relative to the current directory *)

Lemma select_down_one fuel fid rest want_file card r f card' :
  PlatformOk P ->
  select_down fuel (fid :: rest) 1 false want_file card = Done (r, f) card' ->
  (r = 0
   /\ cached_path (drv_data card') = cached_path (drv_data card) ++ [fid])
  \/ (r < 0 /\ position card' = position card).
Proof.
  intros OK H.
  destruct (Z.eq_dec r 0) as [-> | Hr].
  - left. split; [reflexivity|].
    now apply select_down_succeeded in H as (H1 & _ & _).
  - right. unfold select_down in H. change (1 =? 0) with false in H.
    cbv iota in H. change (Z.to_nat 1) with 1%nat in H.
    invert_bind H as y c Hloop. destruct y as [[e fe] f0].
    destruct e as [|r0].
    { exfalso. rewrite bind_set_is_ef in H. invert_bind H as u c1 Hload.
      now injection H as <- _ _. }
    injection H as <- _ <-.
    pose proof (select_down_loop_outcome _ _ _ _ _ _ _ _ _ _ _ Hloop) as Hneg.
    split; [exact Hneg|].
    rewrite select_down_loop_turn in Hloop.
    destruct (_ && _); [now injection Hloop as _ _ _ <-|].
    invert_bind Hloop as y c1 Htry. destruct y as [[r1 ef] f1].
    apply select_down_try_Done in Htry.
    destruct (SC_TEST_RET_returns r1); [now injection Hloop as _ _ _ <-|].
    exfalso. rewrite bind_DRVDATA in Hloop.
    invert_bind Hloop as u c2 Hset. invert_bind Hloop as u' c3 Hlen.
    discriminate Hloop.
Qed.

(** X17.  A file identifier other than 3F00 and 3FFF is looked up in the
    current directory: when the current file is an EF the cached path is
    first shortened to its directory.  On success the identifier is
    appended to that directory's path; on failure the cached path stays
    at that directory and no EF is current. *)
Theorem select_file_by_fid_relative :
  forall (fuel : nat) (fid : Z) (rest : list Z) (want_file : bool)
         (card : sc_card) (r : Z) (f : option sc_file) (card' : sc_card),
    PlatformOk P ->
    curpathlen (drv_data card) <> 0 ->
    fid <> MFID ->
    fid <> 0x3FFF ->
    select_file_by_fid fuel (fid :: rest) 1 want_file card
    = Done (r, f) card' ->
    let directory :=
      if is_ef (drv_data card)
      then firstn (Z.to_nat (curpathlen (drv_data card) - 1))
                  (curpath (drv_data card))
      else cached_path (drv_data card) in
    (r = 0 /\ cached_path (drv_data card') = directory ++ [fid])
    \/ (r < 0
        /\ cached_path (drv_data card') = directory
        /\ is_ef (drv_data card') = false).
Proof.
  intros fuel fid rest want_file card r f card' OK Hcur Hmf Hff H directory.
  unfold select_file_by_fid in H. rewrite bind_DRVDATA in H.
  invert_bind H as u c Hassert. apply c_assert_Done in Hassert as [_ ->].
  change (1 <? 1) with false in H. change (1 =? 0) with false in H.
  cbn [negb andb] in H.
  replace (fid =? 0x3FFF) with false in H
    by (symmetry; now apply Z.eqb_neq).
  unfold first_cell in H. rewrite bind_ret in H.
  replace (fid =? MFID) with false in H by (symmetry; now apply Z.eqb_neq).
  unfold relative_addressing in H. rewrite bind_DRVDATA in H.
  replace (curpathlen (drv_data card) =? 0) with false in H
    by (symmetry; now apply Z.eqb_neq).
  rewrite bind_ret, bind_DRVDATA in H. subst directory.
  destruct (is_ef (drv_data card)) eqn:Hef.
  - rewrite !bind_assoc in H. invert_bind H as u' c Hassert.
    apply c_assert_Done in Hassert as [_ ->].
    rewrite bind_assoc, bind_set_curpathlen, bind_set_is_ef in H.
    invert_bind H as y c Hdown. destruct y as [r0 f0]. injection H as <- _ <-.
    apply select_down_one in Hdown as [[-> Hpath] | [Hneg Hpos]];
      [| | exact OK].
    + left. split; [reflexivity|]. exact Hpath.
    + right. split; [exact Hneg|].
      apply position_inv in Hpos as (_ & _ & Hef' & Hpath).
      split; [exact Hpath | exact Hef'].
  - rewrite bind_ret in H.
    invert_bind H as y c Hdown. destruct y as [r0 f0]. injection H as <- _ <-.
    apply select_down_one in Hdown as [[-> Hpath] | [Hneg Hpos]];
      [| | exact OK].
    + left. split; [reflexivity|]. exact Hpath.
    + right. split; [exact Hneg|].
      apply position_inv in Hpos as (_ & _ & Hef' & Hpath).
      split; [exact Hpath | congruence].
Qed.

(** ** The descriptor of a selected file *)

Ltac split_matches :=
  repeat match goal with
         | |- context [match ?x with _ => _ end] => destruct x
         end;
  cbn; auto.

Lemma fcp_file_identifier_rest f buf :
  file_size (fcp_file_identifier f buf) = file_size f
  /\ file_name (fcp_file_identifier f buf) = file_name f
  /\ file_namelen (fcp_file_identifier f buf) = file_namelen f
  /\ file_prop_attr (fcp_file_identifier f buf) = file_prop_attr f
  /\ file_prop_attr_len (fcp_file_identifier f buf) = file_prop_attr_len f.
Proof. unfold fcp_file_identifier. split_matches. Qed.

Lemma fcp_size_rest f buf :
  file_name (fcp_size f buf) = file_name f
  /\ file_namelen (fcp_size f buf) = file_namelen f
  /\ file_prop_attr (fcp_size f buf) = file_prop_attr f
  /\ file_prop_attr_len (fcp_size f buf) = file_prop_attr_len f.
Proof. unfold fcp_size, size_from. split_matches. Qed.

Lemma fcp_descriptor_rest f buf :
  file_size (fcp_descriptor f buf) = file_size f
  /\ file_name (fcp_descriptor f buf) = file_name f
  /\ file_namelen (fcp_descriptor f buf) = file_namelen f
  /\ file_prop_attr (fcp_descriptor f buf) = file_prop_attr f
  /\ file_prop_attr_len (fcp_descriptor f buf) = file_prop_attr_len f.
Proof. unfold fcp_descriptor. split_matches. Qed.

Lemma fcp_df_name_rest f buf :
  file_size (fcp_df_name f buf) = file_size f
  /\ file_prop_attr (fcp_df_name f buf) = file_prop_attr f
  /\ file_prop_attr_len (fcp_df_name f buf) = file_prop_attr_len f.
Proof. unfold fcp_df_name. split_matches. Qed.

Lemma fcp_prop_info_rest f buf :
  file_size (fcp_prop_info f buf) = file_size f
  /\ file_name (fcp_prop_info f buf) = file_name f
  /\ file_namelen (fcp_prop_info f buf) = file_namelen f.
Proof. unfold fcp_prop_info. split_matches. Qed.

Lemma fcp_prop_info_constructed_rest f buf :
  file_size (fcp_prop_info_constructed f buf) = file_size f
  /\ file_name (fcp_prop_info_constructed f buf) = file_name f
  /\ file_namelen (fcp_prop_info_constructed f buf) = file_namelen f.
Proof. unfold fcp_prop_info_constructed. split_matches. Qed.

Lemma fcp_sec_attr_rest f buf :
  file_size (fcp_sec_attr f buf) = file_size f
  /\ file_name (fcp_sec_attr f buf) = file_name f
  /\ file_namelen (fcp_sec_attr f buf) = file_namelen f
  /\ file_prop_attr (fcp_sec_attr f buf) = file_prop_attr f
  /\ file_prop_attr_len (fcp_sec_attr f buf) = file_prop_attr_len f.
Proof. unfold fcp_sec_attr. split_matches. Qed.

Lemma process_fcp_value file buf card file' card' :
  process_fcp file buf card = Done file' card' ->
  file' = with_magic
            (fcp_sec_attr
               (fcp_prop_info_constructed
                  (fcp_prop_info
                     (fcp_df_name
                        (fcp_descriptor
                           (fcp_size (fcp_file_identifier file buf) buf)
                           buf) buf) buf) buf) buf).
Proof.
  unfold process_fcp. intros H. invert_bind H as u c Harr.
  now injection H as <- _.
Qed.

Lemma process_fcp_name file buf card file' card' :
  process_fcp file buf card = Done file' card' ->
  file_namelen file = Z.of_nat (length (file_name file)) ->
  file_namelen file <= 16 ->
  file_namelen file' = Z.of_nat (length (file_name file'))
  /\ file_namelen file' <= 16.
Proof.
  intros H Hlen Hfit. apply process_fcp_value in H. subst file'.
  cbn [with_magic file_name file_namelen].
  destruct (fcp_sec_attr_rest
              (fcp_prop_info_constructed
                 (fcp_prop_info
                    (fcp_df_name
                       (fcp_descriptor
                          (fcp_size (fcp_file_identifier file buf) buf)
                          buf) buf) buf) buf) buf)
    as (_ & -> & -> & _).
  destruct (fcp_prop_info_constructed_rest
              (fcp_prop_info
                 (fcp_df_name
                    (fcp_descriptor
                       (fcp_size (fcp_file_identifier file buf) buf)
                       buf) buf) buf) buf)
    as (_ & -> & ->).
  destruct (fcp_prop_info_rest
              (fcp_df_name
                 (fcp_descriptor
                    (fcp_size (fcp_file_identifier file buf) buf)
                    buf) buf) buf)
    as (_ & -> & ->).
  destruct (fcp_descriptor_rest
              (fcp_size (fcp_file_identifier file buf) buf) buf)
    as (_ & Hn1 & Hl1 & _).
  destruct (fcp_size_rest (fcp_file_identifier file buf) buf)
    as (Hn2 & Hl2 & _).
  destruct (fcp_file_identifier_rest file buf) as (_ & Hn3 & Hl3 & _).
  unfold fcp_df_name.
  destruct (sc_asn1_find_tag buf 0x84) as [[|t0 t]|];
    try (rewrite Hn1, Hl1, Hn2, Hl2, Hn3, Hl3; now split).
  destruct (Z.of_nat (length (t0 :: t)) <=? 16) eqn:Hshort.
  - cbn [with_name file_name file_namelen]. split; [reflexivity|].
    now apply Z.leb_le.
  - rewrite Hn1, Hl1, Hn2, Hl2, Hn3, Hl3. now split.
Qed.

(** X18.  [do_select] hands out a descriptor exactly when one was asked
    for and the result is 0; the name of a descriptor it hands out has at
    most the 16 bytes the field can hold, and its length is the recorded
    name length. *)
Theorem do_select_delivers_a_descriptor :
  forall (kind : Z) (buf : list Z) (want_file : bool) (card : sc_card)
         (r : Z) (f : option sc_file) (card' : sc_card),
    PlatformOk P ->
    do_select kind buf want_file card = Done (r, f) card' ->
    (f <> None <-> want_file = true /\ r = 0)
    /\ (forall file,
          f = Some file ->
          file_namelen file = Z.of_nat (length (file_name file))
          /\ 0 <= file_namelen file <= 16).
Proof.
  intros kind buf want_file card r f card' OK H.
  pose proof unknown_data_neg as Hunknown.
  unfold do_select in H. invert_bind H as ans c Htx.
  assert (Hnone : forall r0 c0,
            (want_file = true -> r0 <> 0) ->
            Done (r0, @None sc_file) c0 = Done (r, f) card' ->
            (f <> None <-> want_file = true /\ r = 0)
            /\ (forall file,
                  f = Some file ->
                  file_namelen file = Z.of_nat (length (file_name file))
                  /\ 0 <= file_namelen file <= 16)).
  { intros r0 c0 Hr0 [= <- <- _]. split; [|discriminate].
    split; [congruence|]. intros [Hw Hz]. now apply Hr0 in Hw. }
  destruct ans as [e | sw1 sw2 resp].
  { apply (Hnone (Z.neg e) c); [lia | exact H]. }
  destruct want_file; cbn [negb] in H.
  - destruct (sc_check_sw sw1 sw2 =? 0) eqn:Hsw; cbn [negb] in H.
    + destruct (_ =? 0x6F).
      * invert_bind H as file c1 Hfcp. injection H as <- <- _.
        split; [split; [auto | discriminate]|].
        intros file' [= <-].
        assert (Hfile : file_namelen file
                        = Z.of_nat (length (file_name file))
                        /\ file_namelen file <= 16).
        { destruct (_ <=? _).
          - apply process_fcp_name in Hfcp; [exact Hfcp | reflexivity |].
            cbn. lia.
          - injection Hfcp as <- _. cbn. split; [reflexivity | lia]. }
        destruct Hfile as [Hl Hfit]. split; [exact Hl|]. lia.
      * apply (Hnone SC_ERROR_UNKNOWN_DATA_RECEIVED c); [lia | exact H].
    + apply Z.eqb_neq in Hsw.
      apply (Hnone (sc_check_sw sw1 sw2) c); [auto | exact H].
  - assert (Hno : false = true -> r <> 0) by discriminate.
    destruct (sw1 =? 0x61).
    + injection H as <- <- _. split; [|discriminate].
      split; [congruence | now intros [? _]].
    + invert_bind H as u c1 Hset. injection H as <- <- _.
      split; [|discriminate].
      split; [congruence | now intros [? _]].
Qed.

(** X19.  When a descriptor has no object 81 but an object 85,
    [process_fcp] takes the file size from the first two bytes of 85,
    does not look at object 80, and does not keep 85 as proprietary
    attributes: unless a constructed object A5 supplies them, the
    attribute length is 0 and the attribute bytes are the ones the
    descriptor had. *)
Theorem process_fcp_size_from_the_extension :
  forall (file : sc_file) (buf t : list Z) (card : sc_card)
         (file' : sc_file) (card' : sc_card),
    sc_asn1_find_tag buf 0x81 = None ->
    sc_asn1_find_tag buf 0x85 = Some t ->
    process_fcp file buf card = Done file' card' ->
    file_size file'
    = match t with
      | t0 :: t1 :: _ => Z.shiftl t0 8 + t1
      | _ => file_size file
      end
    /\ (match sc_asn1_find_tag buf 0xA5 with
        | Some (_ :: _) => False
        | _ => True
        end ->
        file_prop_attr_len file' = 0
        /\ file_prop_attr file' = file_prop_attr file).
Proof.
  intros file buf t card file' card' H81 H85 H.
  apply process_fcp_value in H. subst file'.
  cbn [with_magic file_size file_prop_attr file_prop_attr_len].
  match goal with
  | |- context [fcp_sec_attr ?g buf] =>
      destruct (fcp_sec_attr_rest g buf) as (-> & _ & _ & -> & ->)
  end.
  split.
  - match goal with
    | |- context [fcp_prop_info_constructed ?g buf] =>
        destruct (fcp_prop_info_constructed_rest g buf) as (-> & _)
    end.
    match goal with
    | |- context [fcp_prop_info ?g buf] =>
        destruct (fcp_prop_info_rest g buf) as (-> & _)
    end.
    match goal with
    | |- context [fcp_df_name ?g buf] =>
        destruct (fcp_df_name_rest g buf) as (-> & _)
    end.
    match goal with
    | |- context [fcp_descriptor ?g buf] =>
        destruct (fcp_descriptor_rest g buf) as (-> & _)
    end.
    unfold fcp_size, fcp_size_tag. rewrite H81, H85. unfold size_from.
    destruct t as [|t0 [|t1 more]]; try reflexivity;
      apply fcp_file_identifier_rest.
  - intros HA5. unfold fcp_prop_info_constructed.
    assert (Hbad : fcp_bad_fde buf = true)
      by (unfold fcp_bad_fde; now rewrite H81, H85).
    destruct (sc_asn1_find_tag buf 0xA5) as [[|a0 a]|]; [| contradiction |];
      unfold fcp_prop_info; rewrite Hbad;
      cbn [with_prop_attr_len file_prop_attr file_prop_attr_len];
      (split; [reflexivity|]);
      match goal with
      | |- context [fcp_df_name ?g buf] =>
          destruct (fcp_df_name_rest g buf) as (_ & -> & _)
      end;
      match goal with
      | |- context [fcp_descriptor ?g buf] =>
          destruct (fcp_descriptor_rest g buf) as (_ & _ & _ & -> & _)
      end;
      match goal with
      | |- context [fcp_size ?g buf] =>
          destruct (fcp_size_rest g buf) as (_ & _ & -> & _)
      end;
      apply fcp_file_identifier_rest.
Qed.

(** ** Requests answered without the card *)

(** X20.  Three requests by file identifier are answered without a
    command and without a change of the card handle: the identifier 3FFF
    gives 0, and no descriptor even when one is asked for; the empty
    identifier gives 0 when no descriptor is asked for, and
    SC_ERROR_INTERNAL when one is asked for and nothing is selected. *)
Theorem mcrd_select_file_answers_without_the_card :
  forall (fuel : nat) (path : sc_path) (want_file : bool) (card : sc_card),
    rooted card ->
    path_type path = SC_PATH_TYPE_FILE_ID ->
    0 <= path_len path <= 2 * (SC_MAX_PATH_SIZE / 2) ->
    (path_len path = 2 ->
     fid_at (path_value path) 0 = 0x3FFF ->
     mcrd_select_file fuel path want_file card = Done (0, None) card)
    /\ (path_len path = 0 ->
        want_file = false ->
        mcrd_select_file fuel path want_file card = Done (0, None) card)
    /\ (path_len path = 0 ->
        want_file = true ->
        curpathlen (drv_data card) = 0 ->
        mcrd_select_file fuel path want_file card
        = Done (SC_ERROR_INTERNAL, None) card).
Proof.
  intros fuel path want_file card Hroot Hty Hfit.
  apply rooted_assert in Hroot.
  assert (Hlong : (2 * (SC_MAX_PATH_SIZE / 2) <? path_len path) = false)
    by (apply Z.ltb_ge; lia).
  unfold mcrd_select_file. rewrite Hty, Hlong.
  split; [|split]; intros Hlen; rewrite Hlen in *;
    try change (Z.land 2 1) with 0; try change (Z.land 0 1) with 0;
    try change (Z.shiftr 2 1) with 1; try change (Z.shiftr 0 1) with 0;
    cbn [Z.eqb negb orb];
    unfold select_file_by_fid; rewrite bind_DRVDATA, Hroot;
    cbn [c_assert]; rewrite bind_ret.
  - intros Hfid.
    destruct (fill_pathtmp_first (path_value path) 2) as (rest & ->); [lia|].
    rewrite Hfid. reflexivity.
  - intros ->. reflexivity.
  - intros -> Hcur. rewrite Hcur. reflexivity.
Qed.

(** ** The directory entries that hold rule records *)

Lemma nth_error_update_nth_other {A} (f : A -> A) :
  forall (l : list A) (i j : nat),
    i <> j -> nth_error (update_nth l i f) j = nth_error l j.
Proof.
  induction l as [|h t IH]; intros [|i] [|j] Hij; cbn; auto.
  contradiction.
Qed.

Lemma modify_dfi_others dfi f card u card' :
  modify_dfi dfi f card = Done u card' ->
  forall j, dfi <> Some j ->
    nth_error (df_infos (drv_data card')) j
    = nth_error (df_infos (drv_data card)) j.
Proof.
  unfold modify_dfi, deref. rewrite bind_assoc, bind_DRVDATA.
  destruct dfi as [i|]; [|discriminate].
  destruct (nth_error _ _); [|discriminate].
  rewrite bind_ret, bind_DRVDATA. intros [= _ <-] j Hj. cbn.
  apply nth_error_update_nth_other. congruence.
Qed.

Lemma read_records_others which fuel :
  forall recno dfi card e card',
    read_records which fuel recno dfi card = Done e card' ->
    forall j, dfi <> Some j ->
      nth_error (df_infos (drv_data card')) j
      = nth_error (df_infos (drv_data card)) j.
Proof.
  induction fuel as [|fuel IH]; intros recno dfi card e card' H j Hj;
    [discriminate|].
  rewrite read_records_turn in H.
  assert (Hstop : forall e0,
            Done e0 (sent card (read_apdu (card_cla card) recno))
            = Done e card' ->
            nth_error (df_infos (drv_data card')) j
            = nth_error (df_infos (drv_data card)) j).
  { now intros e0 [= _ <-]. }
  destruct (card_answer _ _) as [x | sw1 sw2 resp]; [now apply Hstop in H|].
  destruct (status_is sw1 sw2 0x6a 0x83); [now apply Hstop in H|].
  destruct (negb _); [now apply Hstop in H|].
  invert_bind H as u c Hstore. unfold store_record in Hstore.
  rewrite (IH _ _ _ _ _ H j Hj).
  now rewrite (modify_dfi_others _ _ _ _ _ Hstore j Hj).
Qed.

Section Loaded.
Variable d : df_info_s.
Hypothesis Hd : rule_file d <> [].

Lemma get_df_info_keeps card dfi card' :
  In d (df_infos (drv_data card)) ->
  get_df_info card = Done dfi card' ->
  In d (df_infos (drv_data card')).
Proof.
  intros Hin. unfold get_df_info, bind, DRVDATA, c_assert.
  destruct (negb (is_ef (drv_data card))); cbn; [|discriminate].
  destruct (curpathlen (drv_data card) =? 0); cbn.
  - now intros [= _ <-].
  - destruct (find_df_info _ _); cbn; intros [= _ <-]; [exact Hin|].
    cbn. now right.
Qed.

Lemma process_fcp_keeps file buf card file' card' :
  In d (df_infos (drv_data card)) ->
  process_fcp file buf card = Done file' card' ->
  In d (df_infos (drv_data card')).
Proof.
  intros Hin.
  assert (Harr : forall t c u c', c = card ->
            process_arr t c = Done u c' -> In d (df_infos (drv_data c'))).
  { intros t c u c' ->. unfold process_arr. destruct (negb _).
    - now intros [= _ <-].
    - intros H. invert_bind H as dfi c0 Hget. injection H as _ <-.
      now apply get_df_info_keeps in Hget. }
  unfold process_fcp. intros H. invert_bind H as u c Hfcp.
  injection H as _ <-. unfold fcp_arr in Hfcp.
  destruct (sc_asn1_find_tag buf 0x8B) as [[|? ?]|];
    try (now apply (Harr _ _ _ _ eq_refl) in Hfcp);
    (destruct (sc_asn1_find_tag buf 0xA1) as [[|? ?]|];
     [now injection Hfcp as _ <- | | now injection Hfcp as _ <-];
     match type of Hfcp with
     | context [sc_asn1_find_tag ?t 0x8B] =>
         destruct (sc_asn1_find_tag t 0x8B) as [[|? ?]|]
     end;
     try (now apply (Harr _ _ _ _ eq_refl) in Hfcp);
     now injection Hfcp as _ <-).
Qed.

Lemma do_select_keeps kind buf want_file card x card' :
  In d (df_infos (drv_data card)) ->
  do_select kind buf want_file card = Done x card' ->
  In d (df_infos (drv_data card')).
Proof.
  intros Hin H. unfold do_select in H. invert_bind H as ans c Htx.
  assert (Hc : In d (df_infos (drv_data c))).
  { unfold sc_transmit_apdu in Htx. now injection Htx as _ <-. }
  clear Htx Hin.
  destruct ans as [e | sw1 sw2 resp]; [now injection H as _ <-|].
  destruct (negb want_file).
  - destruct (sw1 =? 0x61); [now injection H as _ <-|].
    invert_bind H as u c1 Hset. injection H as _ <-.
    destruct (_ && _); now injection Hset as _ <-.
  - destruct (negb _); [now injection H as _ <-|].
    destruct (_ =? 0x6F); [|now injection H as _ <-].
    invert_bind H as file c1 Hfcp. injection H as _ <-.
    destruct (_ <=? _).
    + now apply process_fcp_keeps in Hfcp.
    + now injection Hfcp as _ <-.
Qed.

Lemma select_down_try_keeps fid last df_only want_file card x card' :
  In d (df_infos (drv_data card)) ->
  select_down_try fid last df_only want_file card = Done x card' ->
  In d (df_infos (drv_data card')).
Proof.
  intros Hin H. unfold select_down_try, select_part in H.
  destruct (_ && _).
  - invert_bind H as y c Hsel. destruct y as [r f].
    apply do_select_keeps in Hsel; [|exact Hin].
    destruct (r =? 0); [now injection H as _ <-|].
    invert_bind H as y c1 Hsel1. destruct y as [r1 f1].
    injection H as _ <-. now apply do_select_keeps in Hsel1.
  - invert_bind H as y c Hsel. destruct y as [r f].
    injection H as _ <-. now apply do_select_keeps in Hsel.
Qed.

Lemma load_special_files_keeps fuel card r card' :
  In d (df_infos (drv_data card)) ->
  load_special_files fuel card = Done r card' ->
  In d (df_infos (drv_data card')).
Proof.
  intros Hin H. unfold load_special_files in H.
  invert_bind H as x c Hrule. destruct x as [dfi e].
  unfold load_rule_file in Hrule.
  rewrite bind_DRVDATA in Hrule. invert_bind Hrule as u c0 Hassert.
  apply c_assert_Done in Hassert as [_ ->].
  invert_bind Hrule as dfi0 c1 Hget.
  apply get_df_info_keeps in Hget; [|exact Hin].
  invert_bind Hrule as cached c2 Hhas.
  apply In_nth_error in Hget as (j & Hj).
  assert (Hc2 : c2 = c1
                /\ (cached = false -> dfi0 <> Some j)).
  { unfold has_rule_file in Hhas. destruct dfi0 as [i|].
    - invert_bind Hhas as d0 c3 Hderef. injection Hhas as <- <-.
      unfold deref in Hderef. rewrite bind_DRVDATA in Hderef.
      destruct (nth_error (df_infos (drv_data c1)) i) as [d1|] eqn:Hi;
        [|discriminate].
      injection Hderef as <- <-. split; [reflexivity|].
      intros Hnone [= ->]. rewrite Hj in Hi. injection Hi as <-.
      destruct (rule_file d); [now apply Hd | discriminate].
    - injection Hhas as _ <-. split; [reflexivity | discriminate]. }
  destruct Hc2 as [-> Hother].
  destruct cached.
  { injection Hrule as <- <- <-. injection H as _ <-.
    now apply nth_error_In in Hj. }
  specialize (Hother eq_refl).
  invert_bind Hrule as u1 c3 Hclear.
  assert (Hj3 : nth_error (df_infos (drv_data c3)) j = Some d).
  { unfold clear_special_files in Hclear. destruct dfi0 as [i|].
    - now rewrite (modify_dfi_others _ _ _ _ _ Hclear j Hother).
    - now injection Hclear as _ <-. }
  invert_bind Hrule as y c4 Hsel. destruct y as [r0 f].
  apply select_part_without_file in Hsel as (Hdrv & _ & _).
  assert (Hjc : dfi = dfi0 /\ nth_error (df_infos (drv_data c)) j = Some d).
  { destruct (SC_TEST_RET_returns r0).
    - injection Hrule as <- _ <-. now rewrite Hdrv.
    - invert_bind Hrule as e0 c5 Hread. injection Hrule as <- _ <-.
      split; [reflexivity|].
      rewrite (read_records_others _ _ _ _ _ _ _ Hread j Hother).
      now rewrite Hdrv. }
  destruct Hjc as [-> Hjc].
  destruct e as [|r1].
  - unfold load_keyd_file in H. invert_bind H as y c5 Hsel5.
    destruct y as [r5 f5].
    apply select_part_without_file in Hsel5 as (Hdrv5 & _ & _).
    assert (Hj5 : nth_error (df_infos (drv_data c5)) j = Some d)
      by now rewrite Hdrv5.
    destruct (r5 =? SC_ERROR_FILE_NOT_FOUND).
    { injection H as _ <-. now apply nth_error_In in Hj5. }
    destruct (SC_TEST_RET_returns r5).
    { injection H as _ <-. now apply nth_error_In in Hj5. }
    invert_bind H as e c6 Hread.
    assert (card' = c6) as -> by (destruct e; now injection H as _ <-).
    apply (nth_error_In _ j).
    now rewrite (read_records_others _ _ _ _ _ _ _ Hread j Hother).
  - injection H as _ <-. now apply nth_error_In in Hjc.
Qed.

Lemma select_down_loop_keeps df_only want_file :
  forall n pathptr found_ef file card x card',
    In d (df_infos (drv_data card)) ->
    select_down_loop n pathptr df_only want_file found_ef file card
    = Done x card' ->
    In d (df_infos (drv_data card')).
Proof.
  induction n as [|n IH]; intros pathptr found_ef file card x card' Hin H.
  - now injection H as _ <-.
  - cbn [select_down_loop] in H. rewrite bind_DRVDATA in H.
    destruct (_ && _); [now injection H as _ <-|].
    destruct pathptr as [|fid rest]; [discriminate|].
    invert_bind H as y c Htry. destruct y as [[r ef] f].
    apply select_down_try_keeps in Htry; [|exact Hin].
    destruct (SC_TEST_RET_returns r); [now injection H as _ <-|].
    rewrite bind_DRVDATA in H.
    invert_bind H as u c1 Hset.
    unfold set_curpath_at in Hset. rewrite bind_DRVDATA in Hset.
    destruct (_ && _) in Hset; [|discriminate].
    injection Hset as _ <-.
    rewrite bind_set_curpathlen in H.
    now apply IH in H.
Qed.

Lemma select_down_keeps fuel pathptr pathlen df_only want_file card x
    card' :
  In d (df_infos (drv_data card)) ->
  select_down fuel pathptr pathlen df_only want_file card = Done x card' ->
  In d (df_infos (drv_data card')).
Proof.
  unfold select_down. intros Hin H.
  destruct (pathlen =? 0); [now injection H as _ <-|].
  invert_bind H as y c Hloop. destruct y as [[e fe] f].
  apply select_down_loop_keeps in Hloop; [|exact Hin].
  destruct e; [|now injection H as _ <-].
  rewrite bind_set_is_ef in H.
  invert_bind H as u c1 Hload. injection H as _ <-.
  destruct (negb fe).
  - invert_bind Hload as r c2 Hl. injection Hload as _ <-.
    now apply load_special_files_keeps in Hl.
  - now injection Hload as _ <-.
Qed.

Lemma store_root_keeps {A} fid (a : A) card x card' :
  In d (df_infos (drv_data card)) ->
  bind (set_curpath_at 0 fid) (fun _ =>
    bind (set_curpathlen 1) (fun _ =>
      bind (set_is_ef false) (fun _ => ret a))) card = Done x card' ->
  In d (df_infos (drv_data card')).
Proof.
  intros Hin H. invert_bind H as u c Hset.
  unfold set_curpath_at in Hset. rewrite bind_DRVDATA in Hset.
  destruct (_ && _); [|discriminate]. injection Hset as _ <-.
  now injection H as _ <-.
Qed.

Lemma select_mf_keeps fid want_file card x card' :
  In d (df_infos (drv_data card)) ->
  select_mf fid want_file card = Done x card' ->
  In d (df_infos (drv_data card')).
Proof.
  unfold select_mf. intros Hin H. rewrite bind_set_curpathlen in H.
  invert_bind H as rf c Hsel. destruct rf as [r f].
  apply do_select_keeps in Hsel; [|exact Hin].
  destruct (SC_TEST_RET_returns r); [now injection H as _ <-|].
  now apply store_root_keeps in H.
Qed.

Lemma restart_at_root_keeps fuel pathptr pathlen df_only want_file card x
    card' :
  In d (df_infos (drv_data card)) ->
  restart_at_root fuel pathptr pathlen df_only want_file card = Done x card' ->
  In d (df_infos (drv_data card')).
Proof.
  unfold restart_at_root. intros Hin H.
  rewrite bind_set_curpathlen, bind_set_is_ef in H.
  now apply select_down_keeps in H.
Qed.

Lemma pop_keeps fuel pathptr pathlen want_file card x card' :
  In d (df_infos (drv_data card)) ->
  bind (c_assert (1 <? curpathlen (drv_data card))) (fun _ =>
    bind (set_curpathlen (curpathlen (drv_data card) - 1)) (fun _ =>
      bind (set_is_ef false) (fun _ =>
        select_down fuel pathptr pathlen false want_file))) card
  = Done x card' ->
  In d (df_infos (drv_data card')).
Proof.
  intros Hin H. unfold c_assert in H.
  destruct (1 <? curpathlen (drv_data card)); [|discriminate].
  rewrite bind_ret, bind_set_curpathlen, bind_set_is_ef in H.
  now apply select_down_keeps in H.
Qed.

Lemma relative_addressing_keeps fuel pathptr pathlen want_file card x
    card' :
  In d (df_infos (drv_data card)) ->
  relative_addressing fuel pathptr pathlen want_file card = Done x card' ->
  In d (df_infos (drv_data card')).
Proof.
  unfold relative_addressing. intros Hin H. rewrite bind_DRVDATA in H.
  invert_bind H as y c Hroot. destruct y as [[r file0] returned].
  assert (Hc : In d (df_infos (drv_data c))).
  { destruct (curpathlen (drv_data card) =? 0).
    - invert_bind Hroot as fid c0 Hfid.
      apply first_cell_Done in Hfid as ->.
      invert_bind Hroot as rf c1 Hsel. destruct rf as [r0 f].
      apply do_select_keeps in Hsel; [|exact Hin].
      destruct (SC_TEST_RET_returns r0); [now injection Hroot as _ _ _ <-|].
      now apply store_root_keeps in Hroot.
    - now injection Hroot as _ _ _ <-. }
  destruct returned; [now injection H as _ <-|].
  rewrite bind_DRVDATA in H.
  invert_bind H as u c1 Hpop.
  invert_bind H as rf c2 Hdown. destruct rf as [r1 f1].
  injection H as _ <-.
  apply select_down_keeps in Hdown; [exact Hdown|].
  destruct (is_ef (drv_data c)); [|now injection Hpop as _ <-].
  unfold c_assert in Hpop.
  destruct (1 <? curpathlen (drv_data c)); [|discriminate].
  rewrite bind_ret, bind_set_curpathlen in Hpop. now injection Hpop as _ <-.
Qed.

Lemma select_file_by_path_keeps fuel pathptr pathlen want_file card x
    card' :
  In d (df_infos (drv_data card)) ->
  select_file_by_path fuel pathptr pathlen want_file card = Done x card' ->
  In d (df_infos (drv_data card')).
Proof.
  unfold select_file_by_path. intros Hin H. rewrite bind_DRVDATA in H.
  invert_bind H as u c Hassert.
  apply c_assert_Done in Hassert as [_ ->]. cbv zeta in H.
  destruct (_ || _); [now injection H as _ <-|].
  invert_bind H as fid c Hfid. apply first_cell_Done in Hfid as ->.
  destruct (_ && _); [now apply select_mf_keeps in H|].
  destruct (_ && _); [|now apply relative_addressing_keeps in H].
  destruct (curpathlen (drv_data card) =? 0);
    [now apply restart_at_root_keeps in H|].
  destruct (_ && _); [now apply restart_at_root_keeps in H|].
  destruct (_ && _); [|now apply restart_at_root_keeps in H].
  destruct (negb want_file); [now injection H as _ <-|].
  now apply pop_keeps in H.
Qed.

Lemma select_file_by_fid_keeps fuel pathptr pathlen want_file card x
    card' :
  In d (df_infos (drv_data card)) ->
  select_file_by_fid fuel pathptr pathlen want_file card = Done x card' ->
  In d (df_infos (drv_data card')).
Proof.
  unfold select_file_by_fid. intros Hin H. rewrite bind_DRVDATA in H.
  invert_bind H as u c Hassert.
  apply c_assert_Done in Hassert as [_ ->].
  destruct (1 <? pathlen); [now injection H as _ <-|].
  destruct (_ && _); [now injection H as _ <-|].
  destruct (pathlen =? 0).
  - destruct (negb want_file); [now injection H as _ <-|].
    destruct (curpathlen (drv_data card) =? 0);
      [now injection H as _ <-|].
    now apply pop_keeps in H.
  - invert_bind H as fid c Hfid. apply first_cell_Done in Hfid as ->.
    destruct (fid =? MFID); [now apply select_mf_keeps in H|].
    now apply relative_addressing_keeps in H.
Qed.

Lemma mcrd_select_file_keeps fuel path want_file card x card' :
  In d (df_infos (drv_data card)) ->
  mcrd_select_file fuel path want_file card = Done x card' ->
  In d (df_infos (drv_data card')).
Proof.
  unfold mcrd_select_file. intros Hin H.
  destruct (path_type path).
  - destruct (_ || _); [now injection H as _ <-|].
    now apply select_file_by_fid_keeps in H.
  - destruct (16 <? path_len path); [now injection H as _ <-|].
    invert_bind H as rf c Hsel. destruct rf as [r f].
    apply do_select_keeps in Hsel; [|exact Hin].
    rewrite bind_set_curpathlen in H. now injection H as _ <-.
  - destruct (_ || _); [now injection H as _ <-|].
    now apply select_file_by_path_keeps in H.
Qed.

Lemma resolve_all_keeps fuel :
  forall requests card rs card',
    In d (df_infos (drv_data card)) ->
    resolve_all fuel requests card = Done rs card' ->
    In d (df_infos (drv_data card')).
Proof.
  induction requests as [|[path want_file] rest IH];
    intros card rs card' Hin H.
  - now injection H as _ <-.
  - cbn [resolve_all] in H.
    invert_bind H as rf c Hsel. destruct rf as [r f].
    apply mcrd_select_file_keeps in Hsel; [|exact Hin].
    invert_bind H as rs0 c1 Hrest. injection H as _ <-.
    now apply IH in Hrest.
Qed.

End Loaded.

(** X21.  The driver does not forget a directory it has loaded: a
    directory entry that holds rule records is still in the list, with the
    same path and the same rule and key records, after any sequence of
    requests to [mcrd_select_file] that return, and after a call of
    [load_special_files] in whatever directory. *)
Theorem loaded_directories_are_kept :
  forall (d : df_info_s) (fuel : nat),
    rule_file d <> [] ->
    (forall requests card rs card',
       In d (df_infos (drv_data card)) ->
       resolve_all fuel requests card = Done rs card' ->
       In d (df_infos (drv_data card')))
    /\ (forall card r card',
          In d (df_infos (drv_data card)) ->
          load_special_files fuel card = Done r card' ->
          In d (df_infos (drv_data card'))).
Proof.
  intros d fuel Hd. split.
  - now apply resolve_all_keeps.
  - intros card r card'. now apply load_special_files_keeps.
Qed.

(** ** The path cache of the framework *)

Lemma get_df_info_framework_cache card dfi card' :
  get_df_info card = Done dfi card' ->
  cache_current_path_len card' = cache_current_path_len card.
Proof.
  unfold get_df_info, bind, DRVDATA, c_assert.
  destruct (negb (is_ef (drv_data card))); cbn; [|discriminate].
  destruct (curpathlen (drv_data card) =? 0); cbn.
  - now intros [= _ <-].
  - destruct (find_df_info _ _); cbn; now intros [= _ <-].
Qed.

Lemma process_fcp_framework_cache file buf card file' card' :
  process_fcp file buf card = Done file' card' ->
  cache_current_path_len card' = cache_current_path_len card.
Proof.
  assert (Harr : forall t c u c', process_arr t c = Done u c' ->
            cache_current_path_len c' = cache_current_path_len c).
  { intros t c u c'. unfold process_arr. destruct (negb _).
    - now intros [= _ <-].
    - intros H. invert_bind H as dfi c0 Hget. injection H as _ <-.
      now apply get_df_info_framework_cache in Hget. }
  unfold process_fcp. intros H. invert_bind H as u c Hfcp.
  injection H as _ <-. unfold fcp_arr in Hfcp.
  destruct (sc_asn1_find_tag buf 0x8B) as [[|? ?]|];
    try (now apply Harr in Hfcp);
    (destruct (sc_asn1_find_tag buf 0xA1) as [[|? ?]|];
     [now injection Hfcp as _ <- | | now injection Hfcp as _ <-];
     match type of Hfcp with
     | context [sc_asn1_find_tag ?t 0x8B] =>
         destruct (sc_asn1_find_tag t 0x8B) as [[|? ?]|]
     end;
     try (now apply Harr in Hfcp); now injection Hfcp as _ <-).
Qed.

(** X22.  [do_select] clears the cached path of the framework
    ([card->cache.current_path.len]) in one case only: a selection by
    name (P1 = 4) for which no descriptor is asked, whose status is not
    61xx and which [sc_check_sw] accepts.  In every other case, a
    selection by name with a descriptor among them, it leaves that length
    as it was. *)
Theorem do_select_clears_the_framework_cache :
  forall (kind : Z) (buf : list Z) (want_file : bool) (card : sc_card)
         (r : Z) (f : option sc_file) (card' : sc_card),
    do_select kind buf want_file card = Done (r, f) card' ->
    cache_current_path_len card'
    = match card_answer (transmitted card)
                        (select_apdu kind buf want_file) with
      | Answer sw1 sw2 _ =>
          if negb want_file && negb (sw1 =? 0x61)
             && (sc_check_sw sw1 sw2 =? 0) && (kind =? MCRD_SEL_AID)
          then 0
          else cache_current_path_len card
      | TransmitFailed _ => cache_current_path_len card
      end.
Proof.
  intros kind buf want_file card r f card' H.
  unfold do_select in H. fold (select_apdu kind buf want_file) in H.
  invert_bind H as ans c Htx.
  apply sc_transmit_apdu_Done in Htx as [-> ->].
  destruct (card_answer _ _) as [e | sw1 sw2 resp];
    [now injection H as _ _ <-|].
  destruct want_file; cbn [negb andb] in *.
  - destruct (negb _); [now injection H as _ _ <-|].
    destruct (_ =? 0x6F); [|now injection H as _ _ <-].
    invert_bind H as file c1 Hfcp. injection H as _ _ <-.
    destruct (_ <=? _).
    + now apply process_fcp_framework_cache in Hfcp.
    + now injection Hfcp as _ <-.
  - destruct (sw1 =? 0x61); cbn [negb andb];
      [now injection H as _ _ <-|].
    invert_bind H as u c1 Hset. injection H as _ _ <-.
    destruct (_ && _); now injection Hset as _ <-.
Qed.

(** ** A descent to a directory *)




(** ** A descent and the card *)






End Properties.

(** ** Identification *)

Lemma atr_matches_true size hex atrp atr atr_len :
  Identification.atr_matches size hex atrp atr atr_len = true
  <-> exists defatr,
        hex atrp size = Some defatr
        /\ Z.of_nat (length defatr) = atr_len
        /\ firstn (length defatr) atr = defatr.
Proof.
  unfold Identification.atr_matches.
  destruct (hex atrp size) as [defatr|].
  - rewrite Bool.andb_true_iff, Z.eqb_eq. split.
    + intros [Hlen Hcmp]. exists defatr.
      destruct (list_eq_dec _ _ _); [auto | discriminate].
    + intros (d & [= <-] & Hlen & Hcmp). split; [exact Hlen|].
      now destruct (list_eq_dec _ _ _).
  - split; [discriminate | now intros (d & [=] & _)].
Qed.

Lemma match_loop_finds size hex atr atr_len :
  forall atrs i,
    0 <= i ->
    (Identification.match_loop size hex atrs i atr atr_len = -1
     /\ Forall (fun a => Identification.atr_matches size hex a atr atr_len
                         = false) atrs)
    \/ (0 <= Identification.match_loop size hex atrs i atr atr_len
        /\ Exists (fun a => Identification.atr_matches size hex a atr atr_len
                            = true) atrs).
Proof.
  induction atrs as [|a rest IH]; intros i Hi; cbn.
  - left. split; [reflexivity | constructor].
  - destruct (Identification.atr_matches size hex a atr atr_len) eqn:Ha.
    + right. split; [exact Hi|]. now constructor.
    + destruct (IH (i + 1)) as [[H1 H2] | [H1 H2]]; [lia | |].
      * left. split; [exact H1 | now constructor].
      * right. split; [exact H1 | now apply Exists_cons_tl].
Qed.

(** X7.  The card is recognised (result 1) exactly when one of the
    reference strings of the table decodes to a byte string of the length
    of the card's ATR that equals the ATR; in every other case the result
    is 0.  An entry that does not decode is skipped. *)
Theorem mcrd_match_card_recognises :
  forall (size : Z) (hex : String.string -> Z -> option (list Z))
         (atr : list Z) (atr_len : Z),
    (Identification.mcrd_match_card size hex atr atr_len = 1
     <-> exists atrp defatr,
           In atrp Identification.mcrd_atrs
           /\ hex atrp size = Some defatr
           /\ Z.of_nat (length defatr) = atr_len
           /\ firstn (length defatr) atr = defatr)
    /\ (Identification.mcrd_match_card size hex atr atr_len = 0
        \/ Identification.mcrd_match_card size hex atr atr_len = 1).
Proof.
  intros size hex atr atr_len. unfold Identification.mcrd_match_card.
  destruct (match_loop_finds size hex atr atr_len
              Identification.mcrd_atrs 0 (Z.le_refl 0))
    as [[H1 H2] | [H1 H2]].
  - rewrite H1. cbn. split; [|now left]. split; [discriminate|].
    intros (atrp & defatr & Hin & Hdec).
    rewrite Forall_forall in H2. specialize (H2 atrp Hin).
    assert (Ht : Identification.atr_matches size hex atrp atr atr_len
                 = true).
    { apply atr_matches_true. now exists defatr. }
    congruence.
  - destruct (_ =? -1) eqn:E; [apply Z.eqb_eq in E; lia|].
    split; [|now right]. split; [|reflexivity]. intros _.
    apply Exists_exists in H2 as (atrp & Hin & Ht).
    apply atr_matches_true in Ht as (defatr & Hdec).
    now exists atrp, defatr.
Qed.

(** C9 (the code departs from the claim).  [process_fcp], applied to the
    fresh descriptor as [do_select] applies it, decodes a selection
    response part by part: the identifier and the size it encodes, the
    shareable flag from bit 0x40 of the file descriptor byte, the EF
    structure code from its low three bits, and the type from bits 3-5 (0
    working data file, 1 internal data file, 7 directory, otherwise none).
    It does so for every response but one kind: when an EF is the current
    file and the response refers to an access rule in the short form (tag
    0x8B with one byte), the lookup of the rule record runs into the
    assertion of [get_df_info] and no descriptor is yielded.  The response
    of the specification's example (identifier 0x4101, size 100, a byte
    marking a shareable working data file) is decoded as claimed; followed
    by the reference 8B 01 01 and received for the request "select the
    root, with its descriptor" while the EF 3F00/4100/4101 is current, it
    ends the run: [select_file_by_path] selects the MF before it resets
    [is_ef]. *)
Theorem process_fcp_stops_on_a_rule_reference :
  (forall (P : Platform) (card : sc_card) (buf : list Z),
     (is_ef (drv_data card) = true
      /\ short_arr buf = true
      /\ process_fcp sc_file_new buf card = Fault AssertionFailed)
     \/ ((is_ef (drv_data card) = false \/ short_arr buf = false)
         /\ exists file card',
              process_fcp sc_file_new buf card = Done file card'
              /\ position card' = position card
              /\ transmitted card' = transmitted card
              /\ decoded buf file))
  /\ (exists file,
        process_fcp (P := bench [] 0) sc_file_new fcp_4101 blank_card
        = Done file blank_card
        /\ file_id file = 0x4101
        /\ file_size file = 100
        /\ file_shareable file = 1
        /\ file_ef_structure file = 1
        /\ file_type file = Some SC_FILE_TYPE_WORKING_EF)
  /\ process_fcp (P := bench [] 0) sc_file_new (fcp_4101 ++ [0x8B; 1; 1])
       card_on_4101
     = Fault AssertionFailed
  /\ mcrd_select_file
       (P := bench [Answer 0x90 0x00
                      (0x6F :: 14 :: fcp_4101 ++ [0x8B; 1; 1])] 0) 0
       (path_of SC_PATH_TYPE_PATH [0x3F; 0x00]) true card_on_4101
     = Fault AssertionFailed.
Proof.
  split; [intros P card buf; apply process_fcp_decodes_or_stops|].
  split; [eexists; split; [lazy; reflexivity|]; repeat split|].
  split; reflexivity.
Qed.

(** The counterexample to C1 as stated: the record 83 04 01 02 41 01 names
    file 4101 and has no security-environment object; the reference data
    01 02 is stored, and the result is -1, not 0. *)
Lemma get_se_num_from_keyd_4101_not_found :
  get_se_num_from_keyd (P := bench [] 0) 0x4101 (Some [0; 0])
    (card_with_keyd [keyd_4101])
  = Done (-1, Some [0x01; 0x02]) (card_with_keyd [keyd_4101]).
Proof. reflexivity. Qed.

Lemma keyd_records_bench keyd :
  keyd_records (card_with_keyd keyd) keyd.
Proof. exists O. eexists. repeat split. Qed.

(** The witness of C1 as amended, on the same record followed by one that
    names another file. *)
Lemma get_se_num_from_keyd_on_match_4101 :
  exists ref',
    get_se_num_from_keyd (P := bench [] 0) 0x4101 (Some [0; 0])
      (card_with_keyd
         [keyd_4101;
          {| keyd_recno := 2;
             keyd_data := [0x83; 4; 0x03; 0x04; 0x41; 0x02] |}])
    = Done (-1, ref')
        (card_with_keyd
           [keyd_4101;
            {| keyd_recno := 2;
               keyd_data := [0x83; 4; 0x03; 0x04; 0x41; 0x02] |}]).
Proof.
  refine (proj2 (proj2
    (get_se_num_from_keyd_on_match (P := bench [] 0)
       (card_with_keyd _) 0x4101 (Some [0; 0]) [] _ keyd_4101 0x01 0x02
       _ _ _ _)) _ _).
  - lia.
  - apply (keyd_records_bench (_ :: _)).
  - constructor.
  - reflexivity.
  - reflexivity.
  - constructor; [now left | constructor].
Defined.

(** The witness of C10. *)
Lemma get_se_num_from_keyd_writes_then_fails_4101 :
  exists k t0 t1,
    In k [keyd_4101]
    /\ keyd_reference (P := bench [] 0) 0x4101 k = Some (t0, t1)
    /\ get_se_num_from_keyd (P := bench [] 0) 0x4101 (Some [0; 0])
         (card_with_keyd [keyd_4101])
       = Done (-1, Some [t0; t1]) (card_with_keyd [keyd_4101])
    /\ ((0, 0) <> (t0, t1) -> Some [t0; t1] <> Some [0; 0]).
Proof.
  apply (get_se_num_from_keyd_writes_then_fails (P := bench [] 0)
           (card_with_keyd [keyd_4101]) 0x4101 [keyd_4101] 0 0 []).
  - lia.
  - apply keyd_records_bench.
  - constructor. discriminate.
  - constructor; [now right | constructor].
Defined.

(** The witness of C2 as amended: an unknown operation is refused with
    nothing sent; a sign request whose key reference is not found sends the
    bare template and returns the answer of the card to it. *)
Lemma mcrd_set_security_env_outcomes_4101 :
  mcrd_set_security_env (P := bench [] 0) env_other_4101 0
    (card_with_keyd [])
  = Done (-1300) (card_with_keyd [])
  /\ exists card'',
       mcrd_set_security_env (P := bench [Answer 0x90 0x00 []] 0)
         env_sign_4101 0 (card_with_keyd [])
       = Done 0 card''
       /\ transmitted card'' = [set_env_apdu 0 0xB6 [0x83; 0x03; 0x80]].
Proof.
  split.
  - apply (proj1 (mcrd_set_security_env_outcomes (P := bench [] 0)
                    env_other_4101 0 (card_with_keyd []))).
    right. left. now exists 2.
  - apply (proj2 (mcrd_set_security_env_outcomes
                    (P := bench [Answer 0x90 0x00 []] 0)
                    env_sign_4101 0 (card_with_keyd []))
             0xB6 (Some [0; 0]) (card_with_keyd [])).
    + reflexivity.
    + left. now split.
    + discriminate.
    + reflexivity.
    + reflexivity.
Defined.

(** The counterexample to C2 as stated: no key reference can be found for
    file 4101 (the directory has no key records), and yet the call
    returns 0 and one command has gone to the card. *)
Lemma mcrd_set_security_env_unresolved_sends :
  exists card',
    mcrd_set_security_env (P := bench [Answer 0x90 0x00 []] 0)
      env_sign_4101 0 (card_with_keyd [])
    = Done 0 card'
    /\ get_se_num_from_keyd (P := bench [Answer 0x90 0x00 []] 0) 0x4101
         (Some [0; 0]) (card_with_keyd [])
       = Done (-1, Some [0; 0]) (card_with_keyd [])
    /\ wire (card_with_keyd []) = []
    /\ wire card' = [(0x22, 0x41, 0xB6, [0x83; 0x03; 0x80])].
Proof.
  eexists. split; [lazy; reflexivity|]. lazy. repeat split.
Qed.

(** The witness of C8 as amended: in 3F00/4100, the path 3F00/4100 is
    resolved by doing nothing; nine levels down, the path of these nine
    levels does not fit the conversion buffer of eight identifiers and is
    refused, the card handle being left as it was. *)
Lemma mcrd_select_file_cached_noop_4100 :
  mcrd_select_file (P := bench [] 0) 0
    (path_of SC_PATH_TYPE_PATH [0x3F; 0x00; 0x41; 0x00]) false card_in_4100
  = Done (0, None) card_in_4100
  /\ mcrd_select_file (P := bench [] 0) 0
       (path_of SC_PATH_TYPE_PATH
          [0x3F; 0x00; 0x41; 0x00; 0x42; 0x00; 0x43; 0x00; 0x44; 0x00;
           0x45; 0x00; 0x46; 0x00; 0x47; 0x00; 0x48; 0x00])
       false card_nine_deep
     = Done (-1300, None) card_nine_deep.
Proof.
  split.
  - refine (mcrd_select_file_cached_noop (P := bench [] 0) 0
              card_in_4100
              (path_of SC_PATH_TYPE_PATH [0x3F; 0x00; 0x41; 0x00]) 2
              _ _ _ _ _ _ _);
      [reflexivity | reflexivity | lia | reflexivity | reflexivity
      | reflexivity |].
    intros k Hk.
    do 2 (destruct k as [|k]; [reflexivity|]). cbn in Hk. lia.
  - refine (mcrd_select_file_cached_noop (P := bench [] 0) 0
              card_nine_deep
              (path_of SC_PATH_TYPE_PATH
                 [0x3F; 0x00; 0x41; 0x00; 0x42; 0x00; 0x43; 0x00;
                  0x44; 0x00; 0x45; 0x00; 0x46; 0x00; 0x47; 0x00;
                  0x48; 0x00]) 9
              _ _ _ _ _ _ _);
      [reflexivity | reflexivity | lia | reflexivity | reflexivity
      | reflexivity |].
    intros k Hk.
    do 9 (destruct k as [|k]; [reflexivity|]). cbn in Hk. lia.
Defined.

(** The counterexample to C8 as stated: the cached path is 3F00 and the
    absolute path 3F00 is resolved without a descriptor; a SELECT goes to
    the card. *)
Lemma mcrd_select_file_root_selects_again :
  exists card',
    mcrd_select_file (P := bench [Answer 0x90 0x00 []] 0) 0
      (path_of SC_PATH_TYPE_PATH [0x3F; 0x00]) false (card_with_keyd [])
    = Done (0, None) card'
    /\ cached_path (drv_data (card_with_keyd [])) = [0x3F00]
    /\ wire (card_with_keyd []) = []
    /\ wire card' = [(0xA4, 0x00, 0x00, [0x3F; 0x00])].
Proof.
  eexists. split; [lazy; reflexivity|]. lazy. repeat split.
Qed.

(** C3 (the code departs from the claim).  The session is in 3F00/4100, a
    directory; [pathtmp] happens to hold 0x1234.  A FileIdentifier request
    with no component that asks for the descriptor selects file 1234,
    first as EF and then as DF, and not the current file 4100; the card
    knows no file 1234, the call fails, and the cache is left at 3F00. *)
Theorem select_file_by_fid_reselects_stale_cell :
  exists card',
    mcrd_select_file
      (P := bench [Answer 0x6A 0x82 []; Answer 0x6A 0x82 []] 0x1234) 0
      (path_of SC_PATH_TYPE_FILE_ID []) true card_in_4100
    = Done (-1201, None) card'
    /\ cached_path (drv_data card_in_4100) = [0x3F00; 0x4100]
    /\ wire card' = [(0xA4, 0x02, 0x00, [0x12; 0x34]);
                     (0xA4, 0x01, 0x00, [0x12; 0x34])]
    /\ cached_path (drv_data card') = [0x3F00].
Proof.
  eexists. split; [lazy; reflexivity|]. lazy. repeat split.
Qed.

(** C4 (the code departs from the claim).  After [mcrd_init], the request
    for the path 3F00 fails in the transport and leaves the cache empty;
    the request for the file identifier 4100 then selects 4100 as if it
    were the MF and stores it in the first cell.  The cache ends as
    4100/4100, which breaks the invariant, and the assertion at the head of
    the next request fails. *)
Theorem session_breaks_path_cache_invariant :
  exists card',
    session (P := bench flaky_card 0) 0
      [(path_of SC_PATH_TYPE_PATH [0x3F; 0x00], false);
       (path_of SC_PATH_TYPE_FILE_ID [0x41; 0x00], false)] blank_card
    = Done [-1100; 0] card'
    /\ cached_path (drv_data card') = [0x4100; 0x4100]
    /\ ~ path_cache_invariant (drv_data card')
    /\ wire card' = [(0xA4, 0x02, 0x00, [0x00; 0x30]);
                     (0xA4, 0x00, 0x00, [0x3F; 0x00]);
                     (0xA4, 0x00, 0x00, [0x41; 0x00]);
                     (0xA4, 0x02, 0x00, [0x41; 0x00])]
    /\ mcrd_select_file (P := bench flaky_card 0) 0
         (path_of SC_PATH_TYPE_FILE_ID [0x41; 0x01]) false card'
       = Fault AssertionFailed.
Proof.
  eexists. split; [lazy; reflexivity|]. split; [reflexivity|].
  split; [|split; lazy; reflexivity].
  intros [H _]. cbn in H. discriminate.
Qed.

(** The witness of C7: the root directory of a card that has EF_Rule with
    one record and no EF_KeyD is loaded with success and holds no key
    records. *)
Lemma load_special_files_without_keyd :
  exists card2,
    load_special_files (P := bench card_without_keyd 0) 5 card_at_root
    = Done 0 card2
    /\ keyd_at card2 (Some O) = Some []
    /\ wire card2 = [(0xA4, 0x02, 0x00, [0x00; 0x30]);
                     (0xB2, 0x01, 0x04, []);
                     (0xB2, 0x02, 0x04, []);
                     (0xA4, 0x02, 0x00, [0x00; 0x13])].
Proof.
  pose proof (proj2 (proj2
    (load_special_files_tolerances (P := bench card_without_keyd 0)
       (bench_ok _ _)))) as H.
  edestruct (H 5%nat card_at_root) as (Hfnf & _);
    [lazy; reflexivity | discriminate |].
  edestruct Hfnf as (H1 & H2); [lazy; reflexivity|].
  eexists. split; [exact H1|]. split; [exact H2|]. reflexivity.
Defined.


(** The length bound on the session of the flaky card: the cache that
    breaks the root invariant still fits its array. *)
Lemma session_keeps_path_cache_bounded_flaky :
  exists card',
    session (P := bench flaky_card 0) 0
      [(path_of SC_PATH_TYPE_PATH [0x3F; 0x00], false);
       (path_of SC_PATH_TYPE_FILE_ID [0x41; 0x00], false)] blank_card
    = Done [-1100; 0] card'
    /\ 0 <= curpathlen (drv_data card') <= MAX_CURPATH
    /\ Z.of_nat (length (cached_path (drv_data card'))) <= MAX_CURPATH.
Proof.
  eexists. split; [lazy; reflexivity|].
  apply (proj1 (session_keeps_path_cache_bounded (P := bench flaky_card 0)
                  (bench_ok _ _))
           0%nat
           [(path_of SC_PATH_TYPE_PATH [0x3F; 0x00], false);
            (path_of SC_PATH_TYPE_FILE_ID [0x41; 0x00], false)]
           blank_card [-1100; 0]).
  lazy. reflexivity.
Defined.

(** * Examples of the further properties *)

(** X2 on the file 4101, selected as EF from the directory 3F00/4100. *)
Lemma select_part_sends_the_path_bytes_4101 :
  exists x card',
    select_part (P := bench [Answer 0x90 0x00 []] 0) MCRD_SEL_EF 0x4101
                false card_in_4100
    = Done x card'
    /\ position card' = position card_in_4100
    /\ transmitted card'
       = [select_apdu (P := bench [Answer 0x90 0x00 []] 0) MCRD_SEL_EF
                      [0x41; 0x01] false].
Proof.
  eexists. eexists. split; [lazy; reflexivity|].
  eapply (select_part_sends_the_path_bytes
            (P := bench [Answer 0x90 0x00 []] 0)
            MCRD_SEL_EF [0x41; 0x01] 0 false card_in_4100).
  - cbn. lia.
  - cbn. lia.
  - lazy. reflexivity.
Defined.

(** X3 on the root directory of a fresh session: the first lookup makes
    the entry, the second finds it. *)
Lemma get_df_info_finds_what_it_made_root :
  exists card',
    get_df_info card_at_root = Done (Some O) card'
    /\ get_df_info card' = Done (Some O) card'.
Proof.
  eexists. split; [lazy; reflexivity|].
  apply (get_df_info_finds_what_it_made card_at_root).
  - cbn. lia.
  - lazy. reflexivity.
Defined.

(** X4 on a file of two records: three READ RECORD commands, and the
    records held as 2, 1 with the bytes the card sent. *)
Lemma read_records_reads_in_order_two :
  exists card',
    read_records
      (P := bench [Answer 0x90 0x00 [0xAA]; Answer 0x90 0x00 [0xBB];
                   Answer 0x6A 0x83 []] 0)
      the_rule_file 5 1 (Some O) (card_with_keyd [])
    = Done Completed card'
    /\ records_at the_rule_file card' 0 = Some [(2, [0xBB]); (1, [0xAA])]
    /\ wire card' = [(0xB2, 0x01, 0x04, []); (0xB2, 0x02, 0x04, []);
                     (0xB2, 0x03, 0x04, [])]
    /\ exists k delivered,
         records_read
           (P := bench [Answer 0x90 0x00 [0xAA]; Answer 0x90 0x00 [0xBB];
                        Answer 0x6A 0x83 []] 0)
           0 [] 1 k = Some delivered
         /\ records_at the_rule_file card' 0 = Some (rev delivered ++ []).
Proof.
  eexists. split; [lazy; reflexivity|].
  split; [reflexivity|]. split; [reflexivity|].
  edestruct (read_records_reads_in_order
               (P := bench [Answer 0x90 0x00 [0xAA]; Answer 0x90 0x00 [0xBB];
                            Answer 0x6A 0x83 []] 0)
               the_rule_file 5 1 O (card_with_keyd []) Completed)
    as (k & delivered & Hk1 & _ & _ & Hk4 & _);
    [lazy; reflexivity | reflexivity |].
  exists k, delivered. split; [exact Hk1 | exact Hk4].
Defined.

(** X5 on a card that answers with four bytes when the caller has room for
    three: three cells are written, the others keep their contents. *)
Lemma mcrd_compute_signature_fills_three :
  exists card',
    mcrd_compute_signature (P := bench [Answer 0x90 0x00 [1; 2; 3; 4]] 0)
      [0xAA; 0xBB] 2 [0; 0; 0; 9; 9] 3 blank_card
    = Done (3, [1; 2; 3; 9; 9]) card'
    /\ 3 <= 3
    /\ length [1; 2; 3; 9; 9] = length [0; 0; 0; 9; 9]
    /\ skipn (Z.to_nat 3) [1; 2; 3; 9; 9] = skipn (Z.to_nat 3) [0; 0; 0; 9; 9].
Proof.
  eexists. split; [lazy; reflexivity|].
  edestruct (mcrd_compute_signature_fills_a_prefix
               (P := bench [Answer 0x90 0x00 [1; 2; 3; 4]] 0)
               [0xAA; 0xBB] 2 [0; 0; 0; 9; 9] 3 blank_card
               3 [1; 2; 3; 9; 9])
    as (H1 & H2 & H3 & _);
    [apply bench_ok | lia | lazy; reflexivity |].
  split; [exact H1|]. split; [exact H2 | exact H3].
Defined.

(** X6 on a card that answers 60 61 and then delivers two bytes: the two
    commands go out, and nothing else. *)
Lemma mcrd_compute_signature_sends_two :
  exists x card',
    mcrd_compute_signature
      (P := bench [Answer 0x60 0x61 []; Answer 0x90 0x00 [7; 8]] 0)
      [0xAA; 0xBB] 2 [0; 0; 0; 9; 9] 3 blank_card
    = Done x card'
    /\ x = (2, [7; 8; 0; 9; 9])
    /\ exists more,
         transmitted card'
         = sign_apdu
             (P := bench [Answer 0x60 0x61 []; Answer 0x90 0x00 [7; 8]] 0)
             0 [0xAA; 0xBB] 2 :: more
         /\ (more = [get_response_apdu 0] \/ more = []).
Proof.
  eexists. eexists. split; [lazy; reflexivity|]. split; [reflexivity|].
  edestruct (mcrd_compute_signature_sends
               (P := bench [Answer 0x60 0x61 []; Answer 0x90 0x00 [7; 8]] 0)
               [0xAA; 0xBB] 2 [0; 0; 0; 9; 9] 3 blank_card)
    as [(Hbig & _) | (_ & _ & _ & more & Htr & Hmore)];
    [lazy; reflexivity | |].
  - lia.
  - exists more. split; [exact Htr|].
    destruct Hmore as [(Hm & _) | (Hm & _)]; [left | right]; exact Hm.
Defined.

(** X8 on a root directory that holds one rule record: nothing is sent,
    even on a card that would not answer. *)
Lemma load_special_files_uses_its_cache_root :
  load_special_files (P := bench [] 0) 0
    (card_with_rules [{| rule_recno := 1; rule_data := [0x80; 0x01; 0x00] |}])
  = Done 0
      (card_with_rules [{| rule_recno := 1; rule_data := [0x80; 0x01; 0x00] |}]).
Proof.
  apply (load_special_files_uses_its_cache (P := bench [] 0) 0
           (card_with_rules
              [{| rule_recno := 1; rule_data := [0x80; 0x01; 0x00] |}])
           0
           {| path := MFID :: repeat 0 9; pathlen := 1;
              rule_file := [{| rule_recno := 1;
                               rule_data := [0x80; 0x01; 0x00] |}];
              keyd_file := [] |}).
  - reflexivity.
  - discriminate.
  - reflexivity.
  - reflexivity.
  - discriminate.
Defined.

(** X9 on the first load of the root directory. *)
Lemma load_special_files_starts_with_the_rule_file_root :
  exists card',
    load_special_files (P := bench card_without_keyd 0) 5 card_at_root
    = Done 0 card'
    /\ exists more,
         transmitted card'
         = select_apdu (P := bench card_without_keyd 0) 2 [0x00; 0x30] false
           :: more.
Proof.
  eexists. split; [lazy; reflexivity|].
  edestruct (load_special_files_starts_with_the_rule_file
               (P := bench card_without_keyd 0) 5 card_at_root 0)
    as [(_ & _ & i & d & Hcur & _) | Hmore];
    [lazy; reflexivity | |].
  - discriminate Hcur.
  - exact Hmore.
Defined.

(** X10 on a file identifier of two components. *)
Lemma mcrd_select_file_refuses_two_components :
  mcrd_select_file (P := bench [] 0) 0
    (path_of SC_PATH_TYPE_FILE_ID [0x41; 0x00; 0x41; 0x01]) true card_in_4100
  = Done (-1300, None) card_in_4100.
Proof.
  apply (mcrd_select_file_refuses_malformed (P := bench [] 0) 0
           (path_of SC_PATH_TYPE_FILE_ID [0x41; 0x00; 0x41; 0x01]) true
           card_in_4100).
  right. right. split.
  - right. reflexivity.
  - left. split; [reflexivity | cbn; lia].
Defined.

(** X11 on a card positioned in 3F00/4100 that accepts the name. *)
Lemma mcrd_select_file_by_name_in_4100 :
  exists x card',
    mcrd_select_file (P := bench [Answer 0x90 0x00 []] 0) 0
      (path_of SC_PATH_TYPE_DF_NAME [0xD2; 0x76; 0x00; 0x00]) false
      card_in_4100
    = Done x card'
    /\ curpathlen (drv_data card') = 0
    /\ cached_path (drv_data card') = []
    /\ curpath (drv_data card') = curpath (drv_data card_in_4100)
    /\ is_ef (drv_data card') = is_ef (drv_data card_in_4100)
    /\ wire card' = [(0xA4, 0x04, 0x00, [0xD2; 0x76; 0x00; 0x00])].
Proof.
  eexists. eexists. split; [lazy; reflexivity|].
  edestruct (mcrd_select_file_by_name_empties_the_cache
               (P := bench [Answer 0x90 0x00 []] 0) 0
               (path_of SC_PATH_TYPE_DF_NAME [0xD2; 0x76; 0x00; 0x00]) false
               card_in_4100)
    as (H1 & H2 & H3 & H4 & H5);
    [reflexivity | cbn; lia | lazy; reflexivity |].
  split; [exact H1|]. split; [exact H2|]. split; [exact H3|].
  split; [exact H4|]. unfold wire.
  etransitivity; [apply f_equal; exact H5 | reflexivity].
Defined.

(** X12 on a card that does not know its root: one SELECT, and the cache
    is left empty. *)
Lemma mcrd_select_file_root_refused :
  exists f card',
    mcrd_select_file (P := bench [Answer 0x6A 0x82 []] 0) 0
      (path_of SC_PATH_TYPE_PATH [0x3F; 0x00]) false card_in_4100
    = Done (-1201, f) card'
    /\ wire card' = [(0xA4, 0x00, 0x00, [0x3F; 0x00])]
    /\ curpathlen (drv_data card') = 0.
Proof.
  eexists. eexists. split; [lazy; reflexivity|].
  edestruct (mcrd_select_file_root
               (P := bench [Answer 0x6A 0x82 []] 0) 0
               (path_of SC_PATH_TYPE_PATH [0x3F; 0x00]) false card_in_4100
               (-1201))
    as (Htr & [(_ & Hlen) | (Hr & _)]);
    [apply bench_ok | cbn; lia | right; reflexivity | discriminate
    | reflexivity | reflexivity | lazy; reflexivity | |].
  - split; [|exact Hlen]. unfold wire.
    etransitivity; [apply f_equal; exact Htr | reflexivity].
  - discriminate Hr.
Defined.

(** X13 on a key record that names environment 5 for file 4101: RESTORE 5,
    then SET with the reference bytes 01 02. *)
Lemma mcrd_set_security_env_restores_5 :
  exists card'',
    mcrd_set_security_env
      (P := bench [Answer 0x90 0x00 []; Answer 0x90 0x00 []] 0)
      env_sign_4101 0 (card_with_keyd [keyd_4101_se5])
    = Done 0 card''
    /\ wire card'' = [(0x22, 0xF3, 0x05, []);
                      (0x22, 0x41, 0xB6, [0x83; 0x03; 0x80; 0x01; 0x02])].
Proof.
  edestruct (mcrd_set_security_env_restores_then_sets
               (P := bench [Answer 0x90 0x00 []; Answer 0x90 0x00 []] 0)
               env_sign_4101 (card_with_keyd [keyd_4101_se5]) 0xB6 5
               [0x01; 0x02] (card_with_keyd [keyd_4101_se5]))
    as (card'' & Hrun & Htr & _);
    [left; split; reflexivity | discriminate | cbn; lia
    | lazy; reflexivity | discriminate |].
  exists card''. split; [exact Hrun|]. unfold wire.
  etransitivity; [apply f_equal; exact Htr | reflexivity].
Defined.

(** X14 on a buffer of three cells: the first two take the reference
    bytes, the third is kept. *)
Lemma get_se_num_from_keyd_result_5 :
  exists card',
    get_se_num_from_keyd (P := bench [] 0) 0x4101 (Some [7; 8; 9])
      (card_with_keyd [keyd_4101_se5])
    = Done (5, Some [0x01; 0x02; 9]) card'
    /\ (5 = -1 \/ 0 <= 5 < 256)
    /\ transmitted card' = transmitted (card_with_keyd [keyd_4101_se5])
    /\ position card' = position (card_with_keyd [keyd_4101_se5]).
Proof.
  eexists. split; [lazy; reflexivity|].
  edestruct (get_se_num_from_keyd_result (P := bench [] 0) 0x4101
               (Some [7; 8; 9]) (card_with_keyd [keyd_4101_se5])
               5 (Some [0x01; 0x02; 9]))
    as (H1 & _ & _ & H4 & H5);
    [lazy; reflexivity |].
  split; [exact H1|]. split; [exact H4 | exact H5].
Defined.

(** X15 on the card with two records in each file: the third turn of each
    loop ends it, and the records read are held for the root.  Without the
    allocation nothing is sent. *)
Lemma mcrd_init_on_a_card_with_two_records :
  exists card',
    mcrd_init (P := bench_two_records) true 3 blank_card = Done 0 card'
    /\ wire card' = [(0xA4, 0x02, 0x00, [0x00; 0x30]);
                     (0xB2, 0x01, 0x04, []);
                     (0xB2, 0x02, 0x04, []);
                     (0xB2, 0x03, 0x04, []);
                     (0xA4, 0x02, 0x00, [0x00; 0x13]);
                     (0xB2, 0x01, 0x04, []);
                     (0xB2, 0x02, 0x04, []);
                     (0xB2, 0x03, 0x04, [])]
    /\ recnos_at the_rule_file card' 0 = Some [2; 1]
    /\ recnos_at the_keyd_file card' 0 = Some [2; 1]
    /\ mcrd_init (P := bench_two_records) false 3 blank_card
       = Done (-1404) blank_card.
Proof.
  destruct (proj2 (proj2 (mcrd_init_roots_the_session
                            (P := bench_two_records)))
              2 3%nat blank_card)
    as (card' & Hrun & _).
  - intros trace cla sw1 sw2 resp Hans.
    injection Hans as <- <- _.
    intros [[Hsw _] | [Hsw _]]; discriminate Hsw.
  - cbn. lia.
  - exists card'. split; [exact Hrun|].
    lazy in Hrun. injection Hrun as <-.
    repeat split; reflexivity.
Defined.

(** X16 on the path 3F00/4100, resolved from the root on a card that
    accepts every SELECT. *)
Lemma mcrd_select_file_twice_4100 :
  exists f card',
    mcrd_select_file (P := bench_recordless) 1
      (path_of SC_PATH_TYPE_PATH [0x3F; 0x00; 0x41; 0x00]) false card_at_root
    = Done (0, f) card'
    /\ cached_path (drv_data card') = [0x3F00; 0x4100]
    /\ mcrd_select_file (P := bench_recordless) 0
         (path_of SC_PATH_TYPE_PATH [0x3F; 0x00; 0x41; 0x00]) false card'
       = Done (0, None) card'.
Proof.
  eexists. eexists. split; [lazy; reflexivity|].
  edestruct (mcrd_select_file_twice (P := bench_recordless) 1 0
               (path_of SC_PATH_TYPE_PATH [0x3F; 0x00; 0x41; 0x00]) false 2
               card_at_root)
    as [H1 H2];
    [apply bench_recordless_ok | reflexivity | reflexivity
    | unfold MAX_CURPATH; lia | cbn; lia | reflexivity
    | lazy; reflexivity |].
  split; [exact H1 | exact H2].
Defined.

(** X17 from the EF 3F00/4100/4101 to its sibling 4102. *)
Lemma select_file_by_fid_sibling :
  exists f card',
    select_file_by_fid (P := bench_recordless) 1 [0x4102] 1 false card_on_4101
    = Done (0, f) card'
    /\ cached_path (drv_data card') = [0x3F00; 0x4100; 0x4102].
Proof.
  eexists. eexists. split; [lazy; reflexivity|].
  edestruct (select_file_by_fid_relative (P := bench_recordless) 1 0x4102 []
               false card_on_4101 0)
    as [(_ & Hpath) | (Hneg & _)];
    [apply bench_recordless_ok | discriminate | discriminate | discriminate
    | lazy; reflexivity | |].
  - exact Hpath.
  - lia.
Defined.

(** X18 on a response that names the file ABC. *)
Lemma do_select_delivers_the_name :
  exists file card',
    do_select
      (P := bench [Answer 0x90 0x00
                     [0x6F; 13; 0x83; 2; 0x41; 0x01; 0x84; 3; 65; 66; 67;
                      0x81; 2; 0; 100]] 0)
      MCRD_SEL_EF [0x41; 0x01] true card_in_4100
    = Done (0, Some file) card'
    /\ file_name file = [65; 66; 67]
    /\ file_namelen file = Z.of_nat (length (file_name file))
    /\ 0 <= file_namelen file <= 16.
Proof.
  eexists. eexists. split; [lazy; reflexivity|]. split; [reflexivity|].
  edestruct (do_select_delivers_a_descriptor
               (P := bench [Answer 0x90 0x00
                              [0x6F; 13; 0x83; 2; 0x41; 0x01; 0x84; 3;
                               65; 66; 67; 0x81; 2; 0; 100]] 0)
               MCRD_SEL_EF [0x41; 0x01] true card_in_4100 0)
    as [_ Hname]; [apply bench_ok | lazy; reflexivity |].
  apply Hname. reflexivity.
Defined.

(** X19 on a descriptor whose only object is 85 02 01 00: the size is 256
    and no proprietary attributes are kept. *)
Lemma process_fcp_size_from_the_extension_256 :
  exists file card',
    process_fcp (P := bench [] 0) sc_file_new [0x85; 2; 0x01; 0x00] blank_card
    = Done file card'
    /\ file_size file = 256
    /\ file_prop_attr_len file = 0
    /\ file_prop_attr file = [].
Proof.
  eexists. eexists. split; [lazy; reflexivity|].
  edestruct (process_fcp_size_from_the_extension (P := bench [] 0)
               sc_file_new [0x85; 2; 0x01; 0x00] [0x01; 0x00] blank_card)
    as (Hsize & Hattr);
    [reflexivity | reflexivity | lazy; reflexivity |].
  split; [exact Hsize|]. apply Hattr. exact I.
Defined.

(** X20 on the identifier 3FFF with a descriptor asked for. *)
Lemma mcrd_select_file_3fff :
  mcrd_select_file (P := bench [] 0) 0
    (path_of SC_PATH_TYPE_FILE_ID [0x3F; 0xFF]) true card_in_4100
  = Done (0, None) card_in_4100.
Proof.
  apply (proj1 (mcrd_select_file_answers_without_the_card
                  (P := bench [] 0) 0
                  (path_of SC_PATH_TYPE_FILE_ID [0x3F; 0xFF]) true
                  card_in_4100 (or_intror eq_refl) eq_refl
                  ltac:(cbn; lia)));
    reflexivity.
Defined.

(** X21 on a session that has loaded its root and then enters 4100, a
    directory without rule file: the entry of the root is kept behind the
    new entry. *)
Lemma loaded_directories_are_kept_root :
  exists rs card',
    resolve_all
      (P := bench [Answer 0x90 0x00 []; Answer 0x6A 0x82 [];
                   Answer 0x90 0x00 []; Answer 0x6A 0x82 []] 0)
      1 [(path_of SC_PATH_TYPE_PATH [0x3F; 0x00; 0x41; 0x00], false)]
      (card_with_rules [{| rule_recno := 1; rule_data := [0x80] |}])
    = Done rs card'
    /\ length (df_infos (drv_data card')) = 2%nat
    /\ In {| path := MFID :: repeat 0 9; pathlen := 1;
             rule_file := [{| rule_recno := 1; rule_data := [0x80] |}];
             keyd_file := [] |}
          (df_infos (drv_data card')).
Proof.
  eexists. eexists. split; [lazy; reflexivity|]. split; [reflexivity|].
  eapply (proj1 (loaded_directories_are_kept
                   (P := bench [Answer 0x90 0x00 []; Answer 0x6A 0x82 [];
                                Answer 0x90 0x00 []; Answer 0x6A 0x82 []] 0)
                   {| path := MFID :: repeat 0 9; pathlen := 1;
                      rule_file := [{| rule_recno := 1;
                                       rule_data := [0x80] |}];
                      keyd_file := [] |}
                   1 ltac:(discriminate))
            [(path_of SC_PATH_TYPE_PATH [0x3F; 0x00; 0x41; 0x00], false)]
            (card_with_rules [{| rule_recno := 1; rule_data := [0x80] |}])).
  - left. reflexivity.
  - lazy. reflexivity.
Defined.

(** X22 on a name selected with a descriptor asked for: the length kept
    by the framework stays 7. *)
Lemma do_select_keeps_the_framework_cache :
  exists r f card',
    do_select (P := bench [Answer 0x90 0x00 [0x6F; 0]] 0) MCRD_SEL_AID
      [0xD2; 0x76] true
      {| drv_data := drv_data card_in_4100; card_cla := 0;
         cache_current_path_len := 7; transmitted := [] |}
    = Done (r, f) card'
    /\ r = 0
    /\ cache_current_path_len card' = 7.
Proof.
  eexists. eexists. eexists. split; [lazy; reflexivity|].
  split; [reflexivity|].
  etransitivity;
    [eapply (do_select_clears_the_framework_cache
               (P := bench [Answer 0x90 0x00 [0x6F; 0]] 0) MCRD_SEL_AID
               [0xD2; 0x76] true
               {| drv_data := drv_data card_in_4100; card_cla := 0;
                  cache_current_path_len := 7; transmitted := [] |});
     lazy; reflexivity
    | reflexivity].
Defined.

